(** * Unity Catalog workshop labs: statements, catalog service, properties

    The repository consists of four notebooks (labs 1, 3, 4 and 5).  Each one
    computes a per-user identifier in Python and then sends a fixed, linear
    sequence of SQL statements to the hosted catalog service.

    - [Identity] embeds the Python expression that derives the identifier.
    - [Sql] is the syntax of the statements the notebooks send.
    - [Labs] lists, cell by cell, the statements of every notebook.
    - [Platform] is the catalog service the statements act on.  The service
      is not part of the repository; its reaction to a statement follows the
      keywords of the statement and sections 3, 4 and 7 of the specification.
    - [SalesFact], [Security] embed the SQL expressions that the notebooks
      define: the fact-table query, the row filter and the column mask. *)

From Stdlib Require Import String Ascii List ZArith NArith Bool Lia.
From Stdlib Require Import Permutation Sorted.
Import ListNotations.
Open Scope string_scope.

(* ================================================================= *)
(** ** Identity resolver: [w.current_user.me().user_name.split('@')[0]] *)

Module Identity.

(** Python's [str.split(sep)] for a one-character separator: the pieces
    between consecutive separators, empty pieces included. *)
Fixpoint split_on (sep : ascii) (s : string) : list string :=
  match s with
  | EmptyString => [EmptyString]
  | String c rest =>
      if Ascii.eqb c sep then EmptyString :: split_on sep rest
      else match split_on sep rest with
           | [] => [String c EmptyString]
           | piece :: pieces => String c piece :: pieces
           end
  end.

(** Python's [xs[0]]: [None] stands for [IndexError]. *)
Definition index0 (xs : list string) : option string := nth_error xs 0.

(** [user_id = user_name.split('@')[0]].  [split] never returns the empty
    list (lemma [split_on_index0]), so the default is never taken. *)
Definition user_id (user_name : string) : string :=
  match index0 (split_on "@"%char user_name) with
  | Some piece => piece
  | None => EmptyString
  end.

(** [catalog_name = user_id] (all four notebooks). *)
Definition catalog_name (user_name : string) : string := user_id user_name.

(** [schema_name = "sales"] (labs 3, 4, 5). *)
Definition schema_name : string := "sales".

(** Does the character occur in the string? *)
Fixpoint occurs (c : ascii) (s : string) : bool :=
  match s with
  | EmptyString => false
  | String d rest => Ascii.eqb d c || occurs c rest
  end.

(** Python's [sep.join(pieces)]. *)
Fixpoint join (sep : ascii) (pieces : list string) : string :=
  match pieces with
  | [] => EmptyString
  | [piece] => piece
  | piece :: rest => piece ++ String sep (join sep rest)
  end.

(** How often the character occurs in the string. *)
Fixpoint count (c : ascii) (s : string) : nat :=
  match s with
  | EmptyString => 0
  | String d rest => (if Ascii.eqb d c then 1 else 0) + count c rest
  end.

End Identity.

(* ================================================================= *)
(** ** Statements sent to the SQL execution interface *)

Module Sql.

(** An identifier as the notebook writes it: between backquotes
    ([`{catalog_name}`]) or bare ([{catalog_name}], [sales]). *)
Inductive ident : Type :=
| Quoted (text : string)
| Bare (text : string).

Definition text_of (i : ident) : string :=
  match i with Quoted t => t | Bare t => t end.

(** How a [CREATE] statement treats an object that is already there. *)
Inductive create_mode : Type :=
| Plain          (* CREATE ...               *)
| IfNotExists    (* CREATE ... IF NOT EXISTS *)
| OrReplace.     (* CREATE OR REPLACE ...    *)

Inductive privilege : Type :=
| USE_CATALOG | BROWSE | USE_SCHEMA | SELECT | READ_VOLUME.

(** A schema is named [c.s] or, relative to the current catalog, [s]. *)
Inductive schema_ref : Type :=
| SchemaIn (c s : ident)
| SchemaCur (s : ident).

(** A table, volume or function is named [c.s.o] or, relative to the
    current catalog and schema, [o]. *)
Inductive object_ref : Type :=
| Obj3 (c s o : ident)
| Obj1 (o : ident).

Inductive securable_ref : Type :=
| OnCatalog (c : ident)
| OnSchema (s : schema_ref)
| OnTable (t : object_ref)
| OnVolume (v : object_ref).

Inductive table_format : Type := Delta | Iceberg.

(** What a [CREATE OR REPLACE TABLE ... AS SELECT] reads. *)
Inductive table_source : Type :=
| ReadFiles (path : string)
| FactJoin (lineitem orders customers suppliers : object_ref).

(** Bodies of the two SQL functions of lab 5. *)
Inductive expr : Type :=
| EParam (name : string)
| ETrue
| ELit (s : string)
| EIsAccountGroupMember (group : string)
| EIn (e : expr) (candidates : list string)
| EIf (cond then_ else_ : expr).

Inductive policy_kind : Type :=
| RowFilter (fn : object_ref) (using_columns : list string)
| ColumnMask (fn : object_ref) (on_column : string).

Inductive column_match : Type :=
| HasTag (tag : string)
| HasTagValue (tag value : string).

(** Statements that only read. *)
Inductive query : Type :=
| DescribeCatalogExtended (c : ident)
| SelectCurrentContext
| InformationSchemaCatalogs
| ShowVolumesIn (s : schema_ref)
| SelectAllFrom (t : object_ref)
| DescribeExtended (t : object_ref)
| ShowTblProperties (t : object_ref)
| InformationSchemaTables (c s : string)
| ShowTablesLike (pattern : string)
| ShowTablesDropped
| ShowGrants (o : securable_ref)
| TablePrivileges (c s : string)
| SchemaPrivileges (c s : string).

Inductive stmt : Type :=
| UseCatalog (c : ident)
| UseSchema (s : ident)
| CreateCatalog (m : create_mode) (c : ident) (comment : string)
| CreateSchema (m : create_mode) (s : schema_ref) (comment : string)
| CreateVolume (m : create_mode) (v : object_ref) (comment : string)
| CreateTableAs (m : create_mode) (t : object_ref) (f : table_format)
    (src : table_source)
| DropTable (t : object_ref)
| UndropTable (t : object_ref)
| UndropTableWithId (id : string)
| Grant (p : privilege) (o : securable_ref) (principal : string)
| Revoke (p : privilege) (o : securable_ref) (principal : string)
| CreateFunction (m : create_mode) (f : object_ref) (param : string)
    (body : expr)
| CreatePolicy (m : create_mode) (name : ident) (scope : schema_ref)
    (comment : string) (k : policy_kind) (principal : string)
    (cm : column_match) (alias : string)
| SetTableTags (t : object_ref) (tags : list (string * option string))
| SetColumnTags (t : object_ref) (column : ident)
    (tags : list (string * option string))
| Query (q : query).

Definition is_query (s : stmt) : bool :=
  match s with Query _ => true | _ => false end.

Definition is_create_catalog (s : stmt) : bool :=
  match s with CreateCatalog _ _ _ => true | _ => false end.

End Sql.

(* ================================================================= *)
(** ** The four notebooks, statement by statement *)

Module Labs.
Import Sql.

Definition account_users : string := "account users".

Definition changes_state (s : stmt) : bool := negb (is_query s).

(** A statement list creates the three namespace objects, each with
    IF NOT EXISTS, the catalog before the schema before the volume. *)
Definition creates_namespace_in_order (ss : list stmt) : Prop :=
  exists i j k c cc s sc v vc,
    (i < j)%nat /\ (j < k)%nat
    /\ nth_error ss i = Some (CreateCatalog IfNotExists c cc)
    /\ nth_error ss j = Some (CreateSchema IfNotExists s sc)
    /\ nth_error ss k = Some (CreateVolume IfNotExists v vc).

(** The statement shown, but not executed, by the markdown cell of
    001-Catalog-Creation.py, lines 51-54. *)
Definition documented_create_catalog (name : string) : stmt :=
  CreateCatalog IfNotExists (Quoted name) "Description of your catalog.".

(** 001-Catalog-Creation.py *)
Definition lab1 (user_name : string) : list stmt :=
  let catalog_name := Identity.catalog_name user_name in
  [ UseCatalog (Quoted catalog_name);
    Query (DescribeCatalogExtended (Quoted catalog_name));
    Query SelectCurrentContext;
    Query InformationSchemaCatalogs;
    CreateSchema IfNotExists (SchemaCur (Bare "sales"))
      "Sales schema to review customers and orders.";
    UseSchema (Bare "sales");
    Query SelectCurrentContext;
    CreateVolume IfNotExists (Obj1 (Bare "tracking"))
      "Volume for checkpoint files and schema tracking";
    Query (ShowVolumesIn (SchemaIn (Quoted catalog_name) (Bare "sales"))) ].

Definition files_root : string := "/Volumes/uc_wksp/gov_lab/files/".

Definition tableId_placeholder : string :=
  "update_this_value_with_your_tableId".

Definition customers : object_ref := Obj1 (Bare "customers").
Definition suppliers : object_ref := Obj1 (Bare "suppliers").

(** 003-Table-Creation-Management.py *)
Definition lab3 (user_name : string) : list stmt :=
  let catalog_name := Identity.catalog_name user_name in
  let schema_name := Identity.schema_name in
  let in_ns o := Obj3 (Bare catalog_name) (Bare schema_name) (Bare o) in
  [ UseCatalog (Quoted catalog_name);
    UseSchema (Quoted schema_name);
    Query SelectCurrentContext;
    CreateTableAs OrReplace customers Delta
      (ReadFiles (files_root ++ "customers/"));
    CreateTableAs OrReplace (Obj1 (Bare "nations")) Delta
      (ReadFiles (files_root ++ "nations/"));
    CreateTableAs OrReplace (Obj1 (Bare "orders")) Delta
      (ReadFiles (files_root ++ "orders/"));
    CreateTableAs OrReplace (Obj1 (Bare "regions")) Delta
      (ReadFiles (files_root ++ "regions/"));
    CreateTableAs OrReplace suppliers Iceberg
      (ReadFiles (files_root ++ "suppliers/"));
    CreateTableAs OrReplace (in_ns "sales_fact") Delta
      (FactJoin (Obj3 (Bare "samples") (Bare "tpch") (Bare "lineitem"))
                (in_ns "orders") (in_ns "customers") (in_ns "suppliers"));
    Query (SelectAllFrom customers);
    Query (SelectAllFrom suppliers);
    Query (DescribeExtended customers);
    Query (DescribeExtended suppliers);
    Query (ShowTblProperties customers);
    Query (ShowTblProperties suppliers);
    Query (InformationSchemaTables catalog_name schema_name);
    DropTable customers;
    Query (ShowTablesLike "customers");
    UndropTable customers;
    Query (ShowTablesLike "customers");
    DropTable customers;
    Query (ShowTablesLike "customers");
    Query ShowTablesDropped;
    UndropTableWithId tableId_placeholder;
    Query (ShowTablesLike "customers") ].

(** 004-Access-Control-Permissions.py *)
Definition lab4 (user_name : string) : list stmt :=
  let catalog_name := Identity.catalog_name user_name in
  let schema_name := Identity.schema_name in
  let cat := OnCatalog (Quoted catalog_name) in
  let sch := OnSchema (SchemaIn (Quoted catalog_name) (Quoted schema_name)) in
  let tbl := OnTable (Obj3 (Quoted catalog_name) (Quoted schema_name)
                           (Bare "sales_fact")) in
  let vol := OnVolume (Obj3 (Quoted catalog_name) (Quoted schema_name)
                            (Bare "tracking")) in
  [ UseCatalog (Quoted catalog_name);
    UseSchema (Quoted schema_name);
    Query SelectCurrentContext;
    Grant USE_CATALOG cat user_name;
    Grant BROWSE cat user_name;
    Grant USE_SCHEMA sch account_users;
    Grant SELECT sch account_users;
    Grant SELECT tbl account_users;
    Grant READ_VOLUME vol account_users;
    Query (ShowGrants (OnCatalog (Bare catalog_name)));
    Query (ShowGrants (OnSchema (SchemaCur (Bare schema_name))));
    Query (ShowGrants (OnTable (Obj3 (Bare catalog_name) (Bare schema_name)
                                     (Bare "sales_fact"))));
    Query (ShowGrants (OnVolume (Obj3 (Bare catalog_name) (Bare schema_name)
                                      (Bare "tracking"))));
    Revoke READ_VOLUME vol account_users;
    Revoke SELECT tbl account_users;
    Revoke SELECT sch account_users;
    Revoke USE_SCHEMA sch account_users;
    Revoke BROWSE cat account_users;
    Revoke USE_CATALOG cat account_users;
    Query (TablePrivileges catalog_name schema_name);
    Query (SchemaPrivileges catalog_name schema_name) ].

Definition filter_nation_body : expr :=
  EIf (EIsAccountGroupMember "geo") ETrue
      (EIn (EParam "nation") ["UNITED STATES"; "CANADA"]).

Definition mask_literal : string := "XXX Masked Address".

Definition mask_address_body : expr :=
  EIf (EIsAccountGroupMember "hr_admin") (EParam "address")
      (ELit mask_literal).

(** 005-Fine-Grained-Permissions.py *)
Definition lab5 (user_name : string) : list stmt :=
  let catalog_name := Identity.catalog_name user_name in
  let schema_name := Identity.schema_name in
  let quoted o := Obj3 (Quoted catalog_name) (Quoted schema_name) (Quoted o) in
  let in_ns o := Obj3 (Bare catalog_name) (Bare schema_name) (Bare o) in
  let scope := SchemaIn (Bare catalog_name) (Bare schema_name) in
  [ UseCatalog (Quoted catalog_name);
    UseSchema (Quoted schema_name);
    Query SelectCurrentContext;
    Query (SelectAllFrom (quoted "customers"));
    Query (SelectAllFrom (quoted "suppliers"));
    CreateFunction OrReplace (in_ns "filter_nation") "nation"
      filter_nation_body;
    CreateFunction OrReplace (in_ns "mask_address") "address"
      mask_address_body;
    CreatePolicy Plain (Bare "nation_filter") scope
      "Filter out nations for non-HR users"
      (RowFilter (in_ns "filter_nation") ["nation"])
      account_users (HasTag "uc_geo") "nation";
    CreatePolicy Plain (Bare "mask_address") scope
      "Mask PII address information."
      (ColumnMask (in_ns "mask_address") "address")
      account_users (HasTagValue "uc_pii" "address") "address";
    SetColumnTags (in_ns "customers") (Bare "c_address")
      [("uc_pii", Some "address")];
    SetTableTags (in_ns "suppliers") [("uc_geo", None)];
    SetColumnTags (in_ns "suppliers") (Bare "n_name") [("uc_geo", None)];
    Query (SelectAllFrom (quoted "customers"));
    Query (SelectAllFrom (quoted "suppliers")) ].

End Labs.

(* ================================================================= *)
(** ** The catalog service

    The service is external to the repository.  Its state and its reaction
    to each statement are modelled after the keywords of the statement
    (IF NOT EXISTS, OR REPLACE, DROP, UNDROP, GRANT, REVOKE) and after the
    specification: the entities of section 3, the operations of section 4
    and the error taxonomy of section 7.  The acting principal owns its
    namespace, so no statement is refused for lack of privilege. *)

Module Platform.
Import Sql.

Inductive error : Type :=
| AuthenticationError
| NotFoundError
| SourceReadError
| PermissionDeniedError
| PlatformError.

Definition key2 : Type := string * string.
Definition key3 : Type := string * string * string.

Definition key2_eqb (a b : key2) : bool :=
  (fst a =? fst b) && (snd a =? snd b).

Definition key3_eqb (a b : key3) : bool :=
  key2_eqb (fst a) (fst b) && (snd a =? snd b).

(** A resolved object reference. *)
Inductive securable : Type :=
| SCatalog (c : string)
| SSchema (k : key2)
| STable (k : key3)
| SVolume (k : key3).

Definition securable_eqb (a b : securable) : bool :=
  match a, b with
  | SCatalog c, SCatalog d => c =? d
  | SSchema k, SSchema l => key2_eqb k l
  | STable k, STable l => key3_eqb k l
  | SVolume k, SVolume l => key3_eqb k l
  | _, _ => false
  end.

Definition privilege_eqb (p q : privilege) : bool :=
  match p, q with
  | USE_CATALOG, USE_CATALOG | BROWSE, BROWSE | USE_SCHEMA, USE_SCHEMA
  | SELECT, SELECT | READ_VOLUME, READ_VOLUME => true
  | _, _ => false
  end.

(** Grant: the tuple (permission, object reference, principal). *)
Definition grant_entry : Type := privilege * securable * string.

Definition grant_eqb (g h : grant_entry) : bool :=
  privilege_eqb (fst (fst g)) (fst (fst h))
  && securable_eqb (snd (fst g)) (snd (fst h))
  && (snd g =? snd h).

Record table_entry : Type := {
  t_key : key3;
  t_id : N;
  t_format : table_format;
  t_source : table_source
}.

Record function_entry : Type := {
  f_key : key3;
  f_param : string;
  f_body : expr
}.

Record policy_entry : Type := {
  p_name : string;
  p_scope : key2;
  p_comment : string;
  p_kind : policy_kind;
  p_principal : string;
  p_match : column_match;
  p_alias : string
}.

Definition tag : Type := string * option string.

Record state : Type := {
  catalogs : list (string * string);       (* name, comment *)
  schemas : list (key2 * string);          (* (catalog, schema), comment *)
  volumes : list (key3 * string);
  tables : list table_entry;
  dropped : list table_entry;              (* most recently dropped first *)
  next_id : N;
  files : list string;                     (* readable source paths *)
  functions : list function_entry;
  policies : list policy_entry;
  table_tags : list (key3 * tag);
  column_tags : list (key3 * string * tag);
  grants : list grant_entry;
  cur_catalog : string;
  cur_schema : string
}.

Inductive result : Type :=
| Ok (st : state)
| Err (e : error).

(** *** Field updates *)

Definition set_catalogs (l : list (string * string)) (st : state) : state :=
  {| catalogs := l; schemas := schemas st; volumes := volumes st;
     tables := tables st; dropped := dropped st; next_id := next_id st;
     files := files st; functions := functions st; policies := policies st;
     table_tags := table_tags st; column_tags := column_tags st;
     grants := grants st; cur_catalog := cur_catalog st;
     cur_schema := cur_schema st |}.

Definition set_schemas (l : list (key2 * string)) (st : state) : state :=
  {| catalogs := catalogs st; schemas := l; volumes := volumes st;
     tables := tables st; dropped := dropped st; next_id := next_id st;
     files := files st; functions := functions st; policies := policies st;
     table_tags := table_tags st; column_tags := column_tags st;
     grants := grants st; cur_catalog := cur_catalog st;
     cur_schema := cur_schema st |}.

Definition set_volumes (l : list (key3 * string)) (st : state) : state :=
  {| catalogs := catalogs st; schemas := schemas st; volumes := l;
     tables := tables st; dropped := dropped st; next_id := next_id st;
     files := files st; functions := functions st; policies := policies st;
     table_tags := table_tags st; column_tags := column_tags st;
     grants := grants st; cur_catalog := cur_catalog st;
     cur_schema := cur_schema st |}.

Definition set_tables (live gone : list table_entry) (next : N) (st : state)
  : state :=
  {| catalogs := catalogs st; schemas := schemas st; volumes := volumes st;
     tables := live; dropped := gone; next_id := next;
     files := files st; functions := functions st; policies := policies st;
     table_tags := table_tags st; column_tags := column_tags st;
     grants := grants st; cur_catalog := cur_catalog st;
     cur_schema := cur_schema st |}.

Definition set_functions (l : list function_entry) (st : state) : state :=
  {| catalogs := catalogs st; schemas := schemas st; volumes := volumes st;
     tables := tables st; dropped := dropped st; next_id := next_id st;
     files := files st; functions := l; policies := policies st;
     table_tags := table_tags st; column_tags := column_tags st;
     grants := grants st; cur_catalog := cur_catalog st;
     cur_schema := cur_schema st |}.

Definition set_policies (l : list policy_entry) (st : state) : state :=
  {| catalogs := catalogs st; schemas := schemas st; volumes := volumes st;
     tables := tables st; dropped := dropped st; next_id := next_id st;
     files := files st; functions := functions st; policies := l;
     table_tags := table_tags st; column_tags := column_tags st;
     grants := grants st; cur_catalog := cur_catalog st;
     cur_schema := cur_schema st |}.

Definition set_tags (tt : list (key3 * tag)) (ct : list (key3 * string * tag))
  (st : state) : state :=
  {| catalogs := catalogs st; schemas := schemas st; volumes := volumes st;
     tables := tables st; dropped := dropped st; next_id := next_id st;
     files := files st; functions := functions st; policies := policies st;
     table_tags := tt; column_tags := ct;
     grants := grants st; cur_catalog := cur_catalog st;
     cur_schema := cur_schema st |}.

Definition set_grants (l : list grant_entry) (st : state) : state :=
  {| catalogs := catalogs st; schemas := schemas st; volumes := volumes st;
     tables := tables st; dropped := dropped st; next_id := next_id st;
     files := files st; functions := functions st; policies := policies st;
     table_tags := table_tags st; column_tags := column_tags st;
     grants := l; cur_catalog := cur_catalog st;
     cur_schema := cur_schema st |}.

Definition set_context (c s : string) (st : state) : state :=
  {| catalogs := catalogs st; schemas := schemas st; volumes := volumes st;
     tables := tables st; dropped := dropped st; next_id := next_id st;
     files := files st; functions := functions st; policies := policies st;
     table_tags := table_tags st; column_tags := column_tags st;
     grants := grants st; cur_catalog := c; cur_schema := s |}.

(** *** Lookups *)

Definition has_catalog (st : state) (c : string) : bool :=
  existsb (fun e => fst e =? c) (catalogs st).

Definition has_schema (st : state) (k : key2) : bool :=
  existsb (fun e => key2_eqb (fst e) k) (schemas st).

Definition has_volume (st : state) (k : key3) : bool :=
  existsb (fun e => key3_eqb (fst e) k) (volumes st).

Definition names (k : key3) (e : table_entry) : bool := key3_eqb (t_key e) k.

Definition has_table (st : state) (k : key3) : bool :=
  existsb (names k) (tables st).

Definition has_function (st : state) (k : key3) : bool :=
  existsb (fun e => key3_eqb (f_key e) k) (functions st).

Definition policy_named (scope : key2) (name : string) (e : policy_entry)
  : bool :=
  key2_eqb (p_scope e) scope && (p_name e =? name).

Definition has_policy (st : state) (scope : key2) (name : string) : bool :=
  existsb (policy_named scope name) (policies st).

Definition has_file (st : state) (path : string) : bool :=
  existsb (String.eqb path) (files st).

Definition has_grant (st : state) (g : grant_entry) : bool :=
  existsb (grant_eqb g) (grants st).

Definition exists_securable (st : state) (o : securable) : bool :=
  match o with
  | SCatalog c => has_catalog st c
  | SSchema k => has_schema st k
  | STable k => has_table st k
  | SVolume k => has_volume st k
  end.

(** *** Identifiers and name resolution *)

Definition ident_char (c : ascii) : bool :=
  let n := nat_of_ascii c in
  (((48 <=? n) && (n <=? 57))       (* 0-9 *)
   || ((65 <=? n) && (n <=? 90))    (* A-Z *)
   || ((97 <=? n) && (n <=? 122))   (* a-z *)
   || (n =? 95))%nat.               (* _   *)

Fixpoint all_ident_chars (s : string) : bool :=
  match s with
  | EmptyString => true
  | String c rest => ident_char c && all_ident_chars rest
  end.

(** A bare identifier must be a regular one: a non-empty run of letters,
    digits and underscores.  Anything else (a dot, a dash, a space) has to
    be written between backquotes. *)
Definition regular (s : string) : bool :=
  negb (s =? EmptyString) && all_ident_chars s.

Definition ident_ok (i : ident) : bool :=
  match i with Quoted _ => true | Bare t => regular t end.

(** [None]: the name does not parse. *)
Definition resolve_schema (st : state) (r : schema_ref) : option key2 :=
  match r with
  | SchemaIn c s =>
      if ident_ok c && ident_ok s then Some (text_of c, text_of s) else None
  | SchemaCur s =>
      if ident_ok s then Some (cur_catalog st, text_of s) else None
  end.

Definition resolve_object (st : state) (r : object_ref) : option key3 :=
  match r with
  | Obj3 c s o =>
      if ident_ok c && ident_ok s && ident_ok o
      then Some (text_of c, text_of s, text_of o) else None
  | Obj1 o =>
      if ident_ok o then Some (cur_catalog st, cur_schema st, text_of o)
      else None
  end.

Definition resolve_securable (st : state) (r : securable_ref)
  : option securable :=
  match r with
  | OnCatalog c => if ident_ok c then Some (SCatalog (text_of c)) else None
  | OnSchema s => option_map SSchema (resolve_schema st s)
  | OnTable t => option_map STable (resolve_object st t)
  | OnVolume v => option_map SVolume (resolve_object st v)
  end.

(** *** Table identifiers

    The service gives every table an identifier and shows it as a UUID:
    32 hexadecimal digits in groups of 8-4-4-4-12. *)

Definition hex_char (d : N) : ascii :=
  nth (N.to_nat d)
      ["0"; "1"; "2"; "3"; "4"; "5"; "6"; "7";
       "8"; "9"; "a"; "b"; "c"; "d"; "e"; "f"]%char "0"%char.

(** The [w] low hexadecimal digits of [n], least significant first. *)
Fixpoint hex_rev (w : nat) (n : N) : list ascii :=
  match w with
  | O => []
  | S w' => hex_char (n mod 16) :: hex_rev w' (n / 16)
  end.

Definition hex (w : nat) (n : N) : string :=
  string_of_list_ascii (rev (hex_rev w n)).

Definition render_id (n : N) : string :=
  hex 8 (n / 16 ^ 24) ++ "-" ++ hex 4 (n / 16 ^ 20) ++ "-"
  ++ hex 4 (n / 16 ^ 16) ++ "-" ++ hex 4 (n / 16 ^ 12) ++ "-" ++ hex 12 n.

(** *** Namespace operations *)

(** What a [CREATE] does, given whether the object is present: [added] is
    the state with the new object, [replaced] the state with the object
    replaced, where the statement has an OR REPLACE form. *)
Definition on_create (m : create_mode) (present : bool)
  (added : state) (replaced : option state) (st : state) : result :=
  if present then
    match m with
    | Plain => Err PlatformError
    | IfNotExists => Ok st
    | OrReplace =>
        match replaced with Some st' => Ok st' | None => Err PlatformError end
    end
  else
    match m, replaced with
    | OrReplace, None => Err PlatformError
    | _, _ => Ok added
    end.

Definition create_catalog (m : create_mode) (c comment : string) (st : state)
  : result :=
  on_create m (has_catalog st c)
    (set_catalogs ((c, comment) :: catalogs st) st) None st.

Definition create_schema (m : create_mode) (k : key2) (comment : string)
  (st : state) : result :=
  if has_catalog st (fst k) then
    on_create m (has_schema st k)
      (set_schemas ((k, comment) :: schemas st) st) None st
  else Err NotFoundError.

Definition create_volume (m : create_mode) (k : key3) (comment : string)
  (st : state) : result :=
  if has_schema st (fst k) then
    on_create m (has_volume st k)
      (set_volumes ((k, comment) :: volumes st) st) None st
  else Err NotFoundError.

Definition use_catalog (c : string) (st : state) : result :=
  if has_catalog st c then Ok (set_context c "default" st)
  else Err NotFoundError.

Definition use_schema (s : string) (st : state) : result :=
  if has_schema st (cur_catalog st, s) then Ok (set_context (cur_catalog st) s st)
  else Err NotFoundError.

(** *** Tables *)

(** Why the source of a CREATE TABLE AS SELECT cannot be read, if so. *)
Definition source_error (st : state) (src : table_source) : option error :=
  match src with
  | ReadFiles path => if has_file st path then None else Some SourceReadError
  | FactJoin l o c s =>
      match resolve_object st l, resolve_object st o,
            resolve_object st c, resolve_object st s with
      | Some kl, Some ko, Some kc, Some ks =>
          if has_table st kl && has_table st ko
             && has_table st kc && has_table st ks
          then None else Some NotFoundError
      | _, _, _, _ => Some PlatformError
      end
  end.

Definition new_table (k : key3) (id : N) (f : table_format)
  (src : table_source) : table_entry :=
  {| t_key := k; t_id := id; t_format := f; t_source := src |}.

(** The table named [k] gets new contents and keeps its identifier. *)
Definition replace_table (k : key3) (f : table_format) (src : table_source)
  (l : list table_entry) : list table_entry :=
  map (fun e => if names k e then new_table k (t_id e) f src else e) l.

(** The table list after CREATE OR REPLACE TABLE [k]. *)
Definition put_table (k : key3) (f : table_format) (src : table_source)
  (id : N) (l : list table_entry) : list table_entry :=
  if existsb (names k) l then replace_table k f src l
  else new_table k id f src :: l.

Definition create_table_as (m : create_mode) (k : key3) (f : table_format)
  (src : table_source) (st : state) : result :=
  if has_schema st (fst k) then
    match source_error st src with
    | Some e => Err e
    | None =>
        on_create m (has_table st k)
          (set_tables (new_table k (next_id st) f src :: tables st)
                      (dropped st) (N.succ (next_id st)) st)
          (Some (set_tables (replace_table k f src (tables st))
                            (dropped st) (next_id st) st))
          st
    end
  else Err NotFoundError.

Definition drop_table (k : key3) (st : state) : result :=
  match find (names k) (tables st) with
  | Some e =>
      Ok (set_tables (filter (fun d => negb (names k d)) (tables st))
                     (e :: dropped st) (next_id st) st)
  | None => Err NotFoundError
  end.

Definition restore (e : table_entry) (st : state) : result :=
  if has_table st (t_key e) then Err PlatformError
  else Ok (set_tables (e :: tables st)
                      (filter (fun d => negb (t_id d =? t_id e)%N) (dropped st))
                      (next_id st) st).

(** UNDROP TABLE name: the most recently dropped table of that name. *)
Definition undrop_table (k : key3) (st : state) : result :=
  match find (names k) (dropped st) with
  | Some e => restore e st
  | None => Err NotFoundError
  end.

(** UNDROP TABLE WITH ID 'id': the dropped table with that identifier. *)
Definition undrop_table_with_id (id : string) (st : state) : result :=
  match find (fun e => render_id (t_id e) =? id) (dropped st) with
  | Some e => restore e st
  | None => Err NotFoundError
  end.

(** *** Grants *)

Definition add_grant (g : grant_entry) (l : list grant_entry)
  : list grant_entry :=
  if existsb (grant_eqb g) l then l else g :: l.

Definition remove_grant (g : grant_entry) (l : list grant_entry)
  : list grant_entry :=
  filter (fun h => negb (grant_eqb g h)) l.

(** GRANT is additive and REVOKE subtractive; neither complains when the
    permission is already there, or already absent. *)
Definition grant (p : privilege) (o : securable) (principal : string)
  (st : state) : result :=
  if exists_securable st o
  then Ok (set_grants (add_grant (p, o, principal) (grants st)) st)
  else Err NotFoundError.

Definition revoke (p : privilege) (o : securable) (principal : string)
  (st : state) : result :=
  if exists_securable st o
  then Ok (set_grants (remove_grant (p, o, principal) (grants st)) st)
  else Err NotFoundError.

(** SHOW GRANTS ON o: the grant tuples whose object is [o]. *)
Definition list_grants (o : securable) (st : state) : list grant_entry :=
  filter (fun g => securable_eqb (snd (fst g)) o) (grants st).

(** *** Functions, policies, tags *)

Definition create_function (m : create_mode) (k : key3) (param : string)
  (body : expr) (st : state) : result :=
  if has_schema st (fst k) then
    let e := {| f_key := k; f_param := param; f_body := body |} in
    on_create m (has_function st k)
      (set_functions (e :: functions st) st)
      (Some (set_functions
               (e :: filter (fun d => negb (key3_eqb (f_key d) k))
                            (functions st)) st))
      st
  else Err NotFoundError.

Definition policy_function (k : policy_kind) : object_ref :=
  match k with RowFilter fn _ => fn | ColumnMask fn _ => fn end.

Definition create_policy (m : create_mode) (name : string) (scope : key2)
  (comment : string) (k : policy_kind) (principal : string)
  (cm : column_match) (alias : string) (st : state) : result :=
  if has_schema st scope then
    match resolve_object st (policy_function k) with
    | None => Err PlatformError
    | Some fk =>
        if has_function st fk then
          let e := {| p_name := name; p_scope := scope; p_comment := comment;
                      p_kind := k; p_principal := principal;
                      p_match := cm; p_alias := alias |} in
          on_create m (has_policy st scope name)
            (set_policies (e :: policies st) st)
            (Some (set_policies
                     (e :: filter (fun d => negb (policy_named scope name d))
                                  (policies st)) st))
            st
        else Err NotFoundError
    end
  else Err NotFoundError.

Definition set_table_tags (k : key3) (tags : list tag) (st : state) : result :=
  if has_table st k then
    Ok (set_tags (map (pair k) tags ++ table_tags st) (column_tags st) st)
  else Err NotFoundError.

Definition set_column_tags (k : key3) (column : string) (tags : list tag)
  (st : state) : result :=
  if has_table st k then
    Ok (set_tags (table_tags st)
                 (map (pair (k, column)) tags ++ column_tags st) st)
  else Err NotFoundError.

(** *** Read-only statements: the error they raise, if any *)

Definition must (found : bool) : option error :=
  if found then None else Some NotFoundError.

Definition query_error (q : query) (st : state) : option error :=
  match q with
  | DescribeCatalogExtended c =>
      if ident_ok c then must (has_catalog st (text_of c))
      else Some PlatformError
  | ShowVolumesIn s =>
      match resolve_schema st s with
      | Some k => must (has_schema st k)
      | None => Some PlatformError
      end
  | SelectAllFrom t | DescribeExtended t | ShowTblProperties t =>
      match resolve_object st t with
      | Some k => must (has_table st k)
      | None => Some PlatformError
      end
  | ShowGrants o =>
      match resolve_securable st o with
      | Some s => must (exists_securable st s)
      | None => Some PlatformError
      end
  | SelectCurrentContext | InformationSchemaCatalogs
  | InformationSchemaTables _ _ | ShowTablesLike _ | ShowTablesDropped
  | TablePrivileges _ _ | SchemaPrivileges _ _ => None
  end.

(** *** One statement, one notebook *)

(** A statement whose names do not parse is rejected. *)
Definition parsed {A : Type} (o : option A) (k : A -> result) : result :=
  match o with Some a => k a | None => Err PlatformError end.

Definition checked (i : ident) : option string :=
  if ident_ok i then Some (text_of i) else None.

Definition exec (s : stmt) (st : state) : result :=
  match s with
  | UseCatalog c => parsed (checked c) (fun c => use_catalog c st)
  | UseSchema s => parsed (checked s) (fun s => use_schema s st)
  | CreateCatalog m c comment =>
      parsed (checked c) (fun c => create_catalog m c comment st)
  | CreateSchema m s comment =>
      parsed (resolve_schema st s) (fun k => create_schema m k comment st)
  | CreateVolume m v comment =>
      parsed (resolve_object st v) (fun k => create_volume m k comment st)
  | CreateTableAs m t f src =>
      parsed (resolve_object st t) (fun k => create_table_as m k f src st)
  | DropTable t => parsed (resolve_object st t) (fun k => drop_table k st)
  | UndropTable t => parsed (resolve_object st t) (fun k => undrop_table k st)
  | UndropTableWithId id => undrop_table_with_id id st
  | Grant p o principal =>
      parsed (resolve_securable st o) (fun o => grant p o principal st)
  | Revoke p o principal =>
      parsed (resolve_securable st o) (fun o => revoke p o principal st)
  | CreateFunction m f param body =>
      parsed (resolve_object st f) (fun k => create_function m k param body st)
  | CreatePolicy m name scope comment k principal cm alias =>
      parsed (checked name) (fun name =>
      parsed (resolve_schema st scope) (fun scope =>
        create_policy m name scope comment k principal cm alias st))
  | SetTableTags t tags =>
      parsed (resolve_object st t) (fun k => set_table_tags k tags st)
  | SetColumnTags t column tags =>
      parsed (checked column) (fun column =>
      parsed (resolve_object st t) (fun k =>
        set_column_tags k column tags st))
  | Query q =>
      match query_error q st with Some e => Err e | None => Ok st end
  end.

(** How a notebook run ends: every cell ran, or cell [at_] raised [e] and
    the remaining cells were not run.  Nothing is rolled back. *)
Inductive outcome : Type :=
| Finished
| Aborted (at_ : nat) (e : error).

Fixpoint run_from (i : nat) (ss : list stmt) (st : state) : state * outcome :=
  match ss with
  | [] => (st, Finished)
  | s :: rest =>
      match exec s st with
      | Ok st' => run_from (S i) rest st'
      | Err e => (st, Aborted i e)
      end
  end.

Definition run (ss : list stmt) (st : state) : state * outcome :=
  run_from 0 ss st.

(** *** The operations under the names of the specification *)

(** Calling [op] again on the state it produced is accepted and changes
    nothing. *)
Definition idempotent (op : state -> result) : Prop :=
  forall st st', op st = Ok st' -> op st' = Ok st'.

(** Modelled from the spec: section 4.2, [ensure_catalog(name, comment)],
    create-if-absent; the statement it stands for is CREATE CATALOG IF NOT
    EXISTS, executed by the external service. *)
Definition ensure_catalog (name comment : string) : state -> result :=
  create_catalog IfNotExists name comment.

(** Modelled from the spec: section 4.2, [ensure_schema(catalog, name,
    comment)], create-if-absent, NotFoundError when the catalog is missing;
    CREATE SCHEMA IF NOT EXISTS, executed by the external service. *)
Definition ensure_schema (catalog name comment : string) : state -> result :=
  create_schema IfNotExists (catalog, name) comment.

(** Modelled from the spec: section 4.2, [ensure_volume(catalog, schema,
    name, comment)], create-if-absent, NotFoundError when the schema is
    missing; CREATE VOLUME IF NOT EXISTS, executed by the external service. *)
Definition ensure_volume (catalog schema name comment : string)
  : state -> result :=
  create_volume IfNotExists (catalog, schema, name) comment.

(** Statements that leave catalogs, schemas and tables as they are. *)
Definition keeps_objects (s : stmt) : bool :=
  match s with
  | UseCatalog _ | UseSchema _ | Grant _ _ _ | Revoke _ _ _ | Query _ => true
  | _ => false
  end.

(** What lab 3 relies on: the catalog named [c] and its schema [sales]
    (lab 1), the five source directories and the sample table. *)
Definition lab3_ready (c : string) (st : state) : bool :=
  regular c && has_catalog st c && has_schema st (c, "sales")
  && forallb (fun d => has_file st (Labs.files_root ++ d))
             ["customers/"; "nations/"; "orders/"; "regions/"; "suppliers/"]
  && has_table st ("samples", "tpch", "lineitem").

(** Where a run of lab 3 ends: cell 23, the UNDROP with the placeholder,
    raises NotFoundError; [customers] is not among the tables; the
    namespace is still there. *)
Definition lab3_end (c : string) (r : state * outcome) : Prop :=
  snd r = Aborted 23 NotFoundError
  /\ has_table (fst r) (c, "sales", "customers") = false
  /\ has_catalog (fst r) c = true
  /\ has_schema (fst r) (c, "sales") = true.

(** What lab 4 relies on: the namespace of lab 1 and the fact table of
    lab 3. *)
Definition lab4_ready (c : string) (st : state) : bool :=
  regular c && has_catalog st c && has_schema st (c, "sales")
  && has_table st (c, "sales", "sales_fact")
  && has_volume st (c, "sales", "tracking").

(** The state lab 1 leaves, from the state it starts in. *)
Definition lab1_state (c : string) (st : state) : state :=
  let k := (c, "sales") in
  let v := (c, "sales", "tracking") in
  set_volumes
    (if has_volume st v then volumes st
     else (v, "Volume for checkpoint files and schema tracking") :: volumes st)
    (set_schemas
       (if has_schema st k then schemas st
        else (k, "Sales schema to review customers and orders.") :: schemas st)
       (set_context c "sales" st)).

(** The grants lab 4 makes and the grants it revokes, in cell order. *)
Definition lab4_granted (c user_name : string) : list grant_entry :=
  [ (USE_CATALOG, SCatalog c, user_name);
    (BROWSE, SCatalog c, user_name);
    (USE_SCHEMA, SSchema (c, "sales"), Labs.account_users);
    (SELECT, SSchema (c, "sales"), Labs.account_users);
    (SELECT, STable (c, "sales", "sales_fact"), Labs.account_users);
    (READ_VOLUME, SVolume (c, "sales", "tracking"), Labs.account_users) ].

Definition lab4_revoked (c : string) : list grant_entry :=
  [ (READ_VOLUME, SVolume (c, "sales", "tracking"), Labs.account_users);
    (SELECT, STable (c, "sales", "sales_fact"), Labs.account_users);
    (SELECT, SSchema (c, "sales"), Labs.account_users);
    (USE_SCHEMA, SSchema (c, "sales"), Labs.account_users);
    (BROWSE, SCatalog c, Labs.account_users);
    (USE_CATALOG, SCatalog c, Labs.account_users) ].

Definition lab4_grants (c user_name : string) (l : list grant_entry)
  : list grant_entry :=
  fold_left (fun l g => remove_grant g l) (lab4_revoked c)
    (fold_left (fun l g => add_grant g l) (lab4_granted c user_name) l).

(** What lab 4 needs apart from a regular identifier. *)
Definition lab4_objects (c : string) (st : state) : bool :=
  has_catalog st c && has_schema st (c, "sales")
  && has_table st (c, "sales", "sales_fact")
  && has_volume st (c, "sales", "tracking").

(** What lab 5 relies on: the namespace of lab 1 and two tables of
    lab 3. *)
Definition lab5_ready (c : string) (st : state) : bool :=
  regular c && has_catalog st c && has_schema st (c, "sales")
  && has_table st (c, "sales", "customers")
  && has_table st (c, "sales", "suppliers").

(** A run of lab 5 that reached its end, with what it defined. *)
Definition lab5_done (c : string) (r : state * outcome) : Prop :=
  snd r = Finished
  /\ lab5_ready c (fst r) = true
  /\ has_function (fst r) (c, "sales", "filter_nation") = true
  /\ has_function (fst r) (c, "sales", "mask_address") = true
  /\ has_policy (fst r) (c, "sales") "nation_filter" = true
  /\ has_policy (fst r) (c, "sales") "mask_address" = true.

(** A run of lab 5, started in [st], that stopped at its first CREATE
    POLICY. *)
Definition lab5_stopped (c : string) (st : state) (r : state * outcome)
  : Prop :=
  snd r = Aborted 7 PlatformError
  /\ policies (fst r) = policies st
  /\ has_function (fst r) (c, "sales", "filter_nation") = true
  /\ has_function (fst r) (c, "sales", "mask_address") = true.

(** A small service state to run the notebooks on: the catalog of user
    [jdoe] and the sample catalog exist, the source files are readable. *)
Definition provisioned : state :=
  {| catalogs := [("jdoe", "workshop catalog"); ("samples", "")];
     schemas := [(("jdoe", "default"), ""); (("samples", "tpch"), "")];
     volumes := [];
     tables := [new_table ("samples", "tpch", "lineitem") 0 Delta
                          (ReadFiles "")];
     dropped := [];
     next_id := 1;
     files := map (fun d => Labs.files_root ++ d)
                  ["customers/"; "nations/"; "orders/"; "regions/";
                   "suppliers/"];
     functions := []; policies := []; table_tags := []; column_tags := [];
     grants := [];
     cur_catalog := "hive_metastore"; cur_schema := "default" |}.

(** The same service without the user's catalog. *)
Definition unprovisioned : state := set_catalogs [("samples", "")] provisioned.

(** The service after labs 1 and 3 for user [jdoe]. *)
Definition after_lab3 : state :=
  let u := "jdoe@example.com" in
  fst (run (Labs.lab3 u) (fst (run (Labs.lab1 u) provisioned))).

(** The service after labs 1, 3 and 4 for user [jdoe], with [customers]
    restored by name, as the learner is asked to do. *)
Definition before_lab5 : state :=
  let u := "jdoe@example.com" in
  let restored := fst (run [UndropTable Labs.customers] after_lab3) in
  fst (run (Labs.lab4 u) restored).

End Platform.

(* ================================================================= *)
(** ** The fact-table query of lab 3

    [SELECT row_number() OVER (ORDER BY l.l_orderkey, l.l_linenumber) ...
     FROM samples.tpch.lineitem l JOIN orders o ON l.l_orderkey = o.o_orderkey
     JOIN customers c ON o.o_custkey = c.c_custkey
     JOIN suppliers s ON l.l_suppkey = s.s_suppkey].

    Keys are integers, the date is a day number, the price is in
    hundredths.  Only the columns the query mentions are kept. *)

Module SalesFact.
Open Scope Z_scope.

Record lineitem : Type := {
  l_orderkey : Z; l_linenumber : Z; l_suppkey : Z;
  l_extendedprice : Z; l_quantity : Z
}.
Record order : Type := { o_orderkey : Z; o_custkey : Z; o_orderdate : Z }.
Record customer : Type := { c_custkey : Z }.
Record supplier : Type := { s_suppkey : Z }.

(** The input snapshot: the four tables the query reads. *)
Record snapshot : Type := {
  lineitems : list lineitem;
  orders : list order;
  customers : list customer;
  suppliers : list supplier
}.

(** A row of the join, before the SELECT list is applied. *)
Definition joined : Type := lineitem * order * customer * supplier.

Definition join (s : snapshot) : list joined :=
  flat_map (fun l =>
    flat_map (fun o =>
      if l_orderkey l =? o_orderkey o then
        flat_map (fun c =>
          if o_custkey o =? c_custkey c then
            flat_map (fun su =>
              if l_suppkey l =? s_suppkey su then [(l, o, c, su)] else [])
              (suppliers s)
          else [])
          (customers s)
      else [])
      (orders s))
    (lineitems s).

(** The columns of [sales_fact] after [sales_key]. *)
Record fact : Type := {
  order_key : Z; lineitem_key : Z; customer_key : Z; supplier_key : Z;
  date_key : Z; sales_amount : Z; quantity : Z
}.

Definition select (j : joined) : fact :=
  let '(l, o, c, su) := j in
  {| order_key := o_orderkey o; lineitem_key := l_linenumber l;
     customer_key := c_custkey c; supplier_key := s_suppkey su;
     date_key := o_orderdate o; sales_amount := l_extendedprice l;
     quantity := l_quantity l |}.

(** ORDER BY l.l_orderkey, l.l_linenumber *)
Definition order_by (j : joined) : Z * Z :=
  let '(l, _, _, _) := j in (l_orderkey l, l_linenumber l).

Definition key_le (a b : Z * Z) : Prop :=
  fst a < fst b \/ (fst a = fst b /\ snd a <= snd b).

Definition key_leb (a b : Z * Z) : bool :=
  (fst a <? fst b) || ((fst a =? fst b) && (snd a <=? snd b)).

Definition before (i j : joined) : Prop := key_le (order_by i) (order_by j).

(** [row_number()] over rows already in window order: 1, 2, 3, ... *)
Definition number (js : list joined) : list (nat * fact) :=
  combine (seq 1 (length js)) (map select js).

(** The tables the statement may produce: the service numbers the joined
    rows along any arrangement that respects the ORDER BY; how it arranges
    rows with equal ordering keys is not determined by the statement. *)
Definition sales_fact_result (s : snapshot) (out : list (nat * fact)) : Prop :=
  exists js, Permutation js (join s) /\ Sorted before js /\ out = number js.

(** One such arrangement: insertion sort, ties kept in join order. *)
Fixpoint insert (j : joined) (js : list joined) : list joined :=
  match js with
  | [] => [j]
  | k :: rest =>
      if key_leb (order_by j) (order_by k) then j :: js
      else k :: insert j rest
  end.

Fixpoint sort (js : list joined) : list joined :=
  match js with
  | [] => []
  | j :: rest => insert j (sort rest)
  end.

Definition sales_fact (s : snapshot) : list (nat * fact) :=
  number (sort (join s)).

(** The ordering key as the fact table shows it. *)
Definition shown_key (f : fact) : Z * Z := (order_key f, lineitem_key f).

(** Row [a] comes before row [b]: smaller number, ordering key not
    greater. *)
Definition follows (a b : nat * fact) : Prop :=
  (fst a < fst b)%nat /\ key_le (shown_key (snd a)) (shown_key (snd b)).

(** The ordering key of a line item. *)
Definition line_key (l : lineitem) : Z * Z := (l_orderkey l, l_linenumber l).

(** The joined rows of one line item. *)
Definition rows_of (s : snapshot) (l : lineitem) : list joined :=
  flat_map (fun o =>
    if l_orderkey l =? o_orderkey o then
      flat_map (fun c =>
        if o_custkey o =? c_custkey c then
          flat_map (fun su =>
            if l_suppkey l =? s_suppkey su then [(l, o, c, su)] else [])
            (suppliers s)
        else [])
        (customers s)
    else [])
    (orders s).

(** The keys of the four tables identify their rows. *)
Definition primary_keys (s : snapshot) : Prop :=
  NoDup (map line_key (lineitems s))
  /\ NoDup (map o_orderkey (orders s))
  /\ NoDup (map c_custkey (customers s))
  /\ NoDup (map s_suppkey (suppliers s)).

(** Two snapshots hold the same rows, possibly stored in another order. *)
Definition same_rows (s s' : snapshot) : Prop :=
  Permutation (lineitems s) (lineitems s')
  /\ Permutation (orders s) (orders s')
  /\ Permutation (customers s) (customers s')
  /\ Permutation (suppliers s) (suppliers s').

(** A snapshot in which order 1 is recorded twice, with different dates. *)
Definition twice_recorded : snapshot :=
  {| lineitems := [ {| l_orderkey := 1; l_linenumber := 1; l_suppkey := 7;
                       l_extendedprice := 1000; l_quantity := 2 |} ];
     orders := [ {| o_orderkey := 1; o_custkey := 5; o_orderdate := 100 |};
                 {| o_orderkey := 1; o_custkey := 5; o_orderdate := 200 |} ];
     customers := [ {| c_custkey := 5 |} ];
     suppliers := [ {| s_suppkey := 7 |} ] |}.

(** A snapshot with unique keys. *)
Definition small : snapshot :=
  {| lineitems := [ {| l_orderkey := 2; l_linenumber := 1; l_suppkey := 7;
                       l_extendedprice := 500; l_quantity := 1 |};
                    {| l_orderkey := 1; l_linenumber := 2; l_suppkey := 7;
                       l_extendedprice := 300; l_quantity := 4 |};
                    {| l_orderkey := 1; l_linenumber := 1; l_suppkey := 8;
                       l_extendedprice := 1000; l_quantity := 2 |} ];
     orders := [ {| o_orderkey := 1; o_custkey := 5; o_orderdate := 100 |};
                 {| o_orderkey := 2; o_custkey := 6; o_orderdate := 200 |} ];
     customers := [ {| c_custkey := 5 |}; {| c_custkey := 6 |} ];
     suppliers := [ {| s_suppkey := 7 |}; {| s_suppkey := 8 |} ] |}.

End SalesFact.

(* ================================================================= *)
(** ** The security functions and policies of lab 5 *)

Module Security.
Import Sql.

(** Who reads: the login and the account groups the login belongs to. *)
Record session : Type := { login : string; groups : list string }.

(** IS_ACCOUNT_GROUP_MEMBER('g') *)
Definition is_account_group_member (who : session) (g : string) : bool :=
  existsb (String.eqb g) (groups who).

(** [filter_nation(nation string) RETURN
     IF(IS_ACCOUNT_GROUP_MEMBER('geo'), true,
        nation IN ("UNITED STATES", "CANADA"))].
    [None] is SQL's NULL: [NULL IN (...)] is NULL. *)
Definition filter_nation (who : session) (nation : option string)
  : option bool :=
  if is_account_group_member who "geo" then Some true
  else match nation with
       | Some n => Some (existsb (String.eqb n) ["UNITED STATES"; "CANADA"])
       | None => None
       end.

(** [mask_address(address string) RETURN
     IF(IS_ACCOUNT_GROUP_MEMBER('hr_admin'), address, "XXX Masked Address")] *)
Definition mask_address (who : session) (address : option string)
  : option string :=
  if is_account_group_member who "hr_admin" then address
  else Some "XXX Masked Address".

(** The mask changes every address it is given, for every reader outside
    [hr_admin]. *)
Definition masks_every_address : Prop :=
  forall (who : session) (address : option string),
    is_account_group_member who "hr_admin" = false ->
    mask_address who address <> address.

(** *** The same two functions, from the bodies the notebook registers *)

Inductive value : Type :=
| VNull
| VBool (b : bool)
| VStr (s : string)
| VInt (z : Z).

Definition of_string (o : option string) : value :=
  match o with Some s => VStr s | None => VNull end.

Definition of_bool (o : option bool) : value :=
  match o with Some b => VBool b | None => VNull end.

Definition as_string (v : value) : option string :=
  match v with VStr s => Some s | _ => None end.

(** Evaluation of a function body for session [who] and argument [arg]. *)
Fixpoint eval (who : session) (arg : option string) (e : expr) : value :=
  match e with
  | EParam _ => of_string arg
  | ETrue => VBool true
  | ELit s => VStr s
  | EIsAccountGroupMember g => VBool (is_account_group_member who g)
  | EIn e' candidates =>
      match eval who arg e' with
      | VStr s => VBool (existsb (String.eqb s) candidates)
      | _ => VNull
      end
  | EIf c t f =>
      match eval who arg c with
      | VBool true => eval who arg t
      | _ => eval who arg f
      end
  end.

(** *** Tables as a reader sees them *)

Inductive sqltype : Type := TString | TBigint | TBoolean.

Record column : Type := {
  col_name : string;
  col_type : sqltype;
  col_tags : list (string * option string)
}.

Definition row : Type := list value.

Record table : Type := { columns : list column; rows : list row }.

Definition has_type (v : value) (t : sqltype) : bool :=
  match v, t with
  | VNull, _ | VStr _, TString | VInt _, TBigint | VBool _, TBoolean => true
  | _, _ => false
  end.

Fixpoint row_typed (cols : list column) (r : row) : bool :=
  match cols, r with
  | [], [] => true
  | c :: cols', v :: r' => has_type v (col_type c) && row_typed cols' r'
  | _, _ => false
  end.

(** hasTag('t') and hasTagValue('t', 'v') on a column. *)
Definition col_matches (cm : column_match) (c : column) : bool :=
  match cm with
  | HasTag t => existsb (fun tg => fst tg =? t) (col_tags c)
  | HasTagValue t v =>
      existsb (fun tg => (fst tg =? t)
                         && match snd tg with
                            | Some w => w =? v
                            | None => false
                            end)
              (col_tags c)
  end.

(** A policy binds a matching column to a string parameter. *)
Definition binds (cm : column_match) (c : column) : bool :=
  col_matches cm c
  && match col_type c with TString => true | _ => false end.

Fixpoint bound_column (cm : column_match) (cols : list column) : option nat :=
  match cols with
  | [] => None
  | c :: rest =>
      if binds cm c then Some O else option_map S (bound_column cm rest)
  end.

(** TO `account users`: the policy applies to the login itself or to
    members of the group of that name. *)
Definition applies_to (who : session) (principal : string) : bool :=
  (login who =? principal) || is_account_group_member who principal.

(** A row is visible when the filter function returns true (not false, not
    NULL) on the bound column. *)
Definition visible (who : session) (i : nat) (r : row) : bool :=
  match filter_nation who (as_string (nth i r VNull)) with
  | Some true => true
  | _ => false
  end.

(** A read under policy [nation_filter]: ROW FILTER filter_nation
    TO `account users` FOR TABLES MATCH COLUMNS hasTag('uc_geo') AS nation
    USING COLUMNS (nation). *)
Definition read_nation_filter (who : session) (t : table) : list row :=
  if applies_to who Labs.account_users then
    match bound_column (HasTag "uc_geo") (columns t) with
    | Some i => filter (visible who i) (rows t)
    | None => rows t
    end
  else rows t.

Definition mask_cell (who : session) (v : value) : value :=
  match v with
  | VStr s => of_string (mask_address who (Some s))
  | VNull => of_string (mask_address who None)
  | other => other
  end.

Fixpoint mask_row (who : session) (cols : list column) (r : row) : row :=
  match cols, r with
  | c :: cols', v :: r' =>
      (if binds (HasTagValue "uc_pii" "address") c then mask_cell who v else v)
      :: mask_row who cols' r'
  | _, _ => r
  end.

(** A read under policy [mask_address]: COLUMN MASK mask_address
    TO `account users` FOR TABLES MATCH COLUMNS
    hasTagValue('uc_pii', 'address') AS address ON COLUMN address. *)
Definition read_mask_address (who : session) (t : table) : table :=
  {| columns := columns t;
     rows := if applies_to who Labs.account_users
             then map (mask_row who (columns t)) (rows t)
             else rows t |}.

(** The same table with other rows. *)
Definition with_rows (t : table) (rs : list row) : table :=
  {| columns := columns t; rows := rs |}.

(** A cell the mask function takes: a string or NULL. *)
Definition maskable (v : value) : bool :=
  match v with VStr _ | VNull => true | _ => false end.

(** Two rows are equal except, possibly, in the cells of the columns that
    the mask policy binds. *)
Fixpoint differ_only_in_masked (cols : list column) (r1 r2 : row) : Prop :=
  match cols, r1, r2 with
  | [], [], [] => True
  | c :: cols', v1 :: r1', v2 :: r2' =>
      (if binds (HasTagValue "uc_pii" "address") c
       then maskable v1 = true /\ maskable v2 = true
       else v1 = v2)
      /\ differ_only_in_masked cols' r1' r2'
  | _, _, _ => False
  end.

(** [xs] is [ys] with some rows left out. *)
Inductive subrows : list row -> list row -> Prop :=
| subrows_nil : subrows [] []
| subrows_keep r xs ys : subrows xs ys -> subrows (r :: xs) (r :: ys)
| subrows_skip r xs ys : subrows xs ys -> subrows xs (r :: ys).

(** Two readers and a tagged table to try the reads on. *)
Definition analyst : session :=
  {| login := "ann@example.com"; groups := ["account users"] |}.

Definition hr_officer : session :=
  {| login := "bob@example.com"; groups := ["account users"; "hr_admin"] |}.

Definition tagged_customers : table :=
  {| columns := [ {| col_name := "c_custkey"; col_type := TBigint;
                     col_tags := [] |};
                  {| col_name := "c_address"; col_type := TString;
                     col_tags := [("uc_pii", Some "address")] |};
                  {| col_name := "n_name"; col_type := TString;
                     col_tags := [("uc_geo", None)] |} ];
     rows := [ [VInt 1; VStr "1 Main St"; VStr "CANADA"];
               [VInt 2; VStr "XXX Masked Address"; VStr "FRANCE"];
               [VInt 3; VNull; VNull] ] |}.

End Security.

(* ================================================================= *)
(** * Properties *)

(** ** Identity resolver *)

Module IdentityFacts.
Import Identity.

Lemma split_on_nonempty (sep : ascii) (s : string) : split_on sep s <> [].
Proof.
  destruct s as [|c rest]; simpl; [discriminate|].
  destruct (Ascii.eqb c sep); [discriminate|].
  destruct (split_on sep rest); discriminate.
Qed.

(** [split('@')[0]] never raises IndexError. *)
Lemma split_on_index0 (s : string) :
  index0 (split_on "@"%char s) = Some (user_id s).
Proof.
  unfold user_id, index0.
  destruct (split_on "@"%char s) eqn:E; [|reflexivity].
  now apply split_on_nonempty in E.
Qed.

(** A piece without separator followed by a separator is the first piece. *)
Lemma split_on_first (sep : ascii) (u rest : string) :
  occurs sep u = false ->
  split_on sep (u ++ String sep rest) = u :: split_on sep rest.
Proof.
  induction u as [|c u IH]; simpl; intros H.
  - now rewrite Ascii.eqb_refl.
  - apply orb_false_iff in H as [Hc Hu].
    rewrite Hc, (IH Hu). reflexivity.
Qed.

(** A login without '@' is its own identifier. *)
Lemma split_on_absent (sep : ascii) (u : string) :
  occurs sep u = false -> split_on sep u = [u].
Proof.
  induction u as [|c u IH]; simpl; intros H; [reflexivity|].
  apply orb_false_iff in H as [Hc Hu].
  now rewrite Hc, (IH Hu).
Qed.

(** The identifier never contains '@'. *)
Lemma user_id_no_at (s : string) : occurs "@"%char (user_id s) = false.
Proof.
  unfold user_id, index0.
  induction s as [|c s IH]; simpl; [reflexivity|].
  destruct (Ascii.eqb c "@"%char) eqn:Hc; simpl; [reflexivity|].
  destruct (split_on "@"%char s) as [|p ps] eqn:E; simpl in *.
  - now rewrite Hc.
  - now rewrite Hc, IH.
Qed.

(** C2.  For a login [u@domain], where [u] is the part before the first
    '@' (so [u] itself has no '@'), [split('@')[0]] returns [u] without
    raising, and this [u] is the catalog name. *)
Theorem derive_namespace_local_part (u domain : string) :
  occurs "@"%char u = false ->
  index0 (split_on "@"%char (u ++ "@" ++ domain)) = Some u
  /\ user_id (u ++ "@" ++ domain) = u
  /\ catalog_name (u ++ "@" ++ domain) = u.
Proof.
  intros H. unfold catalog_name, user_id.
  change ("@" ++ domain) with (String "@"%char domain).
  rewrite (split_on_first _ _ _ H). simpl. auto.
Qed.

Lemma derive_namespace_jdoe :
  occurs "@"%char "jdoe" = false
  /\ index0 (split_on "@"%char "jdoe@example.com") = Some "jdoe"
  /\ user_id "jdoe@example.com" = "jdoe"
  /\ catalog_name "jdoe@example.com" = "jdoe".
Proof.
  split; [reflexivity|].
  apply (derive_namespace_local_part "jdoe" "example.com"). reflexivity.
Defined.

End IdentityFacts.
(** ** The catalog service: stepping lemmas *)

Module PlatformFacts.
Import Sql Platform.

Lemma key2_eqb_eq (a b : key2) : key2_eqb a b = true <-> a = b.
Proof.
  destruct a as [a1 a2], b as [b1 b2]. unfold key2_eqb. simpl.
  rewrite andb_true_iff, !String.eqb_eq. split.
  - now intros [-> ->].
  - intros H. injection H. auto.
Qed.

Lemma key3_eqb_eq (a b : key3) : key3_eqb a b = true <-> a = b.
Proof.
  destruct a as [a1 a2], b as [b1 b2]. unfold key3_eqb. simpl.
  rewrite andb_true_iff, key2_eqb_eq, String.eqb_eq. split.
  - now intros [-> ->].
  - intros H. injection H. auto.
Qed.

Lemma key2_eqb_refl (k : key2) : key2_eqb k k = true.
Proof. now apply key2_eqb_eq. Qed.

Lemma key3_eqb_refl (k : key3) : key3_eqb k k = true.
Proof. now apply key3_eqb_eq. Qed.

Lemma privilege_eqb_eq (p q : privilege) : privilege_eqb p q = true <-> p = q.
Proof. destruct p, q; simpl; split; intros H; congruence. Qed.

Lemma securable_eqb_eq (a b : securable) : securable_eqb a b = true <-> a = b.
Proof.
  destruct a, b; simpl;
    rewrite ?String.eqb_eq, ?key2_eqb_eq, ?key3_eqb_eq;
    split; intros H; congruence.
Qed.

Lemma grant_eqb_eq (g h : grant_entry) : grant_eqb g h = true <-> g = h.
Proof.
  destruct g as [[p o] u], h as [[q o'] u']. unfold grant_eqb. simpl.
  rewrite !andb_true_iff, privilege_eqb_eq, securable_eqb_eq, String.eqb_eq.
  split.
  - now intros [[-> ->] ->].
  - intros H. injection H. auto.
Qed.

Lemma grant_eqb_refl (g : grant_entry) : grant_eqb g g = true.
Proof. now apply grant_eqb_eq. Qed.

Lemma grant_eqb_neq (g h : grant_entry) : g <> h -> grant_eqb g h = false.
Proof.
  intros H. destruct (grant_eqb g h) eqn:E; [|reflexivity].
  now apply grant_eqb_eq in E.
Qed.

(** *** Running a notebook one cell at a time *)

Lemma run_from_step (i : nat) (s : stmt) (rest : list stmt)
  (st st' : state) (r : state * outcome) :
  exec s st = Ok st' ->
  run_from (S i) rest st' = r ->
  run_from i (s :: rest) st = r.
Proof. intros He Hr. simpl. now rewrite He. Qed.

Lemma run_from_abort (i : nat) (s : stmt) (rest : list stmt)
  (st : state) (e : error) :
  exec s st = Err e ->
  run_from i (s :: rest) st = (st, Aborted i e).
Proof. intros He. simpl. now rewrite He. Qed.

(** The state reached is the state of the last cell that ran. *)
Lemma run_from_app (i : nat) (ss tt : list stmt) (st : state) :
  run_from i (ss ++ tt) st =
  match run_from i ss st with
  | (st', Finished) => run_from (i + length ss) tt st'
  | aborted => aborted
  end.
Proof.
  revert i st. induction ss as [|s ss IH]; intros i st; simpl.
  - now rewrite Nat.add_0_r.
  - destruct (exec s st) as [st'|e]; [|reflexivity].
    rewrite IH. now rewrite Nat.add_succ_r.
Qed.

(** *** What each statement of the notebooks does when it is accepted *)

Lemma exec_use_catalog (c : ident) (st : state) :
  ident_ok c = true ->
  has_catalog st (text_of c) = true ->
  exec (UseCatalog c) st = Ok (set_context (text_of c) "default" st).
Proof.
  intros Hi Hc. unfold exec, checked, parsed, use_catalog.
  now rewrite Hi, Hc.
Qed.

Lemma exec_use_schema (s : ident) (st : state) :
  ident_ok s = true ->
  has_schema st (cur_catalog st, text_of s) = true ->
  exec (UseSchema s) st = Ok (set_context (cur_catalog st) (text_of s) st).
Proof.
  intros Hi Hs. unfold exec, checked, parsed, use_schema.
  now rewrite Hi, Hs.
Qed.

Lemma exec_query (q : query) (st : state) :
  query_error q st = None -> exec (Query q) st = Ok st.
Proof. intros H. unfold exec. now rewrite H. Qed.

Lemma must_found (b : bool) : b = true -> must b = None.
Proof. now intros ->. Qed.

Lemma state_eta (st : state) :
  st = set_schemas (schemas st) st.
Proof. now destruct st. Qed.

Lemma exec_create_schema_if_not_exists (r : schema_ref) (k : key2)
  (comment : string) (st : state) :
  resolve_schema st r = Some k ->
  has_catalog st (fst k) = true ->
  exec (CreateSchema IfNotExists r comment) st =
  Ok (set_schemas (if has_schema st k then schemas st
                   else (k, comment) :: schemas st) st).
Proof.
  intros Hr Hc. unfold exec, parsed, create_schema, on_create.
  rewrite Hr, Hc. destruct (has_schema st k); [|reflexivity].
  now destruct st.
Qed.

Lemma exec_create_volume_if_not_exists (r : object_ref) (k : key3)
  (comment : string) (st : state) :
  resolve_object st r = Some k ->
  has_schema st (fst k) = true ->
  exec (CreateVolume IfNotExists r comment) st =
  Ok (set_volumes (if has_volume st k then volumes st
                   else (k, comment) :: volumes st) st).
Proof.
  intros Hr Hs. unfold exec, parsed, create_volume, on_create.
  rewrite Hr, Hs. destruct (has_volume st k); [|reflexivity].
  now destruct st.
Qed.

End PlatformFacts.

Module NamespaceFacts.
Import Sql Platform Labs Identity PlatformFacts.

Lemma has_schema_added (k : key2) (comment : string) (b : bool)
  (l : list (key2 * string)) :
  existsb (fun e => key2_eqb (fst e) k) l = b ->
  existsb (fun e => key2_eqb (fst e) k)
          (if b then l else (k, comment) :: l) = true.
Proof.
  intros H. destruct b; [exact H|]. simpl. now rewrite key2_eqb_refl.
Qed.

Lemma has_volume_added (k : key3) (comment : string) (b : bool)
  (l : list (key3 * string)) :
  existsb (fun e => key3_eqb (fst e) k) l = b ->
  existsb (fun e => key3_eqb (fst e) k)
          (if b then l else (k, comment) :: l) = true.
Proof.
  intros H. destruct b; [exact H|]. simpl. now rewrite key3_eqb_refl.
Qed.

(** C1 (amended).  Lab 1 creates no catalog: it selects the catalog named
    after the user, which must already be there, with USE CATALOG; then it
    issues CREATE SCHEMA IF NOT EXISTS sales, USE SCHEMA sales and CREATE
    VOLUME IF NOT EXISTS tracking, in this order.  When the catalog exists
    the run finishes, the set of catalogs is unchanged, the schema and the
    volume exist and the context is (catalog, sales). *)
Theorem lab1_builds_namespace (user_name : string) (st : state) :
  has_catalog st (catalog_name user_name) = true ->
  filter changes_state (lab1 user_name) =
    [ UseCatalog (Quoted (catalog_name user_name));
      CreateSchema IfNotExists (SchemaCur (Bare "sales"))
        "Sales schema to review customers and orders.";
      UseSchema (Bare "sales");
      CreateVolume IfNotExists (Obj1 (Bare "tracking"))
        "Volume for checkpoint files and schema tracking" ]
  /\ exists st',
       run (lab1 user_name) st = (st', Finished)
       /\ catalogs st' = catalogs st
       /\ has_schema st' (catalog_name user_name, "sales") = true
       /\ has_volume st' (catalog_name user_name, "sales", "tracking") = true
       /\ cur_catalog st' = catalog_name user_name
       /\ cur_schema st' = "sales".
Proof.
  intros Hc. split; [reflexivity|].
  unfold lab1, run. set (c := catalog_name user_name) in *.
  assert (Hs : forall b l,
             existsb (fun e => key2_eqb (fst e) (c, "sales")) l = b ->
             existsb (fun e => key2_eqb (fst e) (c, "sales"))
               (if b then l
                else ((c, "sales"),
                      "Sales schema to review customers and orders.") :: l)
             = true) by (intros; now apply has_schema_added).
  eexists. split.
  - eapply run_from_step; [now apply exec_use_catalog|].
    eapply run_from_step; [apply exec_query, must_found; exact Hc|].
    eapply run_from_step; [now apply exec_query|].
    eapply run_from_step; [now apply exec_query|].
    eapply run_from_step;
      [apply exec_create_schema_if_not_exists with (k := (c, "sales"));
       [reflexivity|exact Hc]|].
    eapply run_from_step;
      [apply exec_use_schema; [reflexivity|apply Hs; reflexivity]|].
    eapply run_from_step; [now apply exec_query|].
    eapply run_from_step;
      [apply exec_create_volume_if_not_exists
         with (k := (c, "sales", "tracking"));
       [reflexivity|apply Hs; reflexivity]|].
    eapply run_from_step;
      [apply exec_query, must_found; apply Hs; reflexivity|].
    reflexivity.
  - repeat split.
    + apply Hs. reflexivity.
    + apply has_volume_added. reflexivity.
Qed.

Lemma lab1_builds_namespace_jdoe :
  has_catalog provisioned (catalog_name "jdoe@example.com") = true
  /\ exists st',
       run (lab1 "jdoe@example.com") provisioned = (st', Finished)
       /\ catalogs st' = catalogs provisioned
       /\ has_schema st' (catalog_name "jdoe@example.com", "sales") = true
       /\ has_volume st' (catalog_name "jdoe@example.com", "sales", "tracking")
          = true
       /\ cur_catalog st' = catalog_name "jdoe@example.com"
       /\ cur_schema st' = "sales".
Proof.
  split; [reflexivity|].
  apply (lab1_builds_namespace "jdoe@example.com" provisioned). reflexivity.
Defined.

(** C1 as stated fails: lab 1 contains no CREATE CATALOG statement, and on
    a service without the user's catalog its first cell raises
    NotFoundError instead of creating the catalog. *)
Lemma lab1_creates_no_catalog :
  ~ creates_namespace_in_order (lab1 "jdoe@example.com")
  /\ run (lab1 "jdoe@example.com") unprovisioned
     = (unprovisioned, Aborted 0 NotFoundError).
Proof.
  split; [|reflexivity].
  intros (i & j & k & c & cc & s & sc & v & vc & _ & _ & Hi & _).
  apply nth_error_In in Hi. simpl in Hi.
  repeat (destruct Hi as [Hi|Hi]; [discriminate|]). exact Hi.
Qed.

(** The documented statement, had it been run first, would have made the
    claim true: it is the only missing step. *)
Lemma documented_statement_would_do :
  creates_namespace_in_order
    (documented_create_catalog "jdoe" :: lab1 "jdoe@example.com")
  /\ snd (run (documented_create_catalog "jdoe" :: lab1 "jdoe@example.com")
              unprovisioned) = Finished.
Proof.
  split; [|reflexivity].
  exists 0%nat, 5%nat, 8%nat. unfold documented_create_catalog. simpl.
  repeat eexists; lia.
Qed.

(** *** Idempotence of the create-if-absent family *)

Lemma ensure_catalog_idempotent (name comment : string) :
  idempotent (ensure_catalog name comment).
Proof.
  intros st st'. unfold ensure_catalog, create_catalog, on_create.
  destruct (has_catalog st name) eqn:E; intros H; injection H as <-.
  - now rewrite E.
  - unfold has_catalog. simpl. now rewrite String.eqb_refl.
Qed.

Lemma ensure_schema_idempotent (catalog name comment : string) :
  idempotent (ensure_schema catalog name comment).
Proof.
  intros st st'. unfold ensure_schema, create_schema, on_create. simpl fst.
  destruct (has_catalog st catalog) eqn:Ec; [|discriminate].
  destruct (has_schema st (catalog, name)) eqn:E; intros H; injection H as <-.
  - now rewrite Ec, E.
  - change (has_catalog (set_schemas ?l st) catalog)
      with (has_catalog st catalog). rewrite Ec.
    unfold has_schema at 1. simpl. now rewrite key2_eqb_refl.
Qed.

Lemma ensure_volume_idempotent (catalog schema name comment : string) :
  idempotent (ensure_volume catalog schema name comment).
Proof.
  intros st st'. unfold ensure_volume, create_volume, on_create. simpl fst.
  destruct (has_schema st (catalog, schema)) eqn:Ec; [|discriminate].
  destruct (has_volume st (catalog, schema, name)) eqn:E;
    intros H; injection H as <-.
  - now rewrite Ec, E.
  - change (has_schema (set_volumes ?l st) (catalog, schema))
      with (has_schema st (catalog, schema)). rewrite Ec.
    unfold has_volume at 1. simpl. now rewrite key3_eqb_refl.
Qed.

(** The two statements of lab 1, as the notebook writes them (names
    relative to the current context), are idempotent as well. *)
Lemma create_schema_statement_idempotent (r : schema_ref) (comment : string) :
  idempotent (exec (CreateSchema IfNotExists r comment)).
Proof.
  intros st st' H. unfold exec, parsed in *.
  destruct (resolve_schema st r) as [[c s]|] eqn:Er; [|discriminate].
  assert (Er' : resolve_schema st' r = Some (c, s)).
  { unfold create_schema, on_create in H.
    destruct (has_catalog st (fst (c, s))); [|discriminate].
    destruct (has_schema st (c, s)); injection H as <-; exact Er. }
  rewrite Er'. exact (ensure_schema_idempotent c s comment st st' H).
Qed.

Lemma create_volume_statement_idempotent (r : object_ref) (comment : string) :
  idempotent (exec (CreateVolume IfNotExists r comment)).
Proof.
  intros st st' H. unfold exec, parsed in *.
  destruct (resolve_object st r) as [[[c s] v]|] eqn:Er; [|discriminate].
  assert (Er' : resolve_object st' r = Some (c, s, v)).
  { unfold create_volume, on_create in H.
    destruct (has_schema st (fst (c, s, v))); [|discriminate].
    destruct (has_volume st (c, s, v)); injection H as <-; exact Er. }
  rewrite Er'. exact (ensure_volume_idempotent c s v comment st st' H).
Qed.

(** When the parent object exists the operation is accepted and the object
    is there afterwards; without the parent it raises NotFoundError. *)
Lemma ensure_schema_accepted (catalog name comment : string) (st : state) :
  has_catalog st catalog = true ->
  exists st', ensure_schema catalog name comment st = Ok st'
              /\ has_schema st' (catalog, name) = true.
Proof.
  intros Hc. unfold ensure_schema, create_schema, on_create. simpl fst.
  rewrite Hc. destruct (has_schema st (catalog, name)) eqn:E.
  - now exists st.
  - eexists. split; [reflexivity|].
    unfold has_schema. simpl. now rewrite key2_eqb_refl.
Qed.

Lemma ensure_schema_orphan (catalog name comment : string) (st : state) :
  has_catalog st catalog = false ->
  ensure_schema catalog name comment st = Err NotFoundError.
Proof.
  intros Hc. unfold ensure_schema, create_schema. simpl fst. now rewrite Hc.
Qed.

(** C3.  Each of [ensure_catalog], [ensure_schema] and [ensure_volume],
    called a second time with the same arguments on the state the first
    call produced, is accepted (no duplicate-object error) and returns
    that state unchanged; so are the CREATE SCHEMA IF NOT EXISTS and CREATE
    VOLUME IF NOT EXISTS statements as lab 1 writes them. *)
Theorem ensure_twice_is_once (catalog schema volume comment : string)
  (rs : schema_ref) (rv : object_ref) (st st' : state) :
  (ensure_catalog catalog comment st = Ok st' ->
   ensure_catalog catalog comment st' = Ok st')
  /\ (ensure_schema catalog schema comment st = Ok st' ->
      ensure_schema catalog schema comment st' = Ok st')
  /\ (ensure_volume catalog schema volume comment st = Ok st' ->
      ensure_volume catalog schema volume comment st' = Ok st')
  /\ (exec (CreateSchema IfNotExists rs comment) st = Ok st' ->
      exec (CreateSchema IfNotExists rs comment) st' = Ok st')
  /\ (exec (CreateVolume IfNotExists rv comment) st = Ok st' ->
      exec (CreateVolume IfNotExists rv comment) st' = Ok st').
Proof.
  repeat split.
  - apply ensure_catalog_idempotent.
  - apply ensure_schema_idempotent.
  - apply ensure_volume_idempotent.
  - apply create_schema_statement_idempotent.
  - apply create_volume_statement_idempotent.
Qed.

(** The scenario of the specification: [ensure_catalog("jdoe")] twice,
    the catalog is there exactly once. *)
Lemma ensure_catalog_jdoe_twice :
  let once := set_catalogs [("jdoe", "c"); ("samples", "")] provisioned in
  ensure_catalog "jdoe" "c" unprovisioned = Ok once
  /\ ensure_catalog "jdoe" "c" once = Ok once
  /\ List.length (filter (fun e => fst e =? "jdoe") (catalogs once)) = 1%nat.
Proof.
  assert (H : ensure_catalog "jdoe" "c" unprovisioned
              = Ok (set_catalogs [("jdoe", "c"); ("samples", "")] provisioned))
    by reflexivity.
  simpl. split; [exact H|]. split; [|reflexivity].
  exact (proj1 (ensure_twice_is_once "jdoe" "sales" "tracking" "c"
                 (SchemaCur (Bare "sales")) (Obj1 (Bare "tracking")) _ _) H).
Defined.

End NamespaceFacts.

(** ** Grants and revokes *)

Module GrantFacts.
Import Sql Platform Labs Identity PlatformFacts.

Lemma has_grant_In (g : grant_entry) (l : list grant_entry) :
  existsb (grant_eqb g) l = true <-> In g l.
Proof.
  rewrite existsb_exists. split.
  - intros (h & Hin & He). apply grant_eqb_eq in He. now subst.
  - intros H. exists g. split; [exact H|apply grant_eqb_refl].
Qed.

Lemma In_add_grant (g h : grant_entry) (l : list grant_entry) :
  In h (add_grant g l) <-> h = g \/ In h l.
Proof.
  unfold add_grant. destruct (existsb (grant_eqb g) l) eqn:E.
  - apply has_grant_In in E. split; [auto|]. now intros [->|H].
  - simpl. split; intros [H|H]; auto.
Qed.

Lemma In_remove_grant (g h : grant_entry) (l : list grant_entry) :
  In h (remove_grant g l) <-> In h l /\ h <> g.
Proof.
  unfold remove_grant. rewrite filter_In, negb_true_iff. split.
  - intros [H E]. split; [exact H|]. intros ->.
    now rewrite grant_eqb_refl in E.
  - intros [H E]. split; [exact H|]. apply grant_eqb_neq. congruence.
Qed.

Lemma exec_grant (p : privilege) (r : securable_ref) (o : securable)
  (principal : string) (st : state) :
  resolve_securable st r = Some o ->
  exists_securable st o = true ->
  exec (Grant p r principal) st
  = Ok (set_grants (add_grant (p, o, principal) (grants st)) st).
Proof.
  intros Hr He. unfold exec, parsed, grant. now rewrite Hr, He.
Qed.

Lemma exec_revoke (p : privilege) (r : securable_ref) (o : securable)
  (principal : string) (st : state) :
  resolve_securable st r = Some o ->
  exists_securable st o = true ->
  exec (Revoke p r principal) st
  = Ok (set_grants (remove_grant (p, o, principal) (grants st)) st).
Proof.
  intros Hr He. unfold exec, parsed, revoke. now rewrite Hr, He.
Qed.

Lemma show_grants_accepted (r : securable_ref) (o : securable) (st : state) :
  resolve_securable st r = Some o ->
  exists_securable st o = true ->
  exec (Query (ShowGrants r)) st = Ok st.
Proof.
  intros Hr He. apply exec_query. simpl. now rewrite Hr, He.
Qed.

(** C8.  On an existing object, GRANT SELECT to [G] followed by REVOKE
    SELECT from [G] are both accepted, and SHOW GRANTS on that object then
    has no SELECT entry for [G]. *)
Theorem grant_then_revoke_select (r : securable_ref) (o : securable)
  (G : string) (st : state) :
  resolve_securable st r = Some o ->
  exists_securable st o = true ->
  exists st1 st2,
    exec (Grant SELECT r G) st = Ok st1
    /\ exec (Revoke SELECT r G) st1 = Ok st2
    /\ exec (Query (ShowGrants r)) st2 = Ok st2
    /\ forall g, In g (list_grants o st2) ->
                 ~ (fst (fst g) = SELECT /\ snd g = G).
Proof.
  intros Hr He. do 2 eexists.
  split; [apply exec_grant with (o := o); assumption|].
  split; [apply exec_revoke with (o := o); [exact Hr|exact He]|].
  split; [apply show_grants_accepted with (o := o); [exact Hr|exact He]|].
  intros [[p o'] u] Hin [Hp Hu]. simpl in Hp, Hu. subst p u.
  unfold list_grants in Hin. apply filter_In in Hin as [Hin Ho].
  simpl in Ho. apply securable_eqb_eq in Ho. subst o'.
  simpl in Hin. apply In_remove_grant in Hin as [_ Hne]. now apply Hne.
Qed.


Lemma grant_then_revoke_select_sales_fact :
  let r := OnTable (Obj3 (Quoted "jdoe") (Quoted "sales") (Bare "sales_fact")) in
  let o := STable ("jdoe", "sales", "sales_fact") in
  resolve_securable after_lab3 r = Some o
  /\ exists_securable after_lab3 o = true
  /\ exists st1 st2,
       exec (Grant SELECT r account_users) after_lab3 = Ok st1
       /\ exec (Revoke SELECT r account_users) st1 = Ok st2
       /\ exec (Query (ShowGrants r)) st2 = Ok st2
       /\ forall g, In g (list_grants o st2) ->
                    ~ (fst (fst g) = SELECT /\ snd g = account_users).
Proof.
  cbv zeta.
  assert (Hr : resolve_securable after_lab3
                 (OnTable (Obj3 (Quoted "jdoe") (Quoted "sales")
                                (Bare "sales_fact")))
               = Some (STable ("jdoe", "sales", "sales_fact")))
    by (vm_compute; reflexivity).
  assert (He : exists_securable after_lab3
                 (STable ("jdoe", "sales", "sales_fact")) = true)
    by (vm_compute; reflexivity).
  split; [exact Hr|]. split; [exact He|].
  exact (grant_then_revoke_select _ _ account_users after_lab3 Hr He).
Defined.

Lemma resolve_bare_schema (c s : string) (st : state) :
  regular c = true -> regular s = true ->
  resolve_schema st (SchemaIn (Bare c) (Bare s)) = Some (c, s).
Proof. intros Hc Hs. simpl. now rewrite Hc, Hs. Qed.

Lemma resolve_bare_object (c s o : string) (st : state) :
  regular c = true -> regular s = true -> regular o = true ->
  resolve_object st (Obj3 (Bare c) (Bare s) (Bare o)) = Some (c, s, o).
Proof. intros Hc Hs Ho. simpl. now rewrite Hc, Hs, Ho. Qed.

Ltac accepted lemma := eapply run_from_step; [lemma|].

(** C9.  For a user other than the group `account users`, on a service
    where the objects of labs 1 and 3 exist, lab 4 runs to its end and the
    USE_CATALOG and BROWSE grants it made to the user are still there: no
    REVOKE on a catalog names the grantee of a GRANT on a catalog. *)
Theorem lab4_keeps_user_grants (user_name : string) (st : state) :
  user_name <> account_users ->
  lab4_ready (catalog_name user_name) st = true ->
  exists st',
    run (lab4 user_name) st = (st', Finished)
    /\ has_grant st' (USE_CATALOG, SCatalog (catalog_name user_name), user_name)
       = true
    /\ has_grant st' (BROWSE, SCatalog (catalog_name user_name), user_name)
       = true
    /\ forall p c1 c2 g,
         In (Grant p (OnCatalog c1) g) (lab4 user_name) ->
         ~ In (Revoke p (OnCatalog c2) g) (lab4 user_name).
Proof.
  intros Hu Hready. unfold lab4_ready in Hready.
  apply andb_true_iff in Hready as [Hready Hvol].
  apply andb_true_iff in Hready as [Hready Htbl].
  apply andb_true_iff in Hready as [Hready Hsch].
  apply andb_true_iff in Hready as [Hreg Hcat].
  unfold lab4, run, schema_name. set (c := catalog_name user_name) in *.
  eexists. split; [|split; [|split]].
  - accepted ltac:(now apply exec_use_catalog).
    accepted ltac:(apply exec_use_schema; [reflexivity|exact Hsch]).
    accepted ltac:(now apply exec_query).
    accepted ltac:(apply exec_grant with (o := SCatalog c);
                   [reflexivity|exact Hcat]).
    accepted ltac:(apply exec_grant with (o := SCatalog c);
                   [reflexivity|exact Hcat]).
    accepted ltac:(apply exec_grant with (o := SSchema (c, "sales"));
                   [reflexivity|exact Hsch]).
    accepted ltac:(apply exec_grant with (o := SSchema (c, "sales"));
                   [reflexivity|exact Hsch]).
    accepted ltac:(apply exec_grant with (o := STable (c, "sales", "sales_fact"));
                   [reflexivity|exact Htbl]).
    accepted ltac:(apply exec_grant with (o := SVolume (c, "sales", "tracking"));
                   [reflexivity|exact Hvol]).
    accepted ltac:(apply show_grants_accepted with (o := SCatalog c);
                   [simpl; now rewrite Hreg|exact Hcat]).
    accepted ltac:(apply show_grants_accepted with (o := SSchema (c, "sales"));
                   [reflexivity|exact Hsch]).
    accepted ltac:(apply show_grants_accepted
                     with (o := STable (c, "sales", "sales_fact"));
                   [simpl; now rewrite Hreg|exact Htbl]).
    accepted ltac:(apply show_grants_accepted
                     with (o := SVolume (c, "sales", "tracking"));
                   [simpl; now rewrite Hreg|exact Hvol]).
    accepted ltac:(apply exec_revoke with (o := SVolume (c, "sales", "tracking"));
                   [reflexivity|exact Hvol]).
    accepted ltac:(apply exec_revoke with (o := STable (c, "sales", "sales_fact"));
                   [reflexivity|exact Htbl]).
    accepted ltac:(apply exec_revoke with (o := SSchema (c, "sales"));
                   [reflexivity|exact Hsch]).
    accepted ltac:(apply exec_revoke with (o := SSchema (c, "sales"));
                   [reflexivity|exact Hsch]).
    accepted ltac:(apply exec_revoke with (o := SCatalog c);
                   [reflexivity|exact Hcat]).
    accepted ltac:(apply exec_revoke with (o := SCatalog c);
                   [reflexivity|exact Hcat]).
    accepted ltac:(now apply exec_query).
    accepted ltac:(now apply exec_query).
    reflexivity.
  - apply has_grant_In. cbn [grants set_grants].
    repeat (apply In_remove_grant; split; [|congruence]).
    repeat (apply In_add_grant; first [left; reflexivity | right]).
  - apply has_grant_In. cbn [grants set_grants].
    repeat (apply In_remove_grant; split; [|congruence]).
    repeat (apply In_add_grant; first [left; reflexivity | right]).
  - intros p c1 c2 g Hg Hr. simpl in Hg, Hr.
    repeat (destruct Hg as [Hg|Hg]; [try discriminate Hg|]);
      [..|exact Hg];
      injection Hg as <- <- <-;
      repeat (destruct Hr as [Hr|Hr]; [try discriminate Hr|]);
      try exact Hr; injection Hr as Hr; now apply Hu.
Qed.

Lemma lab4_keeps_user_grants_jdoe :
  exists st3 : state,
    fst (run (lab3 "jdoe@example.com")
             (fst (run (lab1 "jdoe@example.com") provisioned))) = st3
    /\ "jdoe@example.com" <> account_users
    /\ lab4_ready (catalog_name "jdoe@example.com") st3 = true
    /\ exists st',
         run (lab4 "jdoe@example.com") st3 = (st', Finished)
         /\ has_grant st' (USE_CATALOG, SCatalog "jdoe", "jdoe@example.com")
            = true
         /\ has_grant st' (BROWSE, SCatalog "jdoe", "jdoe@example.com") = true.
Proof.
  eexists. split; [reflexivity|].
  split; [discriminate|]. split; [reflexivity|].
  destruct (lab4_keeps_user_grants "jdoe@example.com"
              (fst (run (lab3 "jdoe@example.com")
                        (fst (run (lab1 "jdoe@example.com") provisioned)))))
    as (st' & Hrun & Hu & Hb & _); [discriminate|reflexivity|].
  exists st'. auto.
Defined.

End GrantFacts.

(** ** Tables: create or replace, drop, undrop *)

Module TableFacts.
Import Sql Platform Labs Identity PlatformFacts.

Lemma length_string_of_list (l : list ascii) :
  String.length (string_of_list_ascii l) = List.length l.
Proof. induction l as [|c l IH]; simpl; congruence. Qed.

Lemma length_append (a b : string) :
  String.length (a ++ b) = (String.length a + String.length b)%nat.
Proof. induction a as [|c a IH]; simpl; congruence. Qed.

Lemma length_hex_rev (w : nat) (n : N) : List.length (hex_rev w n) = w.
Proof. revert n. induction w as [|w IH]; intros n; simpl; congruence. Qed.

Lemma length_hex (w : nat) (n : N) : String.length (hex w n) = w.
Proof.
  unfold hex. now rewrite length_string_of_list, length_rev, length_hex_rev.
Qed.

(** Every table identifier is shown with 36 characters. *)
Lemma render_id_length (n : N) : String.length (render_id n) = 36%nat.
Proof.
  unfold render_id. rewrite !length_append, !length_hex. reflexivity.
Qed.

(** The placeholder of lab 3 has 35 characters: it is no identifier. *)
Lemma render_id_not_placeholder (n : N) : render_id n <> tableId_placeholder.
Proof.
  intros H. apply (f_equal String.length) in H.
  rewrite render_id_length in H. discriminate H.
Qed.

Lemma no_table_has_placeholder_id (l : list table_entry) :
  find (fun e => render_id (t_id e) =? tableId_placeholder) l = None.
Proof.
  induction l as [|e l IH]; cbn [find]; [reflexivity|].
  destruct (render_id (t_id e) =? tableId_placeholder) eqn:E; [|exact IH].
  apply String.eqb_eq in E. now apply render_id_not_placeholder in E.
Qed.

Lemma exec_undrop_placeholder (st : state) :
  exec (UndropTableWithId tableId_placeholder) st = Err NotFoundError.
Proof.
  unfold exec, undrop_table_with_id.
  now rewrite no_table_has_placeholder_id.
Qed.

Lemma find_names (k : key3) (l : list table_entry) :
  existsb (names k) l = true ->
  exists e, find (names k) l = Some e /\ t_key e = k.
Proof.
  induction l as [|d l IH]; simpl; [discriminate|].
  destruct (names k d) eqn:E.
  - intros _. exists d. split; [reflexivity|]. now apply key3_eqb_eq.
  - exact IH.
Qed.

Lemma names_key (e : table_entry) : names (t_key e) e = true.
Proof. apply key3_eqb_refl. Qed.

Lemma dropped_out (k : key3) (l : list table_entry) :
  existsb (names k) (filter (fun d => negb (names k d)) l) = false.
Proof.
  induction l as [|d l IH]; simpl; [reflexivity|].
  destruct (names k d) eqn:E; simpl; [exact IH|]. now rewrite E.
Qed.

Lemma replace_table_keeps (k k' : key3) (f : table_format)
  (src : table_source) (l : list table_entry) :
  existsb (names k') (replace_table k f src l) = existsb (names k') l.
Proof.
  induction l as [|d l IH]; simpl; [reflexivity|]. rewrite IH. f_equal.
  destruct (names k d) eqn:E; [|reflexivity].
  apply key3_eqb_eq in E. unfold names. simpl. now rewrite E.
Qed.

Lemma put_table_has (k : key3) (f : table_format) (src : table_source)
  (id : N) (l : list table_entry) :
  existsb (names k) (put_table k f src id l) = true.
Proof.
  unfold put_table. destruct (existsb (names k) l) eqn:E.
  - now rewrite replace_table_keeps.
  - simpl. unfold names at 1. simpl. now rewrite key3_eqb_refl.
Qed.

Lemma put_table_keeps (k k' : key3) (f : table_format) (src : table_source)
  (id : N) (l : list table_entry) :
  existsb (names k') l = true ->
  existsb (names k') (put_table k f src id l) = true.
Proof.
  intros H. unfold put_table. destruct (existsb (names k) l).
  - now rewrite replace_table_keeps.
  - simpl. rewrite H. apply orb_true_r.
Qed.

Lemma exec_create_or_replace_table (t : object_ref) (k : key3)
  (f : table_format) (src : table_source) (st : state) :
  resolve_object st t = Some k ->
  has_schema st (fst k) = true ->
  source_error st src = None ->
  exec (CreateTableAs OrReplace t f src) st
  = Ok (set_tables (put_table k f src (next_id st) (tables st)) (dropped st)
                   (if has_table st k then next_id st
                    else N.succ (next_id st)) st).
Proof.
  intros Hr Hs Hsrc.
  unfold exec, parsed, create_table_as, on_create, put_table.
  rewrite Hr, Hs, Hsrc. unfold has_table.
  now destruct (existsb (names k) (tables st)).
Qed.

Lemma read_files_ready (path : string) (st : state) :
  has_file st path = true -> source_error st (ReadFiles path) = None.
Proof. intros H. simpl. now rewrite H. Qed.

Lemma fact_join_ready (l o c s : object_ref) (kl ko kc ks : key3)
  (st : state) :
  resolve_object st l = Some kl -> resolve_object st o = Some ko ->
  resolve_object st c = Some kc -> resolve_object st s = Some ks ->
  has_table st kl = true -> has_table st ko = true ->
  has_table st kc = true -> has_table st ks = true ->
  source_error st (FactJoin l o c s) = None.
Proof.
  intros Hl Ho Hc Hs Tl To Tc Ts. simpl.
  now rewrite Hl, Ho, Hc, Hs, Tl, To, Tc, Ts.
Qed.

Lemma exec_drop_table (t : object_ref) (k : key3) (e : table_entry)
  (st : state) :
  resolve_object st t = Some k ->
  find (names k) (tables st) = Some e ->
  exec (DropTable t) st
  = Ok (set_tables (filter (fun d => negb (names k d)) (tables st))
                   (e :: dropped st) (next_id st) st).
Proof. intros Hr Hf. unfold exec, parsed, drop_table. now rewrite Hr, Hf. Qed.

Lemma exec_undrop_table (t : object_ref) (k : key3) (e : table_entry)
  (st : state) :
  resolve_object st t = Some k ->
  find (names k) (dropped st) = Some e ->
  has_table st (t_key e) = false ->
  exec (UndropTable t) st
  = Ok (set_tables (e :: tables st)
                   (filter (fun d => negb (t_id d =? t_id e)%N) (dropped st))
                   (next_id st) st).
Proof.
  intros Hr Hf Ht. unfold exec, parsed, undrop_table, restore.
  now rewrite Hr, Hf, Ht.
Qed.

Lemma table_query_accepted (t : object_ref) (k : key3) (st : state) :
  resolve_object st t = Some k ->
  has_table st k = true ->
  exec (Query (SelectAllFrom t)) st = Ok st
  /\ exec (Query (DescribeExtended t)) st = Ok st
  /\ exec (Query (ShowTblProperties t)) st = Ok st.
Proof.
  intros Hr Ht. repeat split; apply exec_query; simpl; now rewrite Hr, Ht.
Qed.

Lemma select_refused (t : object_ref) (k : key3) (st : state) :
  resolve_object st t = Some k ->
  has_table st k = false ->
  exec (Query (SelectAllFrom t)) st = Err NotFoundError.
Proof. intros Hr Ht. unfold exec. simpl. now rewrite Hr, Ht. Qed.

End TableFacts.

(** ** Lab 3 ends with [customers] dropped *)

Module DropFacts.
Import Sql Platform Labs Identity PlatformFacts GrantFacts TableFacts.

Lemma run_from_step_in (Q : state * outcome -> Prop) (i : nat) (s : stmt)
  (rest : list stmt) (st st' : state) :
  exec s st = Ok st' ->
  Q (run_from (S i) rest st') ->
  Q (run_from i (s :: rest) st).
Proof. intros He Hq. simpl. now rewrite He. Qed.

(** The state after each cell is given a name, so that the states that
    follow mention it by name. *)
Ltac name_state :=
  match goal with
  | |- _ (run_from _ _ ?S) =>
      tryif is_var S then idtac else (let S' := fresh "S" in set (S' := S))
  end.

Ltac next lemma := eapply run_from_step_in; [lemma|]; name_state.

Ltac open_state :=
  match goal with
  | |- context [tables ?S] => unfold S
  | |- context [dropped ?S] => unfold S
  end;
  cbn [tables dropped set_tables set_context].

Ltac has_table_now :=
  unfold has_table;
  repeat first
    [ assumption
    | apply put_table_has
    | apply put_table_keeps
    | progress (match goal with
                | |- context [tables ?S] =>
                    unfold S; cbn [tables set_tables set_context]
                end) ].

Lemma lab3_run (user_name : string) (st : state) :
  lab3_ready (catalog_name user_name) st = true ->
  lab3_end (catalog_name user_name) (run (lab3 user_name) st).
Proof.
  intros Hready. unfold lab3_ready in Hready.
  apply andb_true_iff in Hready as [Hready Hline].
  apply andb_true_iff in Hready as [Hready Hfiles].
  apply andb_true_iff in Hready as [Hready Hsch].
  apply andb_true_iff in Hready as [Hreg Hcat].
  cbn [forallb] in Hfiles.
  apply andb_true_iff in Hfiles as [F1 Hfiles].
  apply andb_true_iff in Hfiles as [F2 Hfiles].
  apply andb_true_iff in Hfiles as [F3 Hfiles].
  apply andb_true_iff in Hfiles as [F4 Hfiles].
  apply andb_true_iff in Hfiles as [F5 _].
  unfold has_table in Hline.
  unfold lab3, run, schema_name, customers, suppliers.
  set (c := catalog_name user_name) in *.
  next ltac:(now apply exec_use_catalog).
  next ltac:(apply exec_use_schema; [reflexivity|exact Hsch]).
  next ltac:(now apply exec_query).
  next ltac:(apply exec_create_or_replace_table
               with (k := (c, "sales", "customers"));
             [reflexivity|exact Hsch|apply read_files_ready; exact F1]).
  next ltac:(apply exec_create_or_replace_table
               with (k := (c, "sales", "nations"));
             [reflexivity|exact Hsch|apply read_files_ready; exact F2]).
  next ltac:(apply exec_create_or_replace_table
               with (k := (c, "sales", "orders"));
             [reflexivity|exact Hsch|apply read_files_ready; exact F3]).
  next ltac:(apply exec_create_or_replace_table
               with (k := (c, "sales", "regions"));
             [reflexivity|exact Hsch|apply read_files_ready; exact F4]).
  next ltac:(apply exec_create_or_replace_table
               with (k := (c, "sales", "suppliers"));
             [reflexivity|exact Hsch|apply read_files_ready; exact F5]).
  next ltac:(apply exec_create_or_replace_table
               with (k := (c, "sales", "sales_fact"));
             [now apply resolve_bare_object|exact Hsch|
              apply fact_join_ready
                with (kl := ("samples", "tpch", "lineitem"))
                     (ko := (c, "sales", "orders"))
                     (kc := (c, "sales", "customers"))
                     (ks := (c, "sales", "suppliers"));
              [reflexivity|now apply resolve_bare_object ..
              |has_table_now|has_table_now|has_table_now|has_table_now]]).
  next ltac:(apply (table_query_accepted _ (c, "sales", "customers"));
             [reflexivity|has_table_now]).
  next ltac:(apply (table_query_accepted _ (c, "sales", "suppliers"));
             [reflexivity|has_table_now]).
  next ltac:(apply (table_query_accepted _ (c, "sales", "customers"));
             [reflexivity|has_table_now]).
  next ltac:(apply (table_query_accepted _ (c, "sales", "suppliers"));
             [reflexivity|has_table_now]).
  next ltac:(apply (table_query_accepted _ (c, "sales", "customers"));
             [reflexivity|has_table_now]).
  next ltac:(apply (table_query_accepted _ (c, "sales", "suppliers"));
             [reflexivity|has_table_now]).
  next ltac:(now apply exec_query).
  (* the first DROP finds the table just created *)
  match goal with
  | |- lab3_end _ (run_from _ _ ?S) =>
      destruct (find_names (c, "sales", "customers") (tables S))
        as (e & Hfind & Hkey); [has_table_now|]
  end.
  next ltac:(apply exec_drop_table with (k := (c, "sales", "customers"));
             [reflexivity|exact Hfind]).
  next ltac:(now apply exec_query).
  assert (He : names (c, "sales", "customers") e = true)
    by (rewrite <- Hkey; apply names_key).
  next ltac:(apply exec_undrop_table with (k := (c, "sales", "customers"));
             [reflexivity
             |open_state; cbn [find]; now rewrite He
             |rewrite Hkey; unfold has_table; open_state; apply dropped_out]).
  next ltac:(now apply exec_query).
  next ltac:(apply exec_drop_table with (k := (c, "sales", "customers"));
             [reflexivity|open_state; cbn [find]; now rewrite He]).
  next ltac:(now apply exec_query).
  next ltac:(now apply exec_query).
  rewrite (run_from_abort _ _ _ _ _ (exec_undrop_placeholder _)).
  unfold lab3_end. cbn [fst snd].
  split; [reflexivity|].
  split; [unfold has_table; open_state; apply dropped_out|].
  split; assumption.
Qed.


(** Statements that only switch context, grant, revoke or read leave the
    catalogs, schemas and tables alone. *)
Lemma keeps_objects_exec (s : stmt) (st st' : state) :
  keeps_objects s = true ->
  exec s st = Ok st' ->
  catalogs st' = catalogs st /\ schemas st' = schemas st
  /\ tables st' = tables st.
Proof.
  destruct s; try discriminate; intros _; unfold exec, parsed.
  - destruct (checked c); [|discriminate]. unfold use_catalog.
    destruct (has_catalog st s); [|discriminate].
    intros H. injection H as <-. auto.
  - destruct (checked s); [|discriminate]. unfold use_schema.
    destruct (has_schema st _); [|discriminate].
    intros H. injection H as <-. auto.
  - destruct (resolve_securable st o); [|discriminate]. unfold grant.
    destruct (exists_securable st s); [|discriminate].
    intros H. injection H as <-. auto.
  - destruct (resolve_securable st o); [|discriminate]. unfold revoke.
    destruct (exists_securable st s); [|discriminate].
    intros H. injection H as <-. auto.
  - destruct (query_error q st); [discriminate|].
    intros H. injection H as <-. auto.
Qed.

Lemma keeps_objects_run (ss : list stmt) (i : nat) (st : state) :
  forallb keeps_objects ss = true ->
  catalogs (fst (run_from i ss st)) = catalogs st
  /\ schemas (fst (run_from i ss st)) = schemas st
  /\ tables (fst (run_from i ss st)) = tables st.
Proof.
  revert i st. induction ss as [|s ss IH]; intros i st H; simpl; [auto|].
  simpl in H. apply andb_true_iff in H as [Hs Hss].
  destruct (exec s st) as [st'|e] eqn:E; [|simpl; auto].
  destruct (keeps_objects_exec s st st' Hs E) as (<- & <- & <-).
  now apply IH.
Qed.

(** Lab 5 reads [customers] in its fourth cell. *)
Lemma lab5_needs_customers (user_name : string) (st : state) :
  has_catalog st (catalog_name user_name) = true ->
  has_schema st (catalog_name user_name, "sales") = true ->
  has_table st (catalog_name user_name, "sales", "customers") = false ->
  snd (run (lab5 user_name) st) = Aborted 3 NotFoundError.
Proof.
  intros Hc Hs Ht. unfold lab5, run, schema_name.
  set (c := catalog_name user_name) in *.
  erewrite run_from_step with (r := (_, Aborted 3 NotFoundError));
    [reflexivity|now apply exec_use_catalog|].
  eapply run_from_step; [apply exec_use_schema; [reflexivity|exact Hs]|].
  eapply run_from_step; [now apply exec_query|].
  apply run_from_abort.
  apply select_refused with (k := (c, "sales", "customers"));
    [reflexivity|exact Ht].
Qed.

(** C10.  On a service where lab 3 can run (regular user identifier,
    namespace of lab 1, readable sources, sample table), the run of lab 3
    stops at its UNDROP TABLE WITH ID cell with NotFoundError, because the
    placeholder is no table identifier; the statements after the last DROP
    TABLE customers are that UNDROP and three read-only ones; [customers]
    is absent afterwards; and lab 5, run after lab 4, fails with
    NotFoundError at the cell that reads [customers], before the cell that
    tags it. *)
Theorem lab3_leaves_customers_dropped (user_name : string) (st : state) :
  lab3_ready (catalog_name user_name) st = true ->
  let st3 := fst (run (lab3 user_name) st) in
  let st4 := fst (run (lab4 user_name) st3) in
  snd (run (lab3 user_name) st) = Aborted 23 NotFoundError
  /\ nth_error (lab3 user_name) 20 = Some (DropTable customers)
  /\ skipn 21 (lab3 user_name)
     = [ Query (ShowTablesLike "customers"); Query ShowTablesDropped;
         UndropTableWithId tableId_placeholder;
         Query (ShowTablesLike "customers") ]
  /\ (forall id : N, render_id id <> tableId_placeholder)
  /\ has_table st3 (catalog_name user_name, "sales", "customers") = false
  /\ snd (run (lab5 user_name) st4) = Aborted 3 NotFoundError
  /\ nth_error (lab5 user_name) 3
     = Some (Query (SelectAllFrom
                      (Obj3 (Quoted (catalog_name user_name))
                            (Quoted schema_name) (Quoted "customers"))))
  /\ nth_error (lab5 user_name) 9
     = Some (SetColumnTags
               (Obj3 (Bare (catalog_name user_name)) (Bare schema_name)
                     (Bare "customers"))
               (Bare "c_address") [("uc_pii", Some "address")]).
Proof.
  intros Hready st3 st4.
  destruct (lab3_run user_name st Hready) as (Hout & Htab & Hcat & Hsch).
  fold st3 in Htab, Hcat, Hsch.
  split; [exact Hout|]. split; [reflexivity|]. split; [reflexivity|].
  split; [exact render_id_not_placeholder|]. split; [exact Htab|].
  split; [|split; reflexivity].
  destruct (keeps_objects_run (lab4 user_name) 0 st3 eq_refl)
    as (Ec & Es & Et).
  fold (run (lab4 user_name) st3) in Ec, Es, Et. fold st4 in Ec, Es, Et.
  apply lab5_needs_customers.
  - unfold has_catalog. rewrite Ec. exact Hcat.
  - unfold has_schema. rewrite Es. exact Hsch.
  - unfold has_table. rewrite Et. exact Htab.
Qed.

Lemma lab3_leaves_customers_dropped_jdoe :
  exists st1 : state,
    fst (run (lab1 "jdoe@example.com") provisioned) = st1
    /\ lab3_ready (catalog_name "jdoe@example.com") st1 = true
    /\ snd (run (lab3 "jdoe@example.com") st1) = Aborted 23 NotFoundError
    /\ has_table (fst (run (lab3 "jdoe@example.com") st1))
                 ("jdoe", "sales", "customers") = false
    /\ snd (run (lab5 "jdoe@example.com")
                (fst (run (lab4 "jdoe@example.com")
                          (fst (run (lab3 "jdoe@example.com") st1)))))
       = Aborted 3 NotFoundError.
Proof.
  eexists. split; [reflexivity|]. split; [reflexivity|].
  destruct (lab3_leaves_customers_dropped "jdoe@example.com"
              (fst (run (lab1 "jdoe@example.com") provisioned)) eq_refl)
    as (H1 & _ & _ & _ & H2 & H3 & _).
  split; [exact H1|]. split; [exact H2|exact H3].
Defined.

(** With an identifier that is not regular, such as [j.doe], the run stops
    earlier, at the statement that names the fact table without
    backquotes, and [customers] is still there. *)
Lemma lab3_dotted_user :
  let st := set_catalogs [("j.doe", ""); ("samples", "")]
              (set_schemas [(("j.doe", "sales"), "");
                            (("samples", "tpch"), "")] provisioned) in
  snd (run (lab3 "j.doe@example.com") st) = Aborted 8 PlatformError
  /\ has_table (fst (run (lab3 "j.doe@example.com") st))
               ("j.doe", "sales", "customers") = true.
Proof. split; reflexivity. Qed.

End DropFacts.

(** ** Policies: plain CREATE against CREATE OR REPLACE *)

Module PolicyFacts.
Import Sql Platform Labs Identity PlatformFacts.

(** CREATE POLICY, as lab 5 writes it, is rejected when a policy of that
    name is already defined on the schema. *)
Lemma plain_create_policy_rejected (name : string) (scope : key2)
  (comment : string) (k : policy_kind) (principal : string)
  (cm : column_match) (alias : string) (fk : key3) (st : state) :
  has_schema st scope = true ->
  resolve_object st (policy_function k) = Some fk ->
  has_function st fk = true ->
  has_policy st scope name = true ->
  create_policy Plain name scope comment k principal cm alias st
  = Err PlatformError.
Proof.
  intros Hs Hr Hf Hp. unfold create_policy, on_create.
  now rewrite Hs, Hr, Hf, Hp.
Qed.

(** With OR REPLACE the same definition would be accepted and the policy
    replaced. *)
Lemma or_replace_policy_accepted (name : string) (scope : key2)
  (comment : string) (k : policy_kind) (principal : string)
  (cm : column_match) (alias : string) (fk : key3) (st : state) :
  has_schema st scope = true ->
  resolve_object st (policy_function k) = Some fk ->
  has_function st fk = true ->
  exists st',
    create_policy OrReplace name scope comment k principal cm alias st = Ok st'
    /\ has_policy st' scope name = true.
Proof.
  intros Hs Hr Hf. unfold create_policy, on_create. rewrite Hs, Hr, Hf.
  destruct (has_policy st scope name); eexists; (split; [reflexivity|]);
    unfold has_policy, policy_named; simpl;
    now rewrite key2_eqb_refl, String.eqb_refl.
Qed.

(** CREATE OR REPLACE FUNCTION, two cells earlier, is accepted whether or
    not the function exists. *)
Lemma or_replace_function_accepted (k : key3) (param : string) (body : expr)
  (st : state) :
  has_schema st (fst k) = true ->
  exists st',
    create_function OrReplace k param body st = Ok st'
    /\ has_function st' k = true.
Proof.
  intros Hs. unfold create_function, on_create. rewrite Hs.
  destruct (has_function st k); eexists; (split; [reflexivity|]);
    unfold has_function; simpl; now rewrite key3_eqb_refl.
Qed.

(** C5, evaluated.  Lab 5 runs to its end once; run again on the state it
    left, its two CREATE OR REPLACE FUNCTION cells are accepted and its
    CREATE POLICY nation_filter cell (cell 7) is rejected; the CREATE
    POLICY mask_address cell, run on its own, is rejected as well. *)
Lemma lab5_rerun_rejected :
  let u := "jdoe@example.com" in
  let st5 := fst (run (lab5 u) before_lab5) in
  snd (run (lab5 u) before_lab5) = Finished
  /\ has_policy st5 ("jdoe", "sales") "nation_filter" = true
  /\ has_policy st5 ("jdoe", "sales") "mask_address" = true
  /\ snd (run (lab5 u) st5) = Aborted 7 PlatformError
  /\ (exists s, nth_error (lab5 u) 8 = Some s
                /\ exec s st5 = Err PlatformError).
Proof.
  cbv zeta. split; [reflexivity|]. split; [reflexivity|].
  split; [reflexivity|]. split; [reflexivity|].
  eexists. split; reflexivity.
Qed.

End PolicyFacts.

(** ** The fact table: surrogate keys *)

Module SalesFactFacts.
Import SalesFact.
Open Scope Z_scope.

Lemma key_leb_le (a b : Z * Z) : key_leb a b = true <-> key_le a b.
Proof.
  unfold key_leb, key_le.
  rewrite orb_true_iff, andb_true_iff, Z.ltb_lt, Z.eqb_eq, Z.leb_le.
  reflexivity.
Qed.

Lemma key_le_total (a b : Z * Z) : key_le a b \/ key_le b a.
Proof. unfold key_le. lia. Qed.

Lemma key_le_trans (a b c : Z * Z) : key_le a b -> key_le b c -> key_le a c.
Proof. unfold key_le. lia. Qed.

Lemma key_le_antisym (a b : Z * Z) : key_le a b -> key_le b a -> a = b.
Proof.
  destruct a as [a1 a2], b as [b1 b2]. unfold key_le. simpl.
  intros H1 H2. f_equal; lia.
Qed.

Lemma before_trans : Relations_1.Transitive before.
Proof. intros i j k. unfold before. apply key_le_trans. Qed.

(** *** Insertion sort arranges the rows by the ordering key *)

Lemma insert_perm (j : joined) (js : list joined) :
  Permutation (insert j js) (j :: js).
Proof.
  induction js as [|k js IH]; simpl; [reflexivity|].
  destruct (key_leb (order_by j) (order_by k)); [reflexivity|].
  rewrite IH. apply perm_swap.
Qed.

Lemma sort_perm (js : list joined) : Permutation (sort js) js.
Proof.
  induction js as [|j js IH]; simpl; [reflexivity|].
  rewrite insert_perm. now constructor.
Qed.

Lemma insert_sorted (j : joined) (js : list joined) :
  Sorted before js -> Sorted before (insert j js).
Proof.
  induction js as [|k js IH]; simpl; intros H.
  - repeat constructor.
  - destruct (key_leb (order_by j) (order_by k)) eqn:E.
    + constructor; [exact H|]. constructor. now apply key_leb_le.
    + assert (Hkj : before k j).
      { destruct (key_le_total (order_by j) (order_by k)) as [L|L];
          [|exact L].
        apply key_leb_le in L. congruence. }
      inversion H as [|? ? Hs Hh]; subst.
      constructor; [now apply IH|].
      destruct js as [|m js]; simpl.
      * now constructor.
      * destruct (key_leb (order_by j) (order_by m));
          constructor; [exact Hkj|]. now inversion Hh.
Qed.

Lemma sort_sorted (js : list joined) : Sorted before (sort js).
Proof.
  induction js as [|j js IH]; simpl; [constructor|].
  now apply insert_sorted.
Qed.

(** *** Numbering *)

Lemma number_keys (js : list joined) :
  map fst (number js) = seq 1 (length js).
Proof.
  unfold number. generalize 1%nat.
  induction js as [|j js IH]; intros n; simpl; [reflexivity|].
  now rewrite IH.
Qed.

Lemma number_length (js : list joined) :
  length (number js) = length js.
Proof.
  unfold number. rewrite length_combine, length_seq, length_map.
  apply Nat.min_id.
Qed.

(** The query always has a result: the one [sales_fact] computes. *)
Lemma sales_fact_is_result (s : snapshot) :
  sales_fact_result s (sales_fact s).
Proof.
  exists (sort (join s)).
  split; [apply sort_perm|]. split; [apply sort_sorted|reflexivity].
Qed.

(** *** One arrangement only when the ordering keys are distinct *)

Lemma sorted_arrangement_unique (l1 l2 : list joined) :
  Permutation l1 l2 ->
  StronglySorted before l1 -> StronglySorted before l2 ->
  NoDup (map order_by l1) ->
  l1 = l2.
Proof.
  revert l2. induction l1 as [|a l1 IH]; intros l2 Hp S1 S2 Hn.
  - now apply Permutation_nil in Hp.
  - destruct l2 as [|b l2].
    + apply Permutation_sym, Permutation_nil in Hp. discriminate.
    + inversion S1 as [|? ? S1' F1]; subst.
      inversion S2 as [|? ? S2' F2]; subst.
      inversion Hn as [|? ? Hnotin Hn']; subst.
      assert (Hab : a = b).
      { assert (Hb : In b (a :: l1))
          by (apply Permutation_in with (l := b :: l2);
              [now apply Permutation_sym|now left]).
        assert (Ha : In a (b :: l2))
          by (apply Permutation_in with (l := a :: l1); [exact Hp|now left]).
        destruct Hb as [Hb|Hb]; [exact Hb|].
        destruct Ha as [Ha|Ha]; [now symmetry|].
        exfalso. apply Hnotin.
        rewrite Forall_forall in F1, F2.
        rewrite (key_le_antisym _ _ (F1 b Hb) (F2 a Ha)).
        now apply in_map. }
      subst b. f_equal. apply IH; try assumption.
      now apply Permutation_cons_inv in Hp.
Qed.


Lemma result_keys (s : snapshot) (out : list (nat * fact)) :
  sales_fact_result s out ->
  map fst out = seq 1 (length (join s)) /\ length out = length (join s).
Proof.
  intros (js & Hp & _ & ->).
  rewrite number_keys, number_length, (Permutation_length Hp). auto.
Qed.

Lemma result_unique (s : snapshot) (out1 out2 : list (nat * fact)) :
  NoDup (map order_by (join s)) ->
  sales_fact_result s out1 -> sales_fact_result s out2 -> out1 = out2.
Proof.
  intros Hn (l1 & P1 & S1 & ->) (l2 & P2 & S2 & ->).
  f_equal. apply sorted_arrangement_unique.
  - rewrite P1. now symmetry.
  - apply Sorted_StronglySorted; [exact before_trans|exact S1].
  - apply Sorted_StronglySorted; [exact before_trans|exact S2].
  - apply Permutation_NoDup with (l := map order_by (join s)); [|exact Hn].
    apply Permutation_map. now symmetry.
Qed.

(** C4 (amended).  For every input snapshot the query has a result; in
    every result the surrogate keys are exactly 1..N, N the number of
    joined rows; and when no two joined rows have the same ordering key
    (l_orderkey, l_linenumber), every run yields the same assignment. *)
Theorem surrogate_keys (s : snapshot) (out1 out2 : list (nat * fact)) :
  sales_fact_result s out1 ->
  sales_fact_result s out2 ->
  sales_fact_result s (sales_fact s)
  /\ map fst out1 = seq 1 (length (join s))
  /\ length out1 = length (join s)
  /\ (NoDup (map order_by (join s)) -> out1 = out2).
Proof.
  intros H1 H2. split; [apply sales_fact_is_result|].
  destruct (result_keys s out1 H1) as [Hk Hl].
  split; [exact Hk|]. split; [exact Hl|].
  intros Hn. now apply (result_unique s).
Qed.

Lemma surrogate_keys_small :
  sales_fact_result small (sales_fact small)
  /\ map fst (sales_fact small) = [1; 2; 3]%nat
  /\ length (sales_fact small) = 3%nat
  /\ NoDup (map order_by (join small)).
Proof.
  destruct (surrogate_keys small (sales_fact small) (sales_fact small)
              (sales_fact_is_result small) (sales_fact_is_result small))
    as (Hr & Hk & Hl & _).
  split; [exact Hr|]. split; [exact Hk|]. split; [exact Hl|].
  cbv. repeat constructor; simpl; intuition discriminate.
Defined.

(** C4 as stated fails.  When an order is recorded twice, two joined rows
    have the same ordering key, and both ways of numbering them are
    results of the query: the assignment is not reproducible. *)
Lemma surrogate_keys_not_reproducible :
  exists out1 out2 : list (nat * fact),
    sales_fact_result twice_recorded out1
    /\ sales_fact_result twice_recorded out2
    /\ out1 <> out2.
Proof.
  set (l := {| l_orderkey := 1; l_linenumber := 1; l_suppkey := 7;
               l_extendedprice := 1000; l_quantity := 2 |}).
  set (o1 := {| o_orderkey := 1; o_custkey := 5; o_orderdate := 100 |}).
  set (o2 := {| o_orderkey := 1; o_custkey := 5; o_orderdate := 200 |}).
  set (c := {| c_custkey := 5 |}). set (su := {| s_suppkey := 7 |}).
  assert (Hs : forall a b : order,
             Sorted before [(l, a, c, su); (l, b, c, su)]).
  { intros a b.
    apply Sorted_cons; [apply Sorted_cons; [apply Sorted_nil|apply HdRel_nil]|].
    apply HdRel_cons. unfold before, key_le, order_by, l. simpl. lia. }
  exists (number [(l, o1, c, su); (l, o2, c, su)]),
         (number [(l, o2, c, su); (l, o1, c, su)]).
  split; [|split].
  - exists [(l, o1, c, su); (l, o2, c, su)].
    split; [reflexivity|]. split; [apply Hs|reflexivity].
  - exists [(l, o2, c, su); (l, o1, c, su)].
    split; [apply perm_swap|]. split; [apply Hs|reflexivity].
  - discriminate.
Qed.

End SalesFactFacts.

(** ** Row filter and column mask *)

Module SecurityFacts.
Import Sql Labs Security.

(** The Rocq functions are the bodies that lab 5 registers. *)
Lemma filter_nation_is_body (who : session) (nation : option string) :
  eval who nation filter_nation_body = of_bool (filter_nation who nation).
Proof.
  unfold filter_nation_body, filter_nation. simpl.
  destruct (is_account_group_member who "geo"); [reflexivity|].
  now destruct nation.
Qed.

Lemma mask_address_is_body (who : session) (address : option string) :
  eval who address mask_address_body = of_string (mask_address who address).
Proof.
  unfold mask_address_body, mask_address. simpl.
  now destruct (is_account_group_member who "hr_admin").
Qed.

Lemma lab5_registers_bodies (user_name : string) :
  let c := Identity.catalog_name user_name in
  nth_error (lab5 user_name) 5
  = Some (CreateFunction OrReplace
            (Obj3 (Bare c) (Bare "sales") (Bare "filter_nation")) "nation"
            filter_nation_body)
  /\ nth_error (lab5 user_name) 6
     = Some (CreateFunction OrReplace
               (Obj3 (Bare c) (Bare "sales") (Bare "mask_address")) "address"
               mask_address_body).
Proof. split; reflexivity. Qed.

(** *** Row filter *)

Lemma subrows_refl (l : list row) : subrows l l.
Proof. induction l; constructor; assumption. Qed.

Lemma filter_subrows (p : row -> bool) (l : list row) :
  subrows (filter p l) l.
Proof.
  induction l as [|r l IH]; simpl; [constructor|].
  destruct (p r); constructor; exact IH.
Qed.

Lemma subrows_incl (xs ys : list row) : subrows xs ys -> incl xs ys.
Proof.
  induction 1 as [|r xs ys _ IH|r xs ys _ IH]; intros x Hx.
  - exact Hx.
  - destruct Hx as [->|Hx]; [now left|right; now apply IH].
  - right. now apply IH.
Qed.

Lemma subrows_length (xs ys : list row) :
  subrows xs ys -> (length xs <= length ys)%nat.
Proof. induction 1; simpl; lia. Qed.

(** C6.  For every table and every reader, the rows read under the
    nation_filter policy are rows of the table, in table order, none added
    and none repeated: a subset of the unfiltered read, never more. *)
Theorem row_filter_never_expands (who : session) (t : table) :
  subrows (read_nation_filter who t) (rows t)
  /\ incl (read_nation_filter who t) (rows t)
  /\ (length (read_nation_filter who t) <= length (rows t))%nat.
Proof.
  assert (H : subrows (read_nation_filter who t) (rows t)).
  { unfold read_nation_filter.
    destruct (applies_to who account_users); [|apply subrows_refl].
    destruct (bound_column (HasTag "uc_geo") (columns t));
      [apply filter_subrows|apply subrows_refl]. }
  split; [exact H|]. split; [now apply subrows_incl|now apply subrows_length].
Qed.

(** Members of [geo] see every row; the others see the rows whose nation
    is UNITED STATES or CANADA, and no row whose nation is NULL. *)
Lemma row_filter_examples :
  read_nation_filter analyst tagged_customers
  = [[VInt 1; VStr "1 Main St"; VStr "CANADA"]]
  /\ read_nation_filter {| login := "geo@example.com";
                           groups := ["account users"; "geo"] |}
                        tagged_customers
     = rows tagged_customers.
Proof. split; reflexivity. Qed.

(** *** Column mask *)

Lemma mask_cell_typed (who : session) (v : value) (ty : sqltype) :
  ty = TString -> has_type v ty = true ->
  has_type (mask_cell who v) ty = true.
Proof.
  intros -> H. unfold mask_cell, mask_address.
  destruct v; try exact H;
    now destruct (is_account_group_member who "hr_admin").
Qed.

Lemma mask_row_typed (who : session) (cols : list column) (r : row) :
  row_typed cols r = true -> row_typed cols (mask_row who cols r) = true.
Proof.
  revert r. induction cols as [|c cols IH]; intros [|v r] H;
    simpl in *; try exact H.
  apply andb_true_iff in H as [Hv Hr]. rewrite (IH r Hr), andb_true_r.
  destruct (binds (HasTagValue "uc_pii" "address") c) eqn:E; [|exact Hv].
  apply mask_cell_typed; [|exact Hv].
  unfold binds in E. apply andb_true_iff in E as [_ E].
  now destruct (col_type c).
Qed.

Lemma mask_row_length (who : session) (cols : list column) (r : row) :
  length (mask_row who cols r) = length r.
Proof.
  revert r. induction cols as [|c cols IH]; intros [|v r]; simpl; auto.
Qed.

(** C7 (amended).  For a reader outside [hr_admin], [mask_address] returns
    the literal "XXX Masked Address" whatever the address is, so the value
    differs from the input exactly when the input is not that literal; for
    a member of [hr_admin] it returns the input.  A read under the
    mask_address policy keeps the columns of the table (names, types,
    tags), the number of rows, the width of every row and the type of
    every cell. *)
Theorem column_mask_behaviour (who : session) (address : option string)
  (t : table) :
  (is_account_group_member who "hr_admin" = false ->
   mask_address who address = Some mask_literal
   /\ (address <> Some mask_literal -> mask_address who address <> address))
  /\ (is_account_group_member who "hr_admin" = true ->
      mask_address who address = address)
  /\ columns (read_mask_address who t) = columns t
  /\ length (rows (read_mask_address who t)) = length (rows t)
  /\ (forall r, In r (rows t) ->
        length (mask_row who (columns t) r) = length r
        /\ (row_typed (columns t) r = true ->
            row_typed (columns t) (mask_row who (columns t) r) = true)).
Proof.
  unfold mask_address. split; [|split; [|split; [|split]]].
  - intros ->. split; [reflexivity|]. intros H E. apply H. now symmetry.
  - now intros ->.
  - reflexivity.
  - unfold read_mask_address. simpl.
    destruct (applies_to who account_users); [apply length_map|reflexivity].
  - intros r _. split; [apply mask_row_length|apply mask_row_typed].
Qed.

Lemma column_mask_behaviour_analyst :
  is_account_group_member analyst "hr_admin" = false
  /\ mask_address analyst (Some "1 Main St") = Some mask_literal
  /\ mask_address analyst (Some "1 Main St") <> Some "1 Main St"
  /\ is_account_group_member hr_officer "hr_admin" = true
  /\ mask_address hr_officer (Some "1 Main St") = Some "1 Main St"
  /\ columns (read_mask_address analyst tagged_customers)
     = columns tagged_customers.
Proof.
  destruct (column_mask_behaviour analyst (Some "1 Main St") tagged_customers)
    as (Hn & _ & Hc & _).
  destruct (Hn eq_refl) as [H1 H2].
  destruct (column_mask_behaviour hr_officer (Some "1 Main St")
              tagged_customers) as (_ & Hm & _).
  split; [reflexivity|]. split; [exact H1|].
  split; [apply H2; discriminate|]. split; [reflexivity|].
  split; [exact (Hm eq_refl)|exact Hc].
Defined.

(** C7 as stated fails: an address that already reads "XXX Masked
    Address" comes back unchanged for a reader outside [hr_admin], from the
    function and from a read of the table. *)
Lemma mask_keeps_the_literal :
  ~ masks_every_address
  /\ is_account_group_member analyst "hr_admin" = false
  /\ mask_address analyst (Some "XXX Masked Address")
     = Some "XXX Masked Address"
  /\ nth_error (rows (read_mask_address analyst tagged_customers)) 1
     = nth_error (rows tagged_customers) 1.
Proof.
  split; [|repeat split].
  intros H. now apply (H analyst (Some "XXX Masked Address")).
Qed.

End SecurityFacts.

(** ** More on the identifier *)

Module IdentifierFacts.
Import Identity.

(** X1.  Splitting a login and joining the pieces again gives the login
    back: ['@'.join(s.split('@')) == s], for every string. *)
Theorem split_join (sep : ascii) (s : string) :
  join sep (split_on sep s) = s.
Proof.
  induction s as [|c s IH]; simpl; [reflexivity|].
  destruct (Ascii.eqb c sep) eqn:E.
  - apply Ascii.eqb_eq in E. subst c.
    destruct (split_on sep s) as [|p ps] eqn:Es.
    + now apply IdentityFacts.split_on_nonempty in Es.
    + simpl. simpl in IH. now rewrite IH.
  - destruct (split_on sep s) as [|p ps] eqn:Es.
    + now apply IdentityFacts.split_on_nonempty in Es.
    + destruct ps as [|q qs]; simpl in *; now rewrite <- IH.
Qed.

(** A split has one piece more than the string has separators, and
    no piece contains the separator. *)
Theorem split_pieces (sep : ascii) (s : string) :
  length (split_on sep s) = S (count sep s)
  /\ Forall (fun piece => occurs sep piece = false) (split_on sep s).
Proof.
  induction s as [|c s [IHl IHf]]; simpl.
  - split; [reflexivity|]. now repeat constructor.
  - destruct (Ascii.eqb c sep) eqn:E.
    + split; [simpl; now rewrite IHl|]. now constructor.
    + destruct (split_on sep s) as [|p ps] eqn:Es.
      * now apply IdentityFacts.split_on_nonempty in Es.
      * split; [exact IHl|].
        inversion IHf as [|? ? Hp Hps]; subst.
        constructor; [|exact Hps]. simpl. now rewrite E, Hp.
Qed.

Lemma user_id_cons (c : ascii) (s : string) :
  user_id (String c s)
  = if Ascii.eqb c "@"%char then EmptyString else String c (user_id s).
Proof.
  unfold user_id, index0. simpl.
  destruct (Ascii.eqb c "@"%char); [reflexivity|].
  destruct (split_on "@"%char s) as [|p ps] eqn:Es; [|reflexivity].
  now apply IdentityFacts.split_on_nonempty in Es.
Qed.

(** X2.  For every login, with or without '@': the identifier has no '@';
    the login is the identifier followed either by nothing or by a rest
    that starts with '@'; a login without '@' is its own identifier; a
    login that starts with '@', and the empty login, give the empty
    identifier. *)
Theorem user_id_is_prefix (s : string) :
  occurs "@"%char (user_id s) = false
  /\ (exists rest, s = user_id s ++ rest
                   /\ (rest = EmptyString
                       \/ exists t, rest = String "@"%char t))
  /\ (count "@"%char s = 0%nat -> user_id s = s)
  /\ user_id EmptyString = EmptyString
  /\ user_id (String "@"%char s) = EmptyString.
Proof.
  split; [apply IdentityFacts.user_id_no_at|].
  split; [|split; [|split; reflexivity]].
  - induction s as [|c s (rest & Hs & Hr)].
    + exists EmptyString. auto.
    + rewrite user_id_cons. destruct (Ascii.eqb c "@"%char) eqn:E.
      * apply Ascii.eqb_eq in E. subst c.
        exists (String "@"%char s). split; [reflexivity|]. right. now exists s.
      * exists rest. split; [simpl; now rewrite <- Hs|exact Hr].
  - induction s as [|c s IH]; [reflexivity|].
    rewrite user_id_cons. simpl.
    destruct (Ascii.eqb c "@"%char); [discriminate|].
    intros H. now rewrite (IH H).
Qed.

Lemma user_id_is_prefix_plain :
  count "@"%char "jdoe" = 0%nat /\ user_id "jdoe" = "jdoe".
Proof.
  split; [reflexivity|].
  apply (proj1 (proj2 (proj2 (user_id_is_prefix "jdoe")))). reflexivity.
Defined.

(** X3.  The catalog name does not depend on the domain: two logins with
    the same part before '@' get the same catalog. *)
Theorem same_local_part_same_catalog (u d1 d2 : string) :
  occurs "@"%char u = false ->
  catalog_name (u ++ "@" ++ d1) = catalog_name (u ++ "@" ++ d2).
Proof.
  intros H. unfold catalog_name, user_id.
  change ("@" ++ d1) with (String "@"%char d1).
  change ("@" ++ d2) with (String "@"%char d2).
  now rewrite !(IdentityFacts.split_on_first _ _ _ H).
Qed.

Lemma same_local_part_same_catalog_jdoe :
  occurs "@"%char "jdoe" = false
  /\ "jdoe@example.com" <> "jdoe@example.org"
  /\ catalog_name "jdoe@example.com" = catalog_name "jdoe@example.org".
Proof.
  split; [reflexivity|]. split; [discriminate|].
  apply (same_local_part_same_catalog "jdoe" "example.com" "example.org").
  reflexivity.
Defined.

End IdentifierFacts.

(** ** More on the fact-table query *)

Module JoinFacts.
Import SalesFact SalesFactFacts.
Open Scope Z_scope.

Lemma join_sound (s : snapshot) (l : lineitem) (o : order) (c : customer)
  (su : supplier) :
  In (l, o, c, su) (join s) ->
  In l (lineitems s) /\ In o (orders s) /\ In c (customers s)
  /\ In su (suppliers s)
  /\ l_orderkey l = o_orderkey o
  /\ o_custkey o = c_custkey c
  /\ l_suppkey l = s_suppkey su.
Proof.
  unfold join. rewrite in_flat_map.
  intros (l' & Hl & H). apply in_flat_map in H as (o' & Ho & H).
  destruct (l_orderkey l' =? o_orderkey o') eqn:E1; [|contradiction].
  apply in_flat_map in H as (c' & Hc & H).
  destruct (o_custkey o' =? c_custkey c') eqn:E2; [|contradiction].
  apply in_flat_map in H as (su' & Hs & H).
  destruct (l_suppkey l' =? s_suppkey su') eqn:E3; [|contradiction].
  destruct H as [H|[]]. injection H as -> -> -> ->.
  apply Z.eqb_eq in E1, E2, E3. auto 10.
Qed.

Lemma join_complete (s : snapshot) (l : lineitem) (o : order) (c : customer)
  (su : supplier) :
  In l (lineitems s) -> In o (orders s) -> In c (customers s) ->
  In su (suppliers s) ->
  l_orderkey l = o_orderkey o -> o_custkey o = c_custkey c ->
  l_suppkey l = s_suppkey su ->
  In (l, o, c, su) (join s).
Proof.
  intros Hl Ho Hc Hs E1 E2 E3. unfold join. apply in_flat_map.
  exists l. split; [exact Hl|]. apply in_flat_map.
  exists o. split; [exact Ho|]. rewrite (proj2 (Z.eqb_eq _ _) E1).
  apply in_flat_map. exists c. split; [exact Hc|].
  rewrite (proj2 (Z.eqb_eq _ _) E2).
  apply in_flat_map. exists su. split; [exact Hs|].
  rewrite (proj2 (Z.eqb_eq _ _) E3). now left.
Qed.

(** X4.  The join is the inner join of the statement: a combination of a
    line item, an order, a customer and a supplier is a joined row exactly
    when each comes from its table and the three ON conditions hold. *)
Theorem join_spec (s : snapshot) (l : lineitem) (o : order) (c : customer)
  (su : supplier) :
  In (l, o, c, su) (join s)
  <-> In l (lineitems s) /\ In o (orders s) /\ In c (customers s)
      /\ In su (suppliers s)
      /\ l_orderkey l = o_orderkey o
      /\ o_custkey o = c_custkey c
      /\ l_suppkey l = s_suppkey su.
Proof.
  split; [apply join_sound|].
  intros (Hl & Ho & Hc & Hs & E1 & E2 & E3). now apply join_complete.
Qed.

(** The key the fact table shows is the key the window orders by. *)
Lemma shown_key_order_by (s : snapshot) (j : joined) :
  In j (join s) -> shown_key (select j) = order_by j.
Proof.
  destruct j as [[[l o] c] su]. intros H.
  apply join_sound in H as (_ & _ & _ & _ & E & _).
  unfold shown_key, order_by. simpl. now rewrite E.
Qed.

(** *** Numbers follow the ordering key *)

Lemma in_numbered (n : nat) (js : list joined) (m : nat) (f : fact) :
  In (m, f) (combine (seq n (length js)) (map select js)) ->
  (n <= m)%nat /\ exists k, In k js /\ f = select k.
Proof.
  intros H. split.
  - apply in_combine_l in H. apply in_seq in H. lia.
  - apply in_combine_r in H. apply in_map_iff in H as (k & <- & Hk).
    now exists k.
Qed.

Lemma numbered_follows (s : snapshot) (js : list joined) (n : nat) :
  (forall j, In j js -> In j (join s)) ->
  StronglySorted before js ->
  StronglySorted follows (combine (seq n (length js)) (map select js)).
Proof.
  revert n. induction js as [|j js IH]; intros n Hin Hs; simpl.
  - constructor.
  - inversion Hs as [|? ? Hs' Hf]; subst.
    constructor.
    + apply IH; [|exact Hs']. intros k Hk. apply Hin. now right.
    + apply Forall_forall. intros [m f] Hm.
      apply in_numbered in Hm as (Hle & k & Hk & ->).
      rewrite Forall_forall in Hf.
      split; [simpl; lia|]. simpl snd.
      rewrite (shown_key_order_by s j), (shown_key_order_by s k).
      * now apply Hf.
      * apply Hin. now right.
      * apply Hin. now left.
Qed.

Lemma follows_pairwise (l : list (nat * fact)) (a b : nat * fact) :
  StronglySorted follows l ->
  In a l -> In b l -> (fst a < fst b)%nat ->
  key_le (shown_key (snd a)) (shown_key (snd b)).
Proof.
  induction 1 as [|x l Hs IH Hf]; intros Ha Hb Hlt; [contradiction|].
  rewrite Forall_forall in Hf.
  destruct Ha as [->|Ha], Hb as [->|Hb].
  - lia.
  - now apply Hf.
  - destruct (Hf a Ha) as [Hx _]. lia.
  - now apply IH.
Qed.

(** X5.  In every result of the query the surrogate keys follow the
    ordering key the table shows: of two rows, the one with the smaller
    [sales_key] has the smaller or equal (order_key, lineitem_key). *)
Theorem keys_follow_order (s : snapshot) (out : list (nat * fact))
  (a b : nat * fact) :
  sales_fact_result s out ->
  In a out -> In b out -> (fst a < fst b)%nat ->
  key_le (shown_key (snd a)) (shown_key (snd b)).
Proof.
  intros (js & Hp & Hs & ->). apply follows_pairwise.
  apply numbered_follows with (s := s).
  - intros j Hj. now apply (Permutation_in _ Hp).
  - apply Sorted_StronglySorted; [exact before_trans|exact Hs].
Qed.

Lemma keys_follow_order_small :
  let a := (1%nat, {| order_key := 1; lineitem_key := 1; customer_key := 5;
                      supplier_key := 8; date_key := 100;
                      sales_amount := 1000; quantity := 2 |}) in
  let b := (3%nat, {| order_key := 2; lineitem_key := 1; customer_key := 6;
                      supplier_key := 7; date_key := 200;
                      sales_amount := 500; quantity := 1 |}) in
  sales_fact_result small (sales_fact small)
  /\ In a (sales_fact small) /\ In b (sales_fact small)
  /\ key_le (shown_key (snd a)) (shown_key (snd b)).
Proof.
  intros a b. pose proof (sales_fact_is_result small) as H.
  assert (Ha : In a (sales_fact small)) by (left; reflexivity).
  assert (Hb : In b (sales_fact small))
    by (right; right; left; reflexivity).
  split; [exact H|]. split; [exact Ha|]. split; [exact Hb|].
  apply (keys_follow_order small (sales_fact small) a b H Ha Hb).
  simpl. lia.
Defined.

(** *** Unique keys *)

Section AtMostOne.
Context {A B : Type} (key : A -> Z) (F : A -> list B) (k : Z).

Let pick (x : A) : list B := if k =? key x then F x else [].

Lemma no_match (l : list A) :
  ~ In k (map key l) -> flat_map pick l = [].
Proof.
  induction l as [|x l IH]; simpl; intros H; [reflexivity|].
  unfold pick at 1. destruct (k =? key x) eqn:E.
  - apply Z.eqb_eq in E. exfalso. apply H. now left.
  - simpl. apply IH. intros Hin. apply H. now right.
Qed.

Lemma at_most_one (l : list A) :
  NoDup (map key l) ->
  (forall x, length (F x) <= 1)%nat ->
  (length (flat_map pick l) <= 1)%nat.
Proof.
  intros Hn HF. induction l as [|x l IH]; simpl; [lia|].
  inversion Hn as [|? ? Hx Hn']; subst.
  rewrite length_app. unfold pick at 1. destruct (k =? key x) eqn:E.
  - apply Z.eqb_eq in E. rewrite no_match; [|now rewrite E].
    simpl. specialize (HF x). lia.
  - simpl. now apply IH.
Qed.

End AtMostOne.

Section Distinct.
Context {A B K : Type} (G : A -> list B) (g : A -> K) (h : B -> K).
Hypothesis one : forall x, (length (G x) <= 1)%nat.
Hypothesis same : forall x y, In y (G x) -> h y = g x.

Lemma flat_map_short (l : list A) :
  (length (flat_map G l) <= length l)%nat.
Proof.
  induction l as [|x l IH]; simpl; [lia|].
  rewrite length_app. specialize (one x). lia.
Qed.

Lemma flat_map_distinct (l : list A) :
  NoDup (map g l) -> NoDup (map h (flat_map G l)).
Proof.
  induction l as [|x l IH]; simpl; intros Hn; [constructor|].
  inversion Hn as [|? ? Hx Hn']; subst.
  rewrite map_app. specialize (IH Hn').
  pose proof (one x) as Hone. pose proof (same x) as Hsame.
  destruct (G x) as [|y [|z ys]]; simpl in *; [exact IH| |lia].
  constructor; [|exact IH].
  rewrite (Hsame y (or_introl eq_refl)). intros Hin. apply Hx.
  apply in_map_iff in Hin as (y' & Hy & Hin).
  apply in_flat_map in Hin as (x' & Hx' & Hy').
  apply in_map_iff. exists x'. split; [|exact Hx'].
  now rewrite <- (same x' y' Hy').
Qed.

End Distinct.

Lemma rows_of_one (s : snapshot) (l : lineitem) :
  NoDup (map o_orderkey (orders s)) ->
  NoDup (map c_custkey (customers s)) ->
  NoDup (map s_suppkey (suppliers s)) ->
  (length (rows_of s l) <= 1)%nat.
Proof.
  intros Ho Hc Hs. unfold rows_of.
  apply (at_most_one o_orderkey _ (l_orderkey l)); [exact Ho|]. intros o.
  apply (at_most_one c_custkey _ (o_custkey o)); [exact Hc|]. intros c.
  apply (at_most_one s_suppkey _ (l_suppkey l)); [exact Hs|]. intros su.
  simpl. lia.
Qed.

Lemma rows_of_key (s : snapshot) (l : lineitem) (j : joined) :
  In j (rows_of s l) -> order_by j = line_key l.
Proof.
  unfold rows_of. intros H.
  apply in_flat_map in H as (o & _ & H).
  destruct (l_orderkey l =? o_orderkey o); [|contradiction].
  apply in_flat_map in H as (c & _ & H).
  destruct (o_custkey o =? c_custkey c); [|contradiction].
  apply in_flat_map in H as (su & _ & H).
  destruct (l_suppkey l =? s_suppkey su); [|contradiction].
  destruct H as [<-|[]]. reflexivity.
Qed.

(** X6.  When the keys of the four tables identify their rows, every line
    item yields at most one fact row, so the fact table has at most as
    many rows as there are line items, no two joined rows share an
    ordering key, and any two runs of the query give the same table. *)
Theorem primary_keys_one_row_per_line (s : snapshot)
  (out1 out2 : list (nat * fact)) :
  primary_keys s ->
  sales_fact_result s out1 -> sales_fact_result s out2 ->
  (length out1 <= length (lineitems s))%nat
  /\ NoDup (map order_by (join s))
  /\ out1 = out2.
Proof.
  intros (Hl & Ho & Hc & Hs) H1 H2.
  assert (Hn : NoDup (map order_by (join s))).
  { change (join s) with (flat_map (rows_of s) (lineitems s)).
    apply flat_map_distinct with (g := line_key); [|apply rows_of_key|exact Hl].
    intros l. now apply rows_of_one. }
  split; [|split; [exact Hn|now apply (result_unique s)]].
  rewrite (proj2 (result_keys s out1 H1)).
  change (join s) with (flat_map (rows_of s) (lineitems s)).
  apply flat_map_short. intros l. now apply rows_of_one.
Qed.

Lemma primary_keys_one_row_per_line_small :
  primary_keys small
  /\ (length (sales_fact small) <= length (lineitems small))%nat
  /\ NoDup (map order_by (join small)).
Proof.
  assert (Hk : primary_keys small).
  { unfold primary_keys. cbv [small lineitems orders customers suppliers
                                map line_key l_orderkey l_linenumber
                                o_orderkey c_custkey s_suppkey].
    repeat split; repeat constructor; simpl; intuition discriminate. }
  destruct (primary_keys_one_row_per_line small (sales_fact small)
              (sales_fact small) Hk (sales_fact_is_result small)
              (sales_fact_is_result small)) as (Hl & Hn & _).
  auto.
Defined.

(** *** Stored order does not matter *)

Lemma flat_map_pointwise {A B : Type} (f g : A -> list B) (l : list A) :
  (forall x, Permutation (f x) (g x)) ->
  Permutation (flat_map f l) (flat_map g l).
Proof.
  intros Hfg. induction l as [|x l IH]; simpl; [constructor|].
  now apply Permutation_app.
Qed.

Lemma flat_map_perm_same {A B : Type} (f : A -> list B) (l l' : list A) :
  Permutation l l' -> Permutation (flat_map f l) (flat_map f l').
Proof.
  induction 1 as [|x l l' _ IH|x y l|l l' l'' _ IH1 _ IH2]; simpl.
  - constructor.
  - now apply Permutation_app_head.
  - rewrite !app_assoc. apply Permutation_app_tail, Permutation_app_comm.
  - now rewrite IH1.
Qed.

Lemma flat_map_perm {A B : Type} (f g : A -> list B) (l l' : list A) :
  Permutation l l' ->
  (forall x, Permutation (f x) (g x)) ->
  Permutation (flat_map f l) (flat_map g l').
Proof.
  intros Hp Hfg. rewrite (flat_map_perm_same f l l' Hp).
  now apply flat_map_pointwise.
Qed.

Lemma join_perm (s s' : snapshot) :
  same_rows s s' -> Permutation (join s) (join s').
Proof.
  intros (Hl & Ho & Hc & Hs). unfold join.
  apply flat_map_perm; [exact Hl|]. intros l.
  apply flat_map_perm; [exact Ho|]. intros o.
  destruct (l_orderkey l =? o_orderkey o); [|constructor].
  apply flat_map_perm; [exact Hc|]. intros c.
  destruct (o_custkey o =? c_custkey c); [|constructor].
  now apply flat_map_perm_same.
Qed.

(** X7.  The results of the query depend on the rows of the four tables
    only, not on the order in which they are stored: two snapshots with
    the same rows have the same results. *)
Theorem stored_order_irrelevant (s s' : snapshot) (out : list (nat * fact)) :
  same_rows s s' ->
  sales_fact_result s out ->
  sales_fact_result s' out.
Proof.
  intros Hsame (js & Hp & Hs & ->). exists js.
  split; [|split; [exact Hs|reflexivity]].
  rewrite Hp. now apply join_perm.
Qed.

Lemma stored_order_irrelevant_small :
  let s' := {| lineitems := rev (lineitems small); orders := rev (orders small);
               customers := customers small; suppliers := suppliers small |} in
  same_rows small s'
  /\ sales_fact_result s' (sales_fact small)
  /\ sales_fact s' = sales_fact small.
Proof.
  intros s'.
  assert (H : same_rows small s').
  { repeat split; simpl; try reflexivity.
    - apply (Permutation_rev (lineitems small)).
    - apply (Permutation_rev (orders small)). }
  split; [exact H|]. split; [|reflexivity].
  exact (stored_order_irrelevant small s' _ H (sales_fact_is_result small)).
Defined.

(** *** Empty tables *)

Lemma join_empty (s : snapshot) :
  lineitems s = [] \/ orders s = [] \/ customers s = [] \/ suppliers s = [] ->
  join s = [].
Proof.
  intros H. destruct (join s) as [|[[[l o] c] su] js] eqn:E; [reflexivity|].
  assert (Hin : In (l, o, c, su) (join s)) by (rewrite E; now left).
  apply join_sound in Hin as (Hl & Ho & Hc & Hs & _).
  destruct H as [H|[H|[H|H]]]; rewrite H in *; contradiction.
Qed.

(** X8.  When one of the four tables is empty (a source directory without
    rows, say), the fact table is empty: the query has the empty table as
    its only result, and raises nothing. *)
Theorem empty_table_empty_facts (s : snapshot) (out : list (nat * fact)) :
  lineitems s = [] \/ orders s = [] \/ customers s = [] \/ suppliers s = [] ->
  sales_fact s = []
  /\ sales_fact_result s []
  /\ (sales_fact_result s out -> out = []).
Proof.
  intros H. pose proof (join_empty s H) as E.
  assert (Hs : sales_fact s = []) by (unfold sales_fact; now rewrite E).
  split; [exact Hs|]. split; [rewrite <- Hs; apply sales_fact_is_result|].
  intros (js & Hp & _ & ->). rewrite E in Hp.
  apply Permutation_sym, Permutation_nil in Hp. now subst js.
Qed.

Lemma empty_table_empty_facts_no_customers :
  let s := {| lineitems := lineitems small; orders := orders small;
              customers := []; suppliers := suppliers small |} in
  customers s = [] /\ sales_fact s = [].
Proof.
  intros s. split; [reflexivity|].
  exact (proj1 (empty_table_empty_facts s []
                  (or_intror (or_intror (or_introl eq_refl))))).
Defined.

End JoinFacts.

(** ** More on the row filter and the column mask *)

Module ReaderFacts.
Import Sql Labs Security.

Lemma filter_all {A : Type} (p : A -> bool) (l : list A) :
  (forall x, p x = true) -> filter p l = l.
Proof.
  intros H. induction l as [|x l IH]; simpl; [reflexivity|].
  now rewrite H, IH.
Qed.

Lemma filter_again {A : Type} (p : A -> bool) (l : list A) :
  filter p (filter p l) = filter p l.
Proof.
  induction l as [|x l IH]; simpl; [reflexivity|].
  destruct (p x) eqn:E; simpl; [rewrite E|]; now rewrite ?IH.
Qed.

(** X9.  A reader outside [geo], to whom the policy applies, sees of a
    table with a tagged nation column exactly the rows whose nation is
    UNITED STATES or CANADA; a row whose nation is NULL, or is not a
    string, is not shown. *)
Theorem row_filter_shows_two_nations (who : session) (t : table) (i : nat)
  (r : row) :
  applies_to who account_users = true ->
  is_account_group_member who "geo" = false ->
  bound_column (HasTag "uc_geo") (columns t) = Some i ->
  In r (read_nation_filter who t)
  <-> In r (rows t)
      /\ (nth i r VNull = VStr "UNITED STATES"
          \/ nth i r VNull = VStr "CANADA").
Proof.
  intros Ha Hg Hb. unfold read_nation_filter. rewrite Ha, Hb, filter_In.
  unfold visible, filter_nation. rewrite Hg.
  split; intros [Hin H]; (split; [exact Hin|]).
  - destruct (nth i r VNull) as [|b|s|z]; simpl in H; try discriminate.
    destruct (s =? "UNITED STATES") eqn:E1.
    + apply String.eqb_eq in E1. subst. now left.
    + destruct (s =? "CANADA") eqn:E2; [|discriminate].
      apply String.eqb_eq in E2. subst. now right.
  - destruct H as [-> | ->]; reflexivity.
Qed.

Lemma row_filter_shows_two_nations_analyst :
  applies_to analyst account_users = true
  /\ is_account_group_member analyst "geo" = false
  /\ bound_column (HasTag "uc_geo") (columns tagged_customers) = Some 2%nat
  /\ In [VInt 1; VStr "1 Main St"; VStr "CANADA"]
        (read_nation_filter analyst tagged_customers)
  /\ ~ In [VInt 3; VNull; VNull] (read_nation_filter analyst tagged_customers).
Proof.
  split; [reflexivity|]. split; [reflexivity|]. split; [reflexivity|]. split.
  - apply (row_filter_shows_two_nations analyst tagged_customers 2);
      try reflexivity.
    split; [left; reflexivity|right; reflexivity].
  - intros H.
    apply (row_filter_shows_two_nations analyst tagged_customers 2) in H;
      try reflexivity.
    destruct H as [_ [H|H]]; discriminate H.
Defined.

(** X10.  A member of [geo] reads every table in full. *)
Theorem geo_members_read_all (who : session) (t : table) :
  is_account_group_member who "geo" = true ->
  read_nation_filter who t = rows t.
Proof.
  intros Hg. unfold read_nation_filter.
  destruct (applies_to who account_users); [|reflexivity].
  destruct (bound_column (HasTag "uc_geo") (columns t)); [|reflexivity].
  apply filter_all. intros r. unfold visible, filter_nation. now rewrite Hg.
Qed.

Lemma geo_members_read_all_example :
  let geographer := {| login := "geo@example.com";
                       groups := ["account users"; "geo"] |} in
  is_account_group_member geographer "geo" = true
  /\ read_nation_filter geographer tagged_customers = rows tagged_customers.
Proof.
  intros g. split; [reflexivity|].
  apply (geo_members_read_all g tagged_customers). reflexivity.
Defined.

(** X11.  Filtering twice is filtering once: a read under the policy of
    what a reader already read under the policy shows the same rows. *)
Theorem row_filter_twice (who : session) (t : table) :
  read_nation_filter who (with_rows t (read_nation_filter who t))
  = read_nation_filter who t.
Proof.
  unfold read_nation_filter, with_rows. simpl.
  destruct (applies_to who account_users); [|reflexivity].
  destruct (bound_column (HasTag "uc_geo") (columns t)); [|reflexivity].
  apply filter_again.
Qed.

(** *** Column mask *)

Lemma mask_cell_constant (who : session) (v : value) :
  is_account_group_member who "hr_admin" = false ->
  maskable v = true ->
  mask_cell who v = VStr mask_literal.
Proof.
  intros Hh Hv. unfold mask_cell, mask_address. rewrite Hh.
  destruct v; try discriminate; reflexivity.
Qed.

Lemma mask_row_hides (who : session) (cols : list column) (r1 r2 : row) :
  is_account_group_member who "hr_admin" = false ->
  differ_only_in_masked cols r1 r2 ->
  mask_row who cols r1 = mask_row who cols r2.
Proof.
  intros Hh. revert r1 r2.
  induction cols as [|c cols IH]; intros [|v1 r1] [|v2 r2] H;
    simpl in H; try contradiction; [reflexivity|].
  destruct H as [Hc Hr]. simpl. rewrite (IH r1 r2 Hr). f_equal.
  destruct (binds (HasTagValue "uc_pii" "address") c); [|exact Hc].
  destruct Hc as [H1 H2]. now rewrite !mask_cell_constant.
Qed.

(** X12.  What a reader outside [hr_admin] reads under the mask policy
    does not depend on the addresses stored: two tables with the same
    columns whose rows differ only in the cells of masked columns read
    the same. *)
Theorem masked_read_hides_addresses (who : session) (t1 t2 : table) :
  applies_to who account_users = true ->
  is_account_group_member who "hr_admin" = false ->
  columns t1 = columns t2 ->
  Forall2 (differ_only_in_masked (columns t1)) (rows t1) (rows t2) ->
  read_mask_address who t1 = read_mask_address who t2.
Proof.
  intros Ha Hh Hc Hr. unfold read_mask_address. rewrite Ha, <- Hc. f_equal.
  induction Hr as [|r1 r2 l1 l2 H _ IH]; simpl; [reflexivity|].
  now rewrite IH, (mask_row_hides who _ r1 r2 Hh H).
Qed.

Lemma masked_read_hides_addresses_analyst :
  let other := with_rows tagged_customers
                 [ [VInt 1; VStr "9 Elm Rd"; VStr "CANADA"];
                   [VInt 2; VNull; VStr "FRANCE"];
                   [VInt 3; VStr "5 Oak Ave"; VNull] ] in
  applies_to analyst account_users = true
  /\ is_account_group_member analyst "hr_admin" = false
  /\ rows other <> rows tagged_customers
  /\ read_mask_address analyst tagged_customers
     = read_mask_address analyst other.
Proof.
  intros other. split; [reflexivity|]. split; [reflexivity|].
  split; [discriminate|].
  apply (masked_read_hides_addresses analyst tagged_customers other);
    try reflexivity.
  repeat constructor.
Defined.

Lemma mask_row_member (who : session) (cols : list column) (r : row) :
  is_account_group_member who "hr_admin" = true ->
  mask_row who cols r = r.
Proof.
  intros Hh. revert r. induction cols as [|c cols IH]; intros [|v r];
    simpl; try reflexivity.
  rewrite IH. f_equal.
  destruct (binds (HasTagValue "uc_pii" "address") c); [|reflexivity].
  unfold mask_cell, mask_address. rewrite Hh. now destruct v.
Qed.

(** X13.  A member of [hr_admin] reads every table as it is stored. *)
Theorem hr_admin_reads_unmasked (who : session) (t : table) :
  is_account_group_member who "hr_admin" = true ->
  read_mask_address who t = t.
Proof.
  intros Hh. unfold read_mask_address. destruct t as [cols rs]. simpl.
  f_equal. destruct (applies_to who account_users); [|reflexivity].
  induction rs as [|r rs IH]; simpl; [reflexivity|].
  now rewrite IH, mask_row_member.
Qed.

Lemma hr_admin_reads_unmasked_officer :
  is_account_group_member hr_officer "hr_admin" = true
  /\ read_mask_address hr_officer tagged_customers = tagged_customers.
Proof.
  split; [reflexivity|].
  apply (hr_admin_reads_unmasked hr_officer tagged_customers). reflexivity.
Defined.

(** X14.  The mask touches no other column: for every reader, a cell of a
    column that does not carry the tag value uc_pii = address, or is not
    a string column, is read as stored. *)
Theorem unmasked_columns_untouched (who : session) (cols : list column)
  (r : row) (i : nat) (c : column) :
  nth_error cols i = Some c ->
  binds (HasTagValue "uc_pii" "address") c = false ->
  nth_error (mask_row who cols r) i = nth_error r i.
Proof.
  revert r i. induction cols as [|d cols IH]; intros r i Hc Hb.
  - now destruct i.
  - destruct r as [|v r]; [reflexivity|]. destruct i as [|i]; simpl in *.
    + injection Hc as ->. now rewrite Hb.
    + now apply IH.
Qed.

Lemma unmasked_columns_untouched_nation :
  nth_error (columns tagged_customers) 2
  = Some {| col_name := "n_name"; col_type := TString;
            col_tags := [("uc_geo", None)] |}
  /\ nth_error (mask_row analyst (columns tagged_customers)
                         [VInt 1; VStr "1 Main St"; VStr "CANADA"]) 2
     = Some (VStr "CANADA").
Proof.
  split; [reflexivity|].
  apply (unmasked_columns_untouched analyst (columns tagged_customers)
           [VInt 1; VStr "1 Main St"; VStr "CANADA"] 2
           {| col_name := "n_name"; col_type := TString;
              col_tags := [("uc_geo", None)] |}); reflexivity.
Defined.

End ReaderFacts.

(** ** The notebooks as wholes *)

Module NotebookFacts.
Import Sql Platform Labs Identity PlatformFacts GrantFacts.

Lemma lab1_run (user_name : string) (st : state) :
  has_catalog st (catalog_name user_name) = true ->
  run (lab1 user_name) st
  = (lab1_state (catalog_name user_name) st, Finished).
Proof.
  intros Hc. unfold lab1, run, lab1_state.
  set (c := catalog_name user_name) in *.
  assert (Hs : forall b l,
             existsb (fun e => key2_eqb (fst e) (c, "sales")) l = b ->
             existsb (fun e => key2_eqb (fst e) (c, "sales"))
               (if b then l
                else ((c, "sales"),
                      "Sales schema to review customers and orders.") :: l)
             = true) by (intros; now apply NamespaceFacts.has_schema_added).
  eapply run_from_step; [now apply exec_use_catalog|].
  eapply run_from_step; [apply exec_query, must_found; exact Hc|].
  eapply run_from_step; [now apply exec_query|].
  eapply run_from_step; [now apply exec_query|].
  eapply run_from_step;
    [apply exec_create_schema_if_not_exists with (k := (c, "sales"));
     [reflexivity|exact Hc]|].
  eapply run_from_step;
    [apply exec_use_schema; [reflexivity|apply Hs; reflexivity]|].
  eapply run_from_step; [now apply exec_query|].
  eapply run_from_step;
    [apply exec_create_volume_if_not_exists
       with (k := (c, "sales", "tracking"));
     [reflexivity|apply Hs; reflexivity]|].
  eapply run_from_step;
    [apply exec_query, must_found; apply Hs; reflexivity|].
  reflexivity.
Qed.

Lemma lab1_state_again (c : string) (st : state) :
  lab1_state c (lab1_state c st) = lab1_state c st.
Proof.
  unfold lab1_state, has_volume, has_schema. destruct st; simpl.
  assert (Hv : forall (l : list (key3 * string)) k cm,
             existsb (fun e => key3_eqb (fst e) k)
               (if existsb (fun e => key3_eqb (fst e) k) l then l
                else (k, cm) :: l) = true)
    by (intros; now apply NamespaceFacts.has_volume_added).
  assert (Hs : forall (l : list (key2 * string)) k cm,
             existsb (fun e => key2_eqb (fst e) k)
               (if existsb (fun e => key2_eqb (fst e) k) l then l
                else (k, cm) :: l) = true)
    by (intros; now apply NamespaceFacts.has_schema_added).
  now rewrite Hv, Hs.
Qed.

(** X15.  Lab 1 can be run again: on a service that has the user's
    catalog the notebook finishes, and a second run finishes as well and
    leaves the service exactly as the first run left it. *)
Theorem lab1_rerun (user_name : string) (st : state) :
  has_catalog st (catalog_name user_name) = true ->
  exists st1,
    run (lab1 user_name) st = (st1, Finished)
    /\ run (lab1 user_name) st1 = (st1, Finished).
Proof.
  intros Hc. exists (lab1_state (catalog_name user_name) st).
  split; [now apply lab1_run|].
  rewrite lab1_run; [now rewrite lab1_state_again|exact Hc].
Qed.

Lemma lab1_rerun_jdoe :
  has_catalog provisioned (catalog_name "jdoe@example.com") = true
  /\ exists st1,
       run (lab1 "jdoe@example.com") provisioned = (st1, Finished)
       /\ run (lab1 "jdoe@example.com") st1 = (st1, Finished).
Proof.
  split; [reflexivity|].
  apply (lab1_rerun "jdoe@example.com" provisioned). reflexivity.
Defined.

(** *** Lab 4 *)

Ltac lab4_step lemma := eapply run_from_step; [lemma|].

Lemma lab4_run (user_name : string) (st : state) :
  lab4_ready (catalog_name user_name) st = true ->
  run (lab4 user_name) st
  = (set_grants (lab4_grants (catalog_name user_name) user_name (grants st))
                (set_context (catalog_name user_name) "sales" st),
     Finished).
Proof.
  intros Hready. unfold lab4_ready in Hready.
  apply andb_true_iff in Hready as [Hready Hvol].
  apply andb_true_iff in Hready as [Hready Htbl].
  apply andb_true_iff in Hready as [Hready Hsch].
  apply andb_true_iff in Hready as [Hreg Hcat].
  unfold lab4, run, schema_name. set (c := catalog_name user_name) in *.
  lab4_step ltac:(now apply exec_use_catalog).
  lab4_step ltac:(apply exec_use_schema; [reflexivity|exact Hsch]).
  lab4_step ltac:(now apply exec_query).
  lab4_step ltac:(apply exec_grant with (o := SCatalog c);
                  [reflexivity|exact Hcat]).
  lab4_step ltac:(apply exec_grant with (o := SCatalog c);
                  [reflexivity|exact Hcat]).
  lab4_step ltac:(apply exec_grant with (o := SSchema (c, "sales"));
                  [reflexivity|exact Hsch]).
  lab4_step ltac:(apply exec_grant with (o := SSchema (c, "sales"));
                  [reflexivity|exact Hsch]).
  lab4_step ltac:(apply exec_grant
                    with (o := STable (c, "sales", "sales_fact"));
                  [reflexivity|exact Htbl]).
  lab4_step ltac:(apply exec_grant
                    with (o := SVolume (c, "sales", "tracking"));
                  [reflexivity|exact Hvol]).
  lab4_step ltac:(apply show_grants_accepted with (o := SCatalog c);
                  [simpl; now rewrite Hreg|exact Hcat]).
  lab4_step ltac:(apply show_grants_accepted
                    with (o := SSchema (c, "sales"));
                  [reflexivity|exact Hsch]).
  lab4_step ltac:(apply show_grants_accepted
                    with (o := STable (c, "sales", "sales_fact"));
                  [simpl; now rewrite Hreg|exact Htbl]).
  lab4_step ltac:(apply show_grants_accepted
                    with (o := SVolume (c, "sales", "tracking"));
                  [simpl; now rewrite Hreg|exact Hvol]).
  lab4_step ltac:(apply exec_revoke
                    with (o := SVolume (c, "sales", "tracking"));
                  [reflexivity|exact Hvol]).
  lab4_step ltac:(apply exec_revoke
                    with (o := STable (c, "sales", "sales_fact"));
                  [reflexivity|exact Htbl]).
  lab4_step ltac:(apply exec_revoke with (o := SSchema (c, "sales"));
                  [reflexivity|exact Hsch]).
  lab4_step ltac:(apply exec_revoke with (o := SSchema (c, "sales"));
                  [reflexivity|exact Hsch]).
  lab4_step ltac:(apply exec_revoke with (o := SCatalog c);
                  [reflexivity|exact Hcat]).
  lab4_step ltac:(apply exec_revoke with (o := SCatalog c);
                  [reflexivity|exact Hcat]).
  lab4_step ltac:(now apply exec_query).
  lab4_step ltac:(now apply exec_query).
  reflexivity.
Qed.

Lemma In_added (gs : list grant_entry) (g : grant_entry)
  (l : list grant_entry) :
  In g (fold_left (fun l g => add_grant g l) gs l) <-> In g l \/ In g gs.
Proof.
  revert l. induction gs as [|h gs IH]; intros l; simpl; [tauto|].
  rewrite IH, In_add_grant. intuition congruence.
Qed.

Lemma In_removed (gs : list grant_entry) (g : grant_entry)
  (l : list grant_entry) :
  In g (fold_left (fun l g => remove_grant g l) gs l)
  <-> In g l /\ ~ In g gs.
Proof.
  revert l. induction gs as [|h gs IH]; intros l; simpl; [tauto|].
  rewrite IH, In_remove_grant. intuition congruence.
Qed.

(** X16.  The whole effect of lab 4.  On a service that has the objects of
    labs 1 and 3 the notebook finishes; it leaves catalogs, schemas,
    volumes and tables as they were and the context at (catalog, sales);
    and a grant is in force afterwards exactly when it was in force
    before or is one of the two grants to the user, and is none of the six
    grants to `account users` that the notebook revokes.  In particular a
    BROWSE or USE_CATALOG grant that `account users` held on the catalog
    before the run is gone. *)
Theorem lab4_effect (user_name : string) (st : state) :
  lab4_ready (catalog_name user_name) st = true ->
  exists st',
    run (lab4 user_name) st = (st', Finished)
    /\ catalogs st' = catalogs st /\ schemas st' = schemas st
    /\ volumes st' = volumes st /\ tables st' = tables st
    /\ cur_catalog st' = catalog_name user_name /\ cur_schema st' = "sales"
    /\ forall g,
         In g (grants st')
         <-> (In g (grants st)
              \/ g = (USE_CATALOG, SCatalog (catalog_name user_name), user_name)
              \/ g = (BROWSE, SCatalog (catalog_name user_name), user_name))
             /\ ~ In g (lab4_revoked (catalog_name user_name)).
Proof.
  intros Hready. eexists. split; [now apply lab4_run|].
  repeat (split; [reflexivity|]).
  intros g. cbn [grants set_grants]. unfold lab4_grants.
  rewrite In_removed, In_added.
  set (c := catalog_name user_name).
  split; intros [H Hn]; (split; [|exact Hn]).
  - destruct H as [H|H]; [now left|]. simpl in H.
    destruct H as [H|[H|H]]; [right; left; now symmetry
                             |right; right; now symmetry|].
    exfalso. apply Hn. simpl. intuition.
  - destruct H as [H|[H|H]]; [now left| |]; right; subst g; simpl; auto.
Qed.

Lemma lab4_effect_after_lab3 :
  lab4_ready (catalog_name "jdoe@example.com") after_lab3 = true
  /\ exists st',
       run (lab4 "jdoe@example.com") after_lab3 = (st', Finished)
       /\ tables st' = tables after_lab3
       /\ (In (BROWSE, SCatalog "jdoe", "jdoe@example.com") (grants st')
           <-> (In (BROWSE, SCatalog "jdoe", "jdoe@example.com")
                   (grants after_lab3)
                \/ (BROWSE, SCatalog "jdoe", "jdoe@example.com")
                   = (USE_CATALOG, SCatalog "jdoe", "jdoe@example.com")
                \/ (BROWSE, SCatalog "jdoe", "jdoe@example.com")
                   = (BROWSE, SCatalog "jdoe", "jdoe@example.com"))
               /\ ~ In (BROWSE, SCatalog "jdoe", "jdoe@example.com")
                       (lab4_revoked "jdoe")).
Proof.
  assert (Hr : lab4_ready (catalog_name "jdoe@example.com") after_lab3 = true)
    by (vm_compute; reflexivity).
  split; [exact Hr|].
  destruct (lab4_effect "jdoe@example.com" after_lab3 Hr)
    as (st' & Hrun & _ & _ & _ & Ht & _ & _ & Hg).
  exists st'. split; [exact Hrun|]. split; [exact Ht|].
  exact (Hg (BROWSE, SCatalog "jdoe", "jdoe@example.com")).
Defined.

(** X17.  With a user identifier that is not a regular SQL identifier (a
    dot or a dash in the part before '@'), lab 4 stops at the first cell
    that writes the catalog name without backquotes, SHOW GRANTS ON
    CATALOG (cell 9): the six grants have been made, no REVOKE has run,
    and `account users` keep USE_SCHEMA and SELECT on the schema, SELECT on
    the fact table and READ_VOLUME on the volume. *)
Theorem lab4_irregular_identifier (user_name : string) (st : state) :
  regular (catalog_name user_name) = false ->
  lab4_objects (catalog_name user_name) st = true ->
  exists st',
    run (lab4 user_name) st = (st', Aborted 9 PlatformError)
    /\ forall g, In g (lab4_granted (catalog_name user_name) user_name) ->
                 has_grant st' g = true.
Proof.
  intros Hreg Hobj. unfold lab4_objects in Hobj.
  apply andb_true_iff in Hobj as [Hobj Hvol].
  apply andb_true_iff in Hobj as [Hobj Htbl].
  apply andb_true_iff in Hobj as [Hcat Hsch].
  unfold lab4, run, schema_name. set (c := catalog_name user_name) in *.
  eexists. split.
  - lab4_step ltac:(now apply exec_use_catalog).
    lab4_step ltac:(apply exec_use_schema; [reflexivity|exact Hsch]).
    lab4_step ltac:(now apply exec_query).
    lab4_step ltac:(apply exec_grant with (o := SCatalog c);
                    [reflexivity|exact Hcat]).
    lab4_step ltac:(apply exec_grant with (o := SCatalog c);
                    [reflexivity|exact Hcat]).
    lab4_step ltac:(apply exec_grant with (o := SSchema (c, "sales"));
                    [reflexivity|exact Hsch]).
    lab4_step ltac:(apply exec_grant with (o := SSchema (c, "sales"));
                    [reflexivity|exact Hsch]).
    lab4_step ltac:(apply exec_grant
                      with (o := STable (c, "sales", "sales_fact"));
                    [reflexivity|exact Htbl]).
    lab4_step ltac:(apply exec_grant
                      with (o := SVolume (c, "sales", "tracking"));
                    [reflexivity|exact Hvol]).
    apply run_from_abort. unfold exec. simpl. now rewrite Hreg.
  - intros g Hg. apply has_grant_In. cbn [grants set_grants].
    simpl in Hg.
    repeat (destruct Hg as [<-|Hg];
            [repeat (apply In_add_grant; first [left; reflexivity | right])|]).
    contradiction.
Qed.

Lemma lab4_irregular_identifier_dotted :
  let st := set_catalogs [("j.doe", "")]
              (set_schemas [(("j.doe", "sales"), "")]
                 (set_volumes [(("j.doe", "sales", "tracking"), "")]
                    (set_tables [new_table ("j.doe", "sales", "sales_fact") 0
                                           Delta (ReadFiles "")] [] 1
                       provisioned))) in
  regular (catalog_name "j.doe@example.com") = false
  /\ lab4_objects (catalog_name "j.doe@example.com") st = true
  /\ exists st',
       run (lab4 "j.doe@example.com") st = (st', Aborted 9 PlatformError)
       /\ has_grant st' (READ_VOLUME, SVolume ("j.doe", "sales", "tracking"),
                         account_users) = true.
Proof.
  intros st. split; [reflexivity|]. split; [reflexivity|].
  destruct (lab4_irregular_identifier "j.doe@example.com" st eq_refl eq_refl)
    as (st' & Hrun & Hg).
  exists st'. split; [exact Hrun|]. apply Hg. simpl. auto 10.
Defined.

End NotebookFacts.

(** ** Lab 5 as a whole *)

Module Lab5Facts.
Import Sql Platform Labs Identity PlatformFacts GrantFacts TableFacts.

Lemma exec_create_or_replace_function (f : object_ref) (k : key3)
  (param : string) (body : expr) (st : state) :
  resolve_object st f = Some k ->
  has_schema st (fst k) = true ->
  exec (CreateFunction OrReplace f param body) st
  = Ok (set_functions
          ({| f_key := k; f_param := param; f_body := body |}
           :: (if has_function st k
               then filter (fun d => negb (key3_eqb (f_key d) k)) (functions st)
               else functions st)) st).
Proof.
  intros Hr Hs. unfold exec, parsed, create_function, on_create.
  rewrite Hr, Hs. now destruct (has_function st k).
Qed.

Lemma key3_eqb_name (c s a b : string) :
  key3_eqb (c, s, a) (c, s, b) = (a =? b).
Proof. unfold key3_eqb. simpl. now rewrite key2_eqb_refl. Qed.

Lemma function_kept (k k' : key3) (b : bool) (l : list function_entry) :
  key3_eqb k' k = false ->
  existsb (fun d => key3_eqb (f_key d) k') l = true ->
  existsb (fun d => key3_eqb (f_key d) k')
    (if b then filter (fun d => negb (key3_eqb (f_key d) k)) l else l) = true.
Proof.
  intros Hk H. destruct b; [|exact H].
  induction l as [|d l IH]; simpl in *; [discriminate|].
  destruct (key3_eqb (f_key d) k') eqn:E.
  - apply key3_eqb_eq in E. rewrite E, Hk. simpl.
    now rewrite E, key3_eqb_refl.
  - simpl in H. destruct (key3_eqb (f_key d) k); simpl; [now apply IH|].
    rewrite E. now apply IH.
Qed.

Lemma exec_create_policy_new (name : ident) (scope : schema_ref) (k2 : key2)
  (comment : string) (k : policy_kind) (principal : string)
  (cm : column_match) (alias : string) (fk : key3) (st : state) :
  ident_ok name = true ->
  resolve_schema st scope = Some k2 ->
  has_schema st k2 = true ->
  resolve_object st (policy_function k) = Some fk ->
  has_function st fk = true ->
  has_policy st k2 (text_of name) = false ->
  exec (CreatePolicy Plain name scope comment k principal cm alias) st
  = Ok (set_policies
          ({| p_name := text_of name; p_scope := k2; p_comment := comment;
              p_kind := k; p_principal := principal; p_match := cm;
              p_alias := alias |} :: policies st) st).
Proof.
  intros Hn Hr Hs Hf Hfe Hp.
  unfold exec, parsed, checked, create_policy, on_create.
  now rewrite Hn, Hr, Hs, Hf, Hfe, Hp.
Qed.

Lemma exec_create_policy_existing (name : ident) (scope : schema_ref)
  (k2 : key2) (comment : string) (k : policy_kind) (principal : string)
  (cm : column_match) (alias : string) (fk : key3) (st : state) :
  ident_ok name = true ->
  resolve_schema st scope = Some k2 ->
  has_schema st k2 = true ->
  resolve_object st (policy_function k) = Some fk ->
  has_function st fk = true ->
  has_policy st k2 (text_of name) = true ->
  exec (CreatePolicy Plain name scope comment k principal cm alias) st
  = Err PlatformError.
Proof.
  intros Hn Hr Hs Hf Hfe Hp.
  unfold exec, parsed, checked, create_policy, on_create.
  now rewrite Hn, Hr, Hs, Hf, Hfe, Hp.
Qed.

Lemma exec_set_column_tags (t : object_ref) (k : key3) (column : ident)
  (tags : list tag) (st : state) :
  ident_ok column = true ->
  resolve_object st t = Some k ->
  has_table st k = true ->
  exec (SetColumnTags t column tags) st
  = Ok (set_tags (table_tags st)
                 (map (pair (k, text_of column)) tags ++ column_tags st) st).
Proof.
  intros Hc Hr Ht. unfold exec, parsed, checked, set_column_tags.
  now rewrite Hc, Hr, Ht.
Qed.

Lemma exec_set_table_tags (t : object_ref) (k : key3) (tags : list tag)
  (st : state) :
  resolve_object st t = Some k ->
  has_table st k = true ->
  exec (SetTableTags t tags) st
  = Ok (set_tags (map (pair k) tags ++ table_tags st) (column_tags st) st).
Proof.
  intros Hr Ht. unfold exec, parsed, set_table_tags. now rewrite Hr, Ht.
Qed.

Lemma lab5_ready_split (c : string) (st : state) :
  lab5_ready c st = true <->
  regular c = true /\ has_catalog st c = true
  /\ has_schema st (c, "sales") = true
  /\ has_table st (c, "sales", "customers") = true
  /\ has_table st (c, "sales", "suppliers") = true.
Proof. unfold lab5_ready. rewrite !andb_true_iff. tauto. Qed.

Lemma filter_nation_defined (c : string) (b2 : bool) (e2 : function_entry)
  (body : expr) (l : list function_entry) :
  f_key e2 = (c, "sales", "mask_address") ->
  existsb (fun d => key3_eqb (f_key d) (c, "sales", "filter_nation"))
    (e2 :: (if b2
            then filter (fun d => negb (key3_eqb (f_key d)
                                          (c, "sales", "mask_address")))
                   ({| f_key := (c, "sales", "filter_nation");
                       f_param := "nation"; f_body := body |} :: l)
            else {| f_key := (c, "sales", "filter_nation");
                    f_param := "nation"; f_body := body |} :: l)) = true.
Proof.
  intros He. cbn [existsb]. rewrite He, key3_eqb_name.
  change ("mask_address" =? "filter_nation") with false. cbn [orb].
  apply function_kept.
  - now rewrite key3_eqb_name.
  - simpl. now rewrite key3_eqb_refl.
Qed.

Lemma policy_named_same (scope : key2) (name : string) (e : policy_entry) :
  p_scope e = scope -> p_name e = name -> policy_named scope name e = true.
Proof.
  intros <- <-. unfold policy_named.
  now rewrite key2_eqb_refl, String.eqb_refl.
Qed.

Lemma has_policy_In (scope : key2) (name : string) (e : policy_entry)
  (l : list policy_entry) :
  In e l -> p_scope e = scope -> p_name e = name ->
  existsb (policy_named scope name) l = true.
Proof.
  intros Hin Hs Hn. apply existsb_exists. exists e.
  split; [exact Hin|now apply policy_named_same].
Qed.

(** Every state the run passes through gets a name. *)
Ltac lab5_step lemma :=
  eapply DropFacts.run_from_step_in; [lemma|];
  match goal with
  | |- _ (run_from _ _ ?S) =>
      tryif is_var S then idtac else (let S' := fresh "S" in set (S' := S))
  end.

(** Unfold the named states under [functions] and [policies]. *)
Ltac open_lists :=
  repeat match goal with
         | |- context [functions ?S] =>
             is_var S; unfold S;
             cbn [functions set_functions set_policies set_tags set_context]
         | |- context [policies ?S] =>
             is_var S; unfold S;
             cbn [policies set_functions set_policies set_tags set_context]
         end.

Ltac filter_nation_now :=
  unfold has_function; open_lists; apply filter_nation_defined; reflexivity.

Ltac mask_address_now :=
  unfold has_function; open_lists; cbn [existsb f_key];
  now rewrite key3_eqb_refl.

(** The first seven cells: context, two reads, two functions. *)
Ltac lab5_prefix c Hreg Hcat Hsch Hcus Hsup :=
  lab5_step ltac:(now apply exec_use_catalog);
  lab5_step ltac:(apply exec_use_schema; [reflexivity|exact Hsch]);
  lab5_step ltac:(now apply exec_query);
  lab5_step ltac:(apply (table_query_accepted _ (c, "sales", "customers"));
                  [reflexivity|exact Hcus]);
  lab5_step ltac:(apply (table_query_accepted _ (c, "sales", "suppliers"));
                  [reflexivity|exact Hsup]);
  lab5_step ltac:(apply exec_create_or_replace_function
                    with (k := (c, "sales", "filter_nation"));
                  [now apply resolve_bare_object|exact Hsch]);
  lab5_step ltac:(apply exec_create_or_replace_function
                    with (k := (c, "sales", "mask_address"));
                  [now apply resolve_bare_object|exact Hsch]).

(** The first run. *)
Lemma lab5_first_run (user_name : string) (st : state) :
  lab5_ready (catalog_name user_name) st = true ->
  has_policy st (catalog_name user_name, "sales") "nation_filter" = false ->
  has_policy st (catalog_name user_name, "sales") "mask_address" = false ->
  lab5_done (catalog_name user_name) (run (lab5 user_name) st).
Proof.
  intros Hready Hp1 Hp2.
  apply lab5_ready_split in Hready as (Hreg & Hcat & Hsch & Hcus & Hsup).
  unfold lab5, run, schema_name. set (c := catalog_name user_name) in *.
  lab5_prefix c Hreg Hcat Hsch Hcus Hsup.
  lab5_step ltac:(apply exec_create_policy_new
                    with (k2 := (c, "sales"))
                         (fk := (c, "sales", "filter_nation"));
                  [reflexivity|now apply resolve_bare_schema|exact Hsch
                  |now apply resolve_bare_object
                  |filter_nation_now|exact Hp1]).
  lab5_step ltac:(apply exec_create_policy_new
                    with (k2 := (c, "sales"))
                         (fk := (c, "sales", "mask_address"));
                  [reflexivity|now apply resolve_bare_schema|exact Hsch
                  |now apply resolve_bare_object
                  |mask_address_now
                  |unfold has_policy, policy_named; open_lists;
                   cbn [existsb p_scope p_name text_of];
                   rewrite key2_eqb_refl; exact Hp2]).
  lab5_step ltac:(apply exec_set_column_tags
                    with (k := (c, "sales", "customers"));
                  [reflexivity|now apply resolve_bare_object|exact Hcus]).
  lab5_step ltac:(apply exec_set_table_tags
                    with (k := (c, "sales", "suppliers"));
                  [now apply resolve_bare_object|exact Hsup]).
  lab5_step ltac:(apply exec_set_column_tags
                    with (k := (c, "sales", "suppliers"));
                  [reflexivity|now apply resolve_bare_object|exact Hsup]).
  lab5_step ltac:(apply (table_query_accepted _ (c, "sales", "customers"));
                  [reflexivity|exact Hcus]).
  lab5_step ltac:(apply (table_query_accepted _ (c, "sales", "suppliers"));
                  [reflexivity|exact Hsup]).
  unfold lab5_done. cbn [run_from fst snd].
  split; [reflexivity|].
  split; [apply lab5_ready_split; repeat split; assumption|].
  split; [filter_nation_now|]. split; [mask_address_now|].
  split; unfold has_policy; open_lists.
  - eapply has_policy_In; [right; left; reflexivity|reflexivity..].
  - eapply has_policy_In; [left; reflexivity|reflexivity..].
Qed.

(** A run on a state where the first policy exists. *)
Lemma lab5_rejected (user_name : string) (st : state) :
  lab5_ready (catalog_name user_name) st = true ->
  has_policy st (catalog_name user_name, "sales") "nation_filter" = true ->
  lab5_stopped (catalog_name user_name) st (run (lab5 user_name) st).
Proof.
  intros Hready Hp.
  apply lab5_ready_split in Hready as (Hreg & Hcat & Hsch & Hcus & Hsup).
  unfold lab5, run, schema_name. set (c := catalog_name user_name) in *.
  lab5_prefix c Hreg Hcat Hsch Hcus Hsup.
  rewrite run_from_abort with (e := PlatformError).
  - unfold lab5_stopped. cbn [fst snd].
    split; [reflexivity|]. split; [reflexivity|].
    split; [filter_nation_now|mask_address_now].
  - apply exec_create_policy_existing
      with (k2 := (c, "sales")) (fk := (c, "sales", "filter_nation"));
      [reflexivity|now apply resolve_bare_schema|exact Hsch
      |now apply resolve_bare_object|filter_nation_now|exact Hp].
Qed.

(** X18.  Lab 5 is not re-runnable.  On a service where it can run and
    where no policy of its two names exists yet, the notebook finishes and
    leaves both functions and both policies defined; run again on the
    state it left, it replaces the two functions and then stops at CREATE
    POLICY nation_filter (cell 7), rejected by the service, with the
    policies as the first run left them. *)
Theorem lab5_runs_once (user_name : string) (st : state) :
  lab5_ready (catalog_name user_name) st = true ->
  has_policy st (catalog_name user_name, "sales") "nation_filter" = false ->
  has_policy st (catalog_name user_name, "sales") "mask_address" = false ->
  exists st1 st2,
    run (lab5 user_name) st = (st1, Finished)
    /\ has_function st1 (catalog_name user_name, "sales", "filter_nation")
       = true
    /\ has_function st1 (catalog_name user_name, "sales", "mask_address")
       = true
    /\ has_policy st1 (catalog_name user_name, "sales") "nation_filter" = true
    /\ has_policy st1 (catalog_name user_name, "sales") "mask_address" = true
    /\ run (lab5 user_name) st1 = (st2, Aborted 7 PlatformError)
    /\ policies st2 = policies st1.
Proof.
  intros Hready Hp1 Hp2.
  destruct (lab5_first_run user_name st Hready Hp1 Hp2)
    as (Hfin & Hready1 & Hf1 & Hf2 & Hq1 & Hq2).
  destruct (run (lab5 user_name) st) as [st1 o1] eqn:E1.
  simpl in *. subst o1.
  destruct (lab5_rejected user_name st1 Hready1 Hq1) as (Hab & Hpol & _).
  destruct (run (lab5 user_name) st1) as [st2 o2] eqn:E2.
  simpl in *. subst o2.
  exists st1, st2. repeat split; assumption || reflexivity.
Qed.

Lemma lab5_runs_once_jdoe :
  lab5_ready (catalog_name "jdoe@example.com") before_lab5 = true
  /\ has_policy before_lab5 ("jdoe", "sales") "nation_filter" = false
  /\ has_policy before_lab5 ("jdoe", "sales") "mask_address" = false
  /\ exists st1 st2,
       run (lab5 "jdoe@example.com") before_lab5 = (st1, Finished)
       /\ run (lab5 "jdoe@example.com") st1 = (st2, Aborted 7 PlatformError).
Proof.
  assert (Hr : lab5_ready (catalog_name "jdoe@example.com") before_lab5 = true)
    by (vm_compute; reflexivity).
  assert (H1 : has_policy before_lab5 (catalog_name "jdoe@example.com", "sales")
                 "nation_filter" = false) by (vm_compute; reflexivity).
  assert (H2 : has_policy before_lab5 (catalog_name "jdoe@example.com", "sales")
                 "mask_address" = false) by (vm_compute; reflexivity).
  split; [exact Hr|]. split; [exact H1|]. split; [exact H2|].
  destruct (lab5_runs_once "jdoe@example.com" before_lab5 Hr H1 H2)
    as (st1 & st2 & Ha & _ & _ & _ & _ & Hb & _).
  exists st1, st2. split; [exact Ha|exact Hb].
Defined.

End Lab5Facts.

(** ** Lab 3: materialising, dropping and restoring tables *)

Module MaterializeFacts.
Import Sql Platform Labs Identity PlatformFacts GrantFacts TableFacts.

Lemma replace_table_again (k : key3) (f : table_format) (src : table_source)
  (l : list table_entry) :
  replace_table k f src (replace_table k f src l) = replace_table k f src l.
Proof.
  unfold replace_table. rewrite map_map. apply map_ext. intros e.
  destruct (names k e) eqn:E; [|now rewrite E].
  unfold names at 1. simpl. now rewrite key3_eqb_refl.
Qed.

Lemma replace_table_absent (k : key3) (f : table_format) (src : table_source)
  (l : list table_entry) :
  existsb (names k) l = false -> replace_table k f src l = l.
Proof.
  induction l as [|e l IH]; simpl; intros H; [reflexivity|].
  apply orb_false_iff in H as [He Hl]. now rewrite He, (IH Hl).
Qed.

Lemma put_table_again (k : key3) (f : table_format) (src : table_source)
  (id : N) (l : list table_entry) :
  replace_table k f src (put_table k f src id l) = put_table k f src id l.
Proof.
  unfold put_table. destruct (existsb (names k) l) eqn:E.
  - apply replace_table_again.
  - simpl. unfold names at 1. simpl. rewrite key3_eqb_refl.
    now rewrite (replace_table_absent _ _ _ _ E).
Qed.

Lemma resolve_after_tables (a b : list table_entry) (n : N) (st : state)
  (r : object_ref) :
  resolve_object (set_tables a b n st) r = resolve_object st r.
Proof. now destruct r. Qed.

Lemma source_still_ready (k : key3) (f : table_format) (src src' : table_source)
  (st : state) (D : list table_entry) (n : N) :
  source_error st src' = None ->
  source_error
    (set_tables (put_table k f src (next_id st) (tables st)) D n st) src'
  = None.
Proof.
  destruct src' as [path|l o c s]; [trivial|]. simpl.
  rewrite !resolve_after_tables.
  destruct (resolve_object st l) as [kl|]; [|discriminate].
  destruct (resolve_object st o) as [ko|]; [|discriminate].
  destruct (resolve_object st c) as [kc|]; [|discriminate].
  destruct (resolve_object st s) as [ks|]; [|discriminate].
  unfold has_table. cbn [tables set_tables].
  destruct (existsb (names kl) (tables st)) eqn:El; [|discriminate].
  destruct (existsb (names ko) (tables st)) eqn:Eo; [|discriminate].
  destruct (existsb (names kc) (tables st)) eqn:Ec; [|discriminate].
  destruct (existsb (names ks) (tables st)) eqn:Es; [|discriminate].
  intros _.
  now rewrite (put_table_keeps _ kl _ _ _ _ El), (put_table_keeps _ ko _ _ _ _ Eo),
    (put_table_keeps _ kc _ _ _ _ Ec), (put_table_keeps _ ks _ _ _ _ Es).
Qed.

(** X19.  CREATE OR REPLACE TABLE ... AS SELECT can be run again: when a
    first run is accepted, a second run of the same statement is accepted
    too and leaves the catalog as the first run left it (same tables, same
    identifiers, nothing added to the dropped tables). *)
Theorem create_or_replace_again (t : object_ref) (f : table_format)
  (src : table_source) (st st' : state) :
  exec (CreateTableAs OrReplace t f src) st = Ok st' ->
  exec (CreateTableAs OrReplace t f src) st' = Ok st'.
Proof.
  unfold exec, parsed. destruct (resolve_object st t) as [k|] eqn:Er;
    [|discriminate].
  intros H.
  assert (Hs : has_schema st (fst k) = true
               /\ source_error st src = None).
  { unfold create_table_as in H.
    destruct (has_schema st (fst k)); [|discriminate].
    destruct (source_error st src); [discriminate|auto]. }
  destruct Hs as [Hs Hsrc].
  assert (E : exec (CreateTableAs OrReplace t f src) st = Ok st')
    by (unfold exec, parsed; now rewrite Er).
  rewrite (exec_create_or_replace_table t k f src st Er Hs Hsrc) in E.
  injection E as <-.
  assert (Er' : forall S, resolve_object
                   (set_tables (put_table k f src (next_id st) (tables st))
                               (dropped st) S st) t = Some k) by (intro; exact Er).
  rewrite Er'. unfold create_table_as, on_create.
  change (has_schema (set_tables ?a ?b ?c st) (fst k))
    with (has_schema st (fst k)).
  rewrite Hs, source_still_ready by exact Hsrc.
  unfold has_table at 1. cbn [tables set_tables].
  rewrite put_table_has. cbn [tables dropped next_id set_tables].
  now rewrite put_table_again.
Qed.

Lemma create_or_replace_again_customers :
  let s := CreateTableAs OrReplace customers Delta
             (ReadFiles (files_root ++ "customers/")) in
  let st := set_context "jdoe" "sales" after_lab3 in
  exists st', exec s st = Ok st' /\ exec s st' = Ok st'
              /\ has_table st' ("jdoe", "sales", "customers") = true.
Proof.
  intros s st.
  assert (H : exists st', exec s st = Ok st'
                          /\ has_table st' ("jdoe", "sales", "customers")
                             = true)
    by (eexists; split; vm_compute; reflexivity).
  destruct H as (st' & H & Ht). exists st'.
  split; [exact H|]. split; [|exact Ht].
  exact (create_or_replace_again _ _ _ st st' H).
Defined.

(** X20.  DROP TABLE followed by UNDROP TABLE, as cells 16 to 19 of lab 3
    run them, is a round trip: both are accepted, the table is absent in
    between, and afterwards the table is back as the entry it was, with
    its identifier, format and source. *)
Theorem drop_undrop_round_trip (t : object_ref) (k : key3) (e : table_entry)
  (pattern : string) (st : state) :
  resolve_object st t = Some k ->
  find (names k) (tables st) = Some e ->
  exists st1 st2,
    exec (DropTable t) st = Ok st1
    /\ has_table st1 k = false
    /\ exec (Query (SelectAllFrom t)) st1 = Err NotFoundError
    /\ run [DropTable t; Query (ShowTablesLike pattern);
            UndropTable t; Query (ShowTablesLike pattern)] st
       = (st2, Finished)
    /\ find (names k) (tables st2) = Some e
    /\ exec (Query (SelectAllFrom t)) st2 = Ok st2.
Proof.
  intros Hr Hf.
  assert (Hn : names k e = true) by (apply find_some in Hf; tauto).
  assert (Hk : t_key e = k) by now apply key3_eqb_eq.
  do 2 eexists.
  split; [apply exec_drop_table with (k := k) (e := e); assumption|].
  split; [apply dropped_out|].
  split; [apply select_refused with (k := k); [exact Hr|apply dropped_out]|].
  assert (Hfind : find (names k)
                    (e :: filter (fun d => negb (names k d)) (tables st))
                  = Some e) by (cbn [find]; now rewrite Hn).
  split; [|split].
  - unfold run.
    eapply run_from_step;
      [apply exec_drop_table with (k := k) (e := e); assumption|].
    eapply run_from_step; [now apply exec_query|].
    eapply run_from_step;
      [apply exec_undrop_table with (k := k) (e := e);
       [exact Hr|cbn [dropped set_tables find]; now rewrite Hn
       |rewrite Hk; apply dropped_out]|].
    eapply run_from_step; [now apply exec_query|].
    reflexivity.
  - exact Hfind.
  - apply (table_query_accepted t k); [exact Hr|].
    unfold has_table. cbn [tables set_tables existsb]. now rewrite Hn.
Qed.

Lemma drop_undrop_round_trip_customers :
  let st := set_context "jdoe" "sales"
              (fst (run [UndropTable customers] after_lab3)) in
  exists e st2,
    find (names ("jdoe", "sales", "customers")) (tables st) = Some e
    /\ run [DropTable customers; Query (ShowTablesLike "customers");
            UndropTable customers; Query (ShowTablesLike "customers")] st
       = (st2, Finished)
    /\ find (names ("jdoe", "sales", "customers")) (tables st2) = Some e.
Proof.
  intros st.
  assert (H : exists e, find (names ("jdoe", "sales", "customers")) (tables st)
                        = Some e) by (eexists; vm_compute; reflexivity).
  destruct H as (e & He).
  destruct (drop_undrop_round_trip customers ("jdoe", "sales", "customers") e
              "customers" st eq_refl He)
    as (st1 & st2 & _ & _ & _ & Hrun & Hfind & _).
  exists e, st2. auto.
Defined.

Lemma put_table_other (k k' : key3) (f : table_format) (src : table_source)
  (id : N) (l : list table_entry) :
  key3_eqb k k' = false ->
  existsb (names k') (put_table k f src id l) = existsb (names k') l.
Proof.
  intros H. unfold put_table. destruct (existsb (names k) l).
  - apply replace_table_keeps.
  - simpl. unfold names at 1. simpl. now rewrite H.
Qed.

(** X21.  With a user identifier that is not a regular SQL identifier,
    lab 3 creates its first five tables and then stops at the statement
    that builds the fact table, whose name is written without backquotes
    (cell 8): no fact table is built by the run, no DROP runs, and
    [customers] stays in place. *)
Theorem lab3_irregular_identifier (user_name : string) (st : state) :
  regular (catalog_name user_name) = false ->
  has_catalog st (catalog_name user_name) = true ->
  has_schema st (catalog_name user_name, "sales") = true ->
  forallb (fun d => has_file st (files_root ++ d))
          ["customers/"; "nations/"; "orders/"; "regions/"; "suppliers/"]
  = true ->
  let r := run (lab3 user_name) st in
  snd r = Aborted 8 PlatformError
  /\ has_table (fst r) (catalog_name user_name, "sales", "customers") = true
  /\ has_table (fst r) (catalog_name user_name, "sales", "suppliers") = true
  /\ dropped (fst r) = dropped st
  /\ has_table (fst r) (catalog_name user_name, "sales", "sales_fact")
     = has_table st (catalog_name user_name, "sales", "sales_fact").
Proof.
  intros Hreg Hcat Hsch Hfiles. cbn [forallb] in Hfiles.
  apply andb_true_iff in Hfiles as [F1 Hfiles].
  apply andb_true_iff in Hfiles as [F2 Hfiles].
  apply andb_true_iff in Hfiles as [F3 Hfiles].
  apply andb_true_iff in Hfiles as [F4 Hfiles].
  apply andb_true_iff in Hfiles as [F5 _].
  cbv zeta. set (c := catalog_name user_name) in *.
  set (Q := fun r : state * outcome =>
              snd r = Aborted 8 PlatformError
              /\ has_table (fst r) (c, "sales", "customers") = true
              /\ has_table (fst r) (c, "sales", "suppliers") = true
              /\ dropped (fst r) = dropped st
              /\ has_table (fst r) (c, "sales", "sales_fact")
                 = has_table st (c, "sales", "sales_fact")).
  change (Q (run_from 0 (lab3 user_name) st)).
  unfold lab3, schema_name, customers, suppliers. fold c.
  DropFacts.next ltac:(now apply exec_use_catalog).
  DropFacts.next ltac:(apply exec_use_schema; [reflexivity|exact Hsch]).
  DropFacts.next ltac:(now apply exec_query).
  DropFacts.next ltac:(apply exec_create_or_replace_table
                         with (k := (c, "sales", "customers"));
                       [reflexivity|exact Hsch|apply read_files_ready; exact F1]).
  DropFacts.next ltac:(apply exec_create_or_replace_table
                         with (k := (c, "sales", "nations"));
                       [reflexivity|exact Hsch|apply read_files_ready; exact F2]).
  DropFacts.next ltac:(apply exec_create_or_replace_table
                         with (k := (c, "sales", "orders"));
                       [reflexivity|exact Hsch|apply read_files_ready; exact F3]).
  DropFacts.next ltac:(apply exec_create_or_replace_table
                         with (k := (c, "sales", "regions"));
                       [reflexivity|exact Hsch|apply read_files_ready; exact F4]).
  DropFacts.next ltac:(apply exec_create_or_replace_table
                         with (k := (c, "sales", "suppliers"));
                       [reflexivity|exact Hsch|apply read_files_ready; exact F5]).
  rewrite run_from_abort with (e := PlatformError);
    [|unfold exec, parsed; simpl resolve_object; now rewrite Hreg].
  unfold Q. cbn [fst snd].
  split; [reflexivity|].
  split; [DropFacts.has_table_now|]. split; [DropFacts.has_table_now|].
  split; [reflexivity|].
  unfold has_table. repeat DropFacts.open_state.
  rewrite !put_table_other; [reflexivity|..];
    rewrite Lab5Facts.key3_eqb_name; reflexivity.
Qed.

Lemma lab3_irregular_identifier_dotted :
  let st := set_catalogs [("j.doe", ""); ("samples", "")]
              (set_schemas [(("j.doe", "sales"), "");
                            (("samples", "tpch"), "")] provisioned) in
  regular (catalog_name "j.doe@example.com") = false
  /\ snd (run (lab3 "j.doe@example.com") st) = Aborted 8 PlatformError
  /\ has_table (fst (run (lab3 "j.doe@example.com") st))
               ("j.doe", "sales", "customers") = true.
Proof.
  intros st. split; [reflexivity|].
  destruct (lab3_irregular_identifier "j.doe@example.com" st
              eq_refl eq_refl eq_refl eq_refl) as (H1 & H2 & _).
  split; [exact H1|exact H2].
Defined.

End MaterializeFacts.
